(** * ESG scoring and caching core of the company research assistant

    A shallow embedding of the scoring, validation and cache-gate code of
    the repository, and the properties of its specification proved (or
    refuted) against it.

    Embedded source files:
    - [analysis/scorer.py]        : [FloatScorer] (on Python's numbers) and
                                    [SustainabilityScorer] (on exact rationals)
    - [analysis/extractor.py]     : [MetricsExtractor]
    - [reports/pdf_generator.py]  : [PDFGenerator._get_score_level]
    - [ui/components/sidebar.py]  : [get_score_level]
    - [database/db_manager.py]    : [DatabaseManager] (read side)
    - [research/agent.py]         : [ResearchAgent.scrape_sources],
                                    [research_company]
    - [logic/intents.py]          : [IntentClassifier.classify]

    Modelling conventions.
    - Python numbers.  In [FloatScorer] a number ([PyNum]) is an [int], a
      [Z], or a [float], an IEEE 754 binary64 number ([spec_float] with 53
      bits and round to nearest, ties to even), with Python's arithmetic:
      int with int is exact, an int beside a float is converted
      ([OverflowError] beyond the float range), [/] is true division
      (correctly rounded on two ints), comparisons are exact, [round(x, 2)]
      on a float is the float nearest to the nearest two-decimal number, and
      the builtin [sum] is compensated from Python 3.12 on (the flag
      [compensated] says which interpreter runs).  The values a formula
      takes are the values the program computes.
    - [SustainabilityScorer] evaluates the same code of the scorer on exact
      rationals: an [int] is a [Z], a finite [float] is the rational [Q] it
      denotes, and [round(x, n)] rounds the exact value to [n] decimals,
      ties to even.  It carries the properties that do not depend on how a
      result is rounded in its last bit: which records are read, orders,
      ranges, keys, recommendation lists.  The validator and the database
      rows use the same rationals; where the code handles floats that need
      not be finite (the result of [float(...)] on untrusted input) the type
      [pyfloat] adds the two infinities and NaN.
    - Exceptions: a computation that can raise has type [res A]; handlers are
      written with [try_clauses].
    - A [dict] whose keys vary at run time is a [gmap string _]; a dict that
      the code itself builds with fixed keys is a record.  A dict that is
      only iterated in insertion order is the list of its items.
    - Wall-clock time is a parameter [now]; a [datetime] is its number of
      microseconds on an unbounded integer axis.
    - A [str] is a [string] of bytes; [lower()] acts on ASCII letters.
    - The builtins and collaborators whose code is not in the repository
      ([float] on a string, [json.loads], [str.strip], the LLM client, the
      search and scrape requests) are section variables: every theorem
      holds for all of them.  What the code does to the outside in a loop
      (requests, pauses) is returned as the list of its events. *)

From Stdlib Require Import ZArith QArith Qround Qabs Qreduction Lqa Lia Ascii.
From Stdlib Require Import Floats.SpecFloat.
From stdpp Require Import base option list strings gmap sorting pretty.

Set Warnings "-register-all".
Set Default Proof Using "Type".
Local Open Scope Q_scope.

(** ** Python runtime *)

(** The exception classes the embedded code can meet.  All of them derive
    from [Exception] except [KeyboardInterrupt]; [JSONDecodeError] derives
    from [ValueError]. *)
Inductive PyExc : Type :=
  | KeyError (key : string)
  | TypeError
  | ValueError
  | OverflowError
  | AttributeError
  | ZeroDivisionError
  | JSONDecodeError
  | OtherException (cls : string)
  | KeyboardInterrupt.

Definition is_Exception (e : PyExc) : bool :=
  match e with KeyboardInterrupt => false | _ => true end.

Definition is_ValueError (e : PyExc) : bool :=
  match e with ValueError | JSONDecodeError => true | _ => false end.

Definition is_TypeError (e : PyExc) : bool :=
  match e with TypeError => true | _ => false end.

Definition is_JSONDecodeError (e : PyExc) : bool :=
  match e with JSONDecodeError => true | _ => false end.

Inductive res (A : Type) : Type :=
  | Ok (a : A)
  | Raise (e : PyExc).
Arguments Ok {A} a.
Arguments Raise {A} e.

#[global] Instance res_ret : MRet res := fun A => @Ok A.
#[global] Instance res_bind : MBind res := fun A B f m =>
  match m with Ok a => f a | Raise e => Raise e end.

(** [try: ... except C1: h1 except C2: h2]: the first clause whose class
    matches handles the exception. *)
Fixpoint handle {A} (clauses : list ((PyExc -> bool) * (PyExc -> res A)))
    (e : PyExc) : res A :=
  match clauses with
  | [] => Raise e
  | (catches, handler) :: rest =>
      if catches e then handler e else handle rest e
  end.

Definition try_clauses {A} (body : res A)
    (clauses : list ((PyExc -> bool) * (PyExc -> res A))) : res A :=
  match body with
  | Ok a => Ok a
  | Raise e => handle clauses e
  end.

(** [d[key]] on a dict whose field [key] is optional. *)
Definition getitem {A} (key : string) (field : option A) : res A :=
  match field with Some a => Ok a | None => Raise (KeyError key) end.

(** Left-to-right loop with an accumulator that may raise. *)
Fixpoint for_each {A S} (body : S -> A -> res S) (l : list A) (s : S) : res S :=
  match l with
  | [] => Ok s
  | x :: l' => s' ← body s x; for_each body l' s'
  end.

Definition Qltb (a b : Q) : bool := negb (Qle_bool b a).

(** [round(x, ndigits)]: nearest multiple of [10^-ndigits], ties to even. *)
Definition round_half_even (q : Q) : Z :=
  let n := Qfloor q in
  match Qcompare (q - inject_Z n) (1 # 2) with
  | Lt => n
  | Gt => (n + 1)%Z
  | Eq => if Z.even n then n else (n + 1)%Z
  end.

Definition py_round (x : Q) (ndigits : nat) : Q :=
  let scale := Pos.pow 10 (Pos.of_nat ndigits) in
  match ndigits with
  | O => inject_Z (round_half_even x)
  | _ => Qred (round_half_even (x * inject_Z (Zpos scale)) # scale)
  end.

(** [f"{x:.1f}"] *)
Definition format_1f (x : Q) : string :=
  let tenths := round_half_even (Qabs x * 10) in
  ((if Qltb x 0 then "-" else "") +:+
   pretty (tenths / 10)%Z +:+ "." +:+ pretty (tenths mod 10)%Z)%string.

(** [s.lower()], on ASCII letters. *)
Definition lower_ascii (c : Ascii.ascii) : Ascii.ascii :=
  let n := Ascii.nat_of_ascii c in
  if (65 <=? n)%nat && (n <=? 90)%nat then Ascii.ascii_of_nat (n + 32) else c.

Fixpoint str_lower (s : string) : string :=
  match s with
  | EmptyString => EmptyString
  | String c rest => String (lower_ascii c) (str_lower rest)
  end.

(** [s.replace(old, new)] for a non-empty [old]: the occurrences are taken
    from left to right and do not overlap; [skip] counts the characters of
    an occurrence still to pass over. *)
Fixpoint str_replace_from (old new : string) (skip : nat) (s : string) : string :=
  match s with
  | EmptyString => EmptyString
  | String c rest =>
      match skip with
      | S k => str_replace_from old new k rest
      | O =>
          if String.prefix old s
          then (new +:+ str_replace_from old new (String.length old - 1) rest)%string
          else String c (str_replace_from old new 0 rest)
      end
  end.

Definition str_replace (old new s : string) : string :=
  str_replace_from old new 0 s.

(** [s.strip(c)] *)
Fixpoint str_lstrip (c : Ascii.ascii) (s : string) : string :=
  match s with
  | EmptyString => EmptyString
  | String c' rest => if Ascii.eqb c' c then str_lstrip c rest else s
  end.

Definition str_strip (c : Ascii.ascii) (s : string) : string :=
  String.rev (str_lstrip c (String.rev (str_lstrip c s))).

(** Floats that need not be finite. *)
Inductive pyfloat : Type :=
  | Fin (q : Q)
  | PInf
  | NInf
  | NaN.

(** [a < b] on floats; every comparison with NaN is false. *)
Definition flt_ltb (a b : pyfloat) : bool :=
  match a, b with
  | NaN, _ | _, NaN => false
  | Fin x, Fin y => Qltb x y
  | NInf, NInf => false
  | NInf, _ => true
  | _, NInf => false
  | PInf, _ => false
  | Fin _, PInf => true
  end.

(** The two-argument builtins: [min(a, b)] keeps [a] unless [b < a], and
    [max(a, b)] keeps [a] unless [b > a]. *)
Definition py_min (a b : pyfloat) : pyfloat := if flt_ltb b a then b else a.
Definition py_max (a b : pyfloat) : pyfloat := if flt_ltb a b then b else a.

Definition py_round_float (x : pyfloat) (ndigits : nat) : pyfloat :=
  match x with Fin q => Fin (py_round q ndigits) | _ => x end.

(** Values produced by [json.loads]. *)
Inductive PyVal : Type :=
  | VNone
  | VBool (b : bool)
  | VInt (z : Z)
  | VFloat (f : pyfloat)
  | VStr (s : string)
  | VList (l : list PyVal)
  | VDict (d : gmap string PyVal).

(** ** analysis/scorer.py *)

Module SustainabilityScorer.

Definition CATEGORY_WEIGHTS : list (string * Q) :=
  [ ("Environmental", 0.40); ("Social", 0.35); ("Governance", 0.25) ]%string.

Definition SCORE_LEVELS : list (string * (Q * Q)) :=
  [ ("Excellent", (85, 100));
    ("Good", (70, 84));
    ("Fair", (50, 69));
    ("Poor", (30, 49));
    ("Very Poor", (0, 29)) ]%string.

(** A metric dict as the scorer reads it; each key may be absent. *)
Record Metric : Type := {
  category : option string;
  metric_name : option string;
  value : option Q;
  confidence : option Q
}.

(** [{'name': ..., 'value': ..., 'confidence': ...}] *)
Record MetricDetail : Type := {
  md_name : string;
  md_value : Q;
  md_confidence : Q
}.

(** [{'score': ..., 'confidence': ..., 'metric_count': ..., 'metrics': ...}] *)
Record CategoryScore : Type := {
  cs_score : Q;
  cs_confidence : Q;
  cs_metric_count : nat;
  cs_metrics : list MetricDetail
}.

(** The result of [calculate_final_score].  The key [calculated_at], the
    clock reading as text, is left out. *)
Record FinalScore : Type := {
  final_score : Q;
  score_level : string;
  fs_confidence : Q;
  environmental_score : Q;
  social_score : Q;
  governance_score : Q;
  category_breakdown : list (string * CategoryScore);
  component_scores : gmap string Q
}.

(** [[m for m in metrics if m['category'] == category]] *)
Fixpoint filter_category (metrics : list Metric) (cat : string)
    : res (list Metric) :=
  match metrics with
  | [] => Ok []
  | m :: rest =>
      c ← getitem "category" (category m);
      rest' ← filter_category rest cat;
      Ok (if String.eqb c cat then m :: rest' else rest')
  end.

(** The accumulation loop of step 3: [(total_weighted_score, total_confidence)]. *)
Definition accumulate (acc : Q * Q) (metric : Metric) : Q * Q :=
  let conf := default 0.5 (confidence metric) in
  let val := default 50 (value metric) in
  (fst acc + val * conf, snd acc + conf).

Definition metric_detail (m : Metric) : res MetricDetail :=
  n ← getitem "metric_name" (metric_name m);
  v ← getitem "value" (value m);
  c ← getitem "confidence" (confidence m);
  Ok {| md_name := n; md_value := v; md_confidence := c |}.

Definition calculate_category_score (metrics : list Metric) (cat : string)
    : res CategoryScore :=
  category_metrics ← filter_category metrics cat;
  match category_metrics with
  | [] =>
      Ok {| cs_score := 50; cs_confidence := 0;
            cs_metric_count := 0; cs_metrics := [] |}
  | _ =>
      let totals := fold_left accumulate category_metrics (0, 0) in
      let total_weighted_score := fst totals in
      let total_confidence := snd totals in
      let '(category_score, avg_confidence) :=
        if Qltb 0 total_confidence
        then (total_weighted_score / total_confidence,
              total_confidence / inject_Z (Z.of_nat (length category_metrics)))
        else (50, 0) in
      metric_details ← mapM metric_detail category_metrics;
      Ok {| cs_score := py_round category_score 2;
            cs_confidence := py_round avg_confidence 2;
            cs_metric_count := length category_metrics;
            cs_metrics := metric_details |}
  end.

(** [for level, (min_score, max_score) in levels.items(): ...] *)
Fixpoint level_lookup (levels : list (string * (Q * Q))) (score : Q) : string :=
  match levels with
  | [] => "Unknown"
  | (level, (min_score, max_score)) :: rest =>
      if Qle_bool min_score score && Qle_bool score max_score
      then level
      else level_lookup rest score
  end.

Definition _get_score_level (score : Q) : string :=
  level_lookup SCORE_LEVELS score.

(** [d[key]] on a dict given by its items. *)
Definition items_get {A} (key : string) (items : list (string * A)) : res A :=
  getitem key (snd <$> List.find (fun kv => String.eqb (fst kv) key) items).

(** State of the loop of step 1:
    [(category_scores, weighted_sum, total_weight)]. *)
Definition score_step (metrics : list Metric)
    (st : list (string * CategoryScore) * Q * Q) (item : string * Q)
    : res (list (string * CategoryScore) * Q * Q) :=
  let '(category_scores, weighted_sum, total_weight) := st in
  let '(cat, weight) := item in
  category_data ← calculate_category_score metrics cat;
  Ok (category_scores ++ [(cat, category_data)],
      weighted_sum + cs_score category_data * weight,
      total_weight + weight).

(** The local [final_score] of step 2, before rounding. *)
Definition weighted_final (weighted_sum total_weight : Q) : Q :=
  if Qltb 0 total_weight then weighted_sum / total_weight else 50.

Definition sum_Q (l : list Q) : Q := fold_left Qplus l 0.

(** The key of a metric in the flattened scores. *)
Definition metric_key (name : string) : string :=
  str_strip "_"%char
    (str_replace "__" "_"
       (str_replace "and" "" (str_replace " " "_" (str_lower name)))).

(** A later write to the same key replaces the earlier one. *)
Definition _build_component_scores
    (category_scores : list (string * CategoryScore)) : gmap string Q :=
  fold_left
    (fun (component_scores : gmap string Q) (item : string * CategoryScore) =>
       let '(cat, data) := item in
       let component_scores :=
         <[ (str_lower cat +:+ "_overall")%string := cs_score data ]> component_scores in
       fold_left
         (fun (component_scores : gmap string Q) (metric : MetricDetail) =>
            <[ metric_key (md_name metric) := md_value metric ]> component_scores)
         (cs_metrics data) component_scores)
    category_scores ∅.

(** [calculate_final_score] with the class constant [CATEGORY_WEIGHTS]
    given as [weights] (the items of a dict: keys pairwise distinct). *)
Definition calculate_final_score_with (weights : list (string * Q))
    (metrics : list Metric) : res FinalScore :=
  '(category_scores, weighted_sum, total_weight) ←
    for_each (score_step metrics) weights ([], 0, 0);
  let final := weighted_final weighted_sum total_weight in
  let level := _get_score_level final in
  avg_confidence ←
    (match category_scores with
     | [] => Raise ZeroDivisionError
     | _ => Ok (sum_Q (map (fun kv => cs_confidence (snd kv)) category_scores)
                / inject_Z (Z.of_nat (length category_scores)))
     end);
  env ← items_get "Environmental" category_scores;
  soc ← items_get "Social" category_scores;
  gov ← items_get "Governance" category_scores;
  Ok {| final_score := py_round final 2;
        score_level := level;
        fs_confidence := py_round avg_confidence 2;
        environmental_score := cs_score env;
        social_score := cs_score soc;
        governance_score := cs_score gov;
        category_breakdown := category_scores;
        component_scores := _build_component_scores category_scores |}.

Definition calculate_final_score (metrics : list Metric) : res FinalScore :=
  calculate_final_score_with CATEGORY_WEIGHTS metrics.

(** The three f-strings and two literals of [get_recommendations]. *)
Definition priority_line (cat : string) (score : Q) : string :=
  "Priority: Improve " +:+ cat +:+ " practices (current score: "
    +:+ format_1f score +:+ "/100)".

Definition focus_line (cat : string) (metric : MetricDetail) : string :=
  "Focus on: " +:+ md_name metric +:+ " in " +:+ cat +:+ " category (score: "
    +:+ format_1f (md_value metric) +:+ "/100)".

Definition critical_line : string :=
  "Critical: Significant improvements needed across all sustainability areas".

Definition important_line : string :=
  "Important: Enhance sustainability practices to meet industry standards".

(** Body of the loop over the three categories. *)
Definition recommend_step (scores : FinalScore)
    (recommendations : list string) (cat : string) : res (list string) :=
  category_data ← items_get cat (category_breakdown scores);
  let score := cs_score category_data in
  let recommendations :=
    if Qltb score 60
    then recommendations ++ [priority_line cat score]
    else recommendations in
  let low_metrics :=
    List.filter (fun m => Qltb (md_value m) 50) (cs_metrics category_data) in
  Ok (recommendations ++ map (focus_line cat) (take 2 low_metrics)).

Definition get_recommendations (scores : FinalScore) : res (list string) :=
  recommendations ←
    for_each (recommend_step scores)
             ["Environmental"; "Social"; "Governance"]%string [];
  let recommendations :=
    if Qltb (final_score scores) 50 then critical_line :: recommendations
    else if Qltb (final_score scores) 70 then important_line :: recommendations
    else recommendations in
  Ok (take 5 recommendations).

End SustainabilityScorer.

(** ** reports/pdf_generator.py *)

Module PDFGenerator.

Definition _get_score_level (score : Q) : string :=
  if Qle_bool 85 score then "Excellent"
  else if Qle_bool 70 score then "Good"
  else if Qle_bool 50 score then "Fair"
  else if Qle_bool 30 score then "Poor"
  else "Very Poor".

End PDFGenerator.

(** ** ui/components/sidebar.py *)

Module sidebar.

Definition get_score_level (score : Q) : string :=
  if Qle_bool 85 score then "Excellent"
  else if Qle_bool 70 score then "Good"
  else if Qle_bool 50 score then "Fair"
  else if Qle_bool 30 score then "Poor"
  else "Very Poor".

End sidebar.

(** ** analysis/extractor.py *)

Module MetricsExtractor.

(** prompts/extraction_prompts.py *)
Definition METRICS_SCHEMA : list (string * list string) :=
  [ ("Environmental",
      [ "Carbon Emissions Reduction"; "Renewable Energy Usage";
        "Waste Management"; "Water Conservation"; "Sustainable Materials" ]);
    ("Social",
      [ "Labor Practices"; "Diversity and Inclusion"; "Community Impact";
        "Human Rights"; "Employee Well-being" ]);
    ("Governance",
      [ "Board Independence"; "Ethics and Compliance";
        "Transparency and Reporting"; "Risk Management";
        "Stakeholder Engagement" ]) ]%string.

Definition CATEGORY_WEIGHTS : list (string * Q) :=
  [ ("Environmental", 0.40); ("Social", 0.35); ("Governance", 0.25) ]%string.

(** The dict literal appended by [_validate_metrics] and
    [_get_default_metrics]. *)
Record MetricRecord : Type := {
  category : PyVal;
  metric_name : PyVal;
  value : pyfloat;
  confidence : pyfloat
}.

(** A scraped source, [{'url': ..., 'content': ...}]. *)
Record Source : Type := {
  url : string;
  content : string
}.

(** [key in container] for a string [key]. *)
Definition py_contains (key : string) (container : PyVal) : res bool :=
  match container with
  | VDict d => Ok (bool_decide (is_Some (d !! key)))
  | VStr s => Ok (bool_decide (is_Some (String.index 0 key s)))
  | VList l =>
      Ok (existsb (fun x => match x with
                            | VStr s => String.eqb s key
                            | _ => false
                            end) l)
  | VNone | VBool _ | VInt _ | VFloat _ => Raise TypeError
  end.

(** [all(k in metric for k in fields)], left to right, stopping at the
    first [False]. *)
Fixpoint all_in (fields : list string) (metric : PyVal) : res bool :=
  match fields with
  | [] => Ok true
  | k :: rest =>
      b ← py_contains k metric;
      if (b : bool) then all_in rest metric else Ok false
  end.

(** [container[key]] for a string [key]. *)
Definition py_getitem (container : PyVal) (key : string) : res PyVal :=
  match container with
  | VDict d => getitem key (d !! key)
  | _ => Raise TypeError
  end.

(** [x in CATEGORY_WEIGHTS]: hashes [x] first, which lists and dicts
    refuse. *)
Definition in_category_weights (x : PyVal) : res bool :=
  match x with
  | VStr s => Ok (existsb (fun kv => String.eqb (fst kv) s) CATEGORY_WEIGHTS)
  | VList _ | VDict _ => Raise TypeError
  | VNone | VBool _ | VInt _ | VFloat _ => Ok false
  end.

(** [for x in v] *)
Definition py_iter (v : PyVal) : res (list PyVal) :=
  match v with
  | VList l => Ok l
  | VDict d => Ok ((fun kv => VStr (fst kv)) <$> map_to_list d)
  | VStr s => Ok ((fun c => VStr (String c EmptyString)) <$> String.list_ascii_of_string s)
  | VNone | VBool _ | VInt _ | VFloat _ => Raise TypeError
  end.

Definition required_fields : list string :=
  [ "category"; "metric_name"; "value"; "confidence" ]%string.

Section Runtime.

(** The builtins and collaborators the extractor calls:
    [float(s)] on a string ([None] is [ValueError]), [json.loads],
    the prompt template and the LLM client. *)
Variable float_of_string : string -> option pyfloat.
Variable json_loads : string -> res PyVal.
Variable create_metrics_extraction_prompt : string -> string -> string.
Variable complete_json : string -> res PyVal.

(** [float(x)].  An int beyond the double range raises
    [OverflowError]. *)
Definition py_float (x : PyVal) : res pyfloat :=
  match x with
  | VFloat f => Ok f
  | VInt z =>
      if (Z.abs z <? 2 ^ 1024 - 2 ^ 970)%Z
      then Ok (Fin (inject_Z z))
      else Raise OverflowError
  | VBool b => Ok (Fin (if b then 1 else 0))
  | VStr s =>
      match float_of_string s with
      | Some f => Ok f
      | None => Raise ValueError
      end
  | VNone | VList _ | VDict _ => Raise TypeError
  end.

(** [try: x = float(raw); x = max(0, min(hi, x)) except (ValueError,
    TypeError): x = fallback] *)
Definition coerce_clamp (raw : PyVal) (hi fallback : Q) : res pyfloat :=
  try_clauses
    (x ← py_float raw; Ok (py_max (Fin 0) (py_min (Fin hi) x)))
    [ (fun e => is_ValueError e || is_TypeError e,
       fun _ => Ok (Fin fallback)) ].

(** One iteration of the loop of [_validate_metrics]; [continue] leaves
    [validated] as it is. *)
Definition validate_step (validated : list MetricRecord) (metric : PyVal)
    : res (list MetricRecord) :=
  complete ← all_in required_fields metric;
  if negb complete then Ok validated else
  cat ← py_getitem metric "category";
  known ← in_category_weights cat;
  if negb known then Ok validated else
  raw_value ← py_getitem metric "value";
  val ← coerce_clamp raw_value 100 50;
  raw_confidence ← py_getitem metric "confidence";
  conf ← coerce_clamp raw_confidence 1 0.5;
  cat' ← py_getitem metric "category";
  name ← py_getitem metric "metric_name";
  Ok (validated ++ [ {| category := cat';
                        metric_name := name;
                        value := py_round_float val 2;
                        confidence := py_round_float conf 2 |} ]).

Definition _validate_metrics (metrics : PyVal) : res (list MetricRecord) :=
  items ← py_iter metrics;
  for_each validate_step items [].

Definition _get_default_metrics : list MetricRecord :=
  flat_map (fun item : string * list string =>
              let '(cat, metric_names) := item in
              map (fun name => {| category := VStr cat;
                                  metric_name := VStr name;
                                  value := Fin 50;
                                  confidence := Fin 0.1 |})
                  metric_names)
           METRICS_SCHEMA.

Definition newline : string := String (Ascii.ascii_of_nat 10) EmptyString.

(** Step 1 of [extract_metrics]. *)
Definition combined_content (sources : list Source) : string :=
  String.concat (newline +:+ newline +:+ "---" +:+ newline +:+ newline)
    (map (fun s => "Source: " +:+ url s +:+ newline
                     +:+ String.substring 0 5000 (content s))
         sources).

(** [data.get('metrics', [])] *)
Definition get_metrics_key (data : PyVal) : res PyVal :=
  match data with
  | VDict d => Ok (default (VList []) (d !! "metrics"))
  | _ => Raise AttributeError
  end.

(** [json.loads(response)] *)
Definition py_json_loads (response : PyVal) : res PyVal :=
  match response with
  | VStr s => json_loads s
  | _ => Raise TypeError
  end.

(** Steps 3 to 5 of [extract_metrics], the body of its [try]. *)
Definition extraction_attempt (prompt : string) : res (list MetricRecord) :=
  response ← complete_json prompt;
  data ← py_json_loads response;
  metrics ← get_metrics_key data;
  _validate_metrics metrics.

Definition extract_metrics (company_name : string) (sources : list Source)
    : res (list MetricRecord) :=
  let prompt :=
    create_metrics_extraction_prompt company_name (combined_content sources) in
  try_clauses
    (extraction_attempt prompt)
    [ (is_JSONDecodeError, fun _ => Ok _get_default_metrics);
      (is_Exception, fun _ => Ok _get_default_metrics) ].

End Runtime.

End MetricsExtractor.

(** ** database/db_manager.py *)

Module DatabaseManager.

(** A [datetime], in microseconds. *)
Definition datetime : Type := Z.

(** [timedelta(days=n)] *)
Definition timedelta_days (n : Z) : Z := (n * 86400000000)%Z.

(** The four tables.  [schema.sql] is not among the embedded sources; the
    columns are those written by the INSERT statements of
    [save_research], [save_metrics] and [save_scores], and [name] is
    unique ([ON CONFLICT(name)]).  Each table is the list of its rows in
    insertion order. *)
Record Company : Type := {
  id : Z;
  name : string;
  research_date : datetime;
  last_updated : datetime
}.

Record ResearchSource : Type := {
  rs_company_id : Z;
  url : string;
  content : string;
  scraped_at : datetime
}.

Record MetricRow : Type := {
  mr_company_id : Z;
  category : string;
  metric_name : string;
  value : Q;
  confidence : Q;
  extracted_at : datetime
}.

Record ScoreRow : Type := {
  sr_company_id : Z;
  final_score : Q;
  environmental_score : option Q;
  social_score : option Q;
  governance_score : option Q;
  component_scores_json : string;
  calculated_at : datetime
}.

Record Database : Type := {
  companies : list Company;
  research_sources : list ResearchSource;
  sustainability_metrics : list MetricRow;
  sustainability_scores : list ScoreRow
}.

(** [ORDER BY scraped_at DESC] *)
Definition scraped_desc (a b : ResearchSource) : Prop :=
  (scraped_at b <= scraped_at a)%Z.
#[global] Instance scraped_desc_dec : RelDecision scraped_desc.
Proof. intros a b. unfold scraped_desc. apply _. Defined.

(** [ORDER BY category, metric_name] *)
Definition by_category_name (a b : MetricRow) : Prop :=
  match String.compare (category a) (category b) with
  | Lt => True
  | Eq => String.leb (metric_name a) (metric_name b) = true
  | Gt => False
  end.
#[global] Instance by_category_name_dec : RelDecision by_category_name.
Proof.
  intros a b. unfold by_category_name.
  destruct (String.compare (category a) (category b)); apply _.
Defined.

(** [ORDER BY calculated_at DESC] *)
Definition calculated_desc (a b : ScoreRow) : Prop :=
  (calculated_at b <= calculated_at a)%Z.
#[global] Instance calculated_desc_dec : RelDecision calculated_desc.
Proof. intros a b. unfold calculated_desc. apply _. Defined.

(** [SELECT * FROM companies WHERE name = ?], [fetchone()] *)
Definition get_company (db : Database) (company_name : string)
    : option Company :=
  List.find (fun c => String.eqb (name c) company_name) (companies db).

Definition get_research_sources (db : Database) (company_id : Z)
    : list ResearchSource :=
  merge_sort scraped_desc
    (List.filter (fun r => Z.eqb (rs_company_id r) company_id)
                 (research_sources db)).

Definition get_metrics (db : Database) (company_id : Z) : list MetricRow :=
  merge_sort by_category_name
    (List.filter (fun r => Z.eqb (mr_company_id r) company_id)
                 (sustainability_metrics db)).

(** [... ORDER BY calculated_at DESC LIMIT 1], [fetchone()].  The returned
    dict also carries [component_scores], the parse of the JSON text that
    [save_scores] stored; that key is not modelled. *)
Definition get_latest_score (db : Database) (company_id : Z)
    : option ScoreRow :=
  head (merge_sort calculated_desc
          (List.filter (fun r => Z.eqb (sr_company_id r) company_id)
                       (sustainability_scores db))).

Definition Analysis : Type :=
  Company * list ResearchSource * list MetricRow * ScoreRow.

Definition get_recent_analysis (now : datetime) (db : Database)
    (company_name : string) (days : Z) : option Analysis :=
  match get_company db company_name with
  | None => None
  | Some company =>
      let cache_expiry := (now - timedelta_days days)%Z in
      if (research_date company <? cache_expiry)%Z then None else
      let sources := get_research_sources db (id company) in
      let metrics := get_metrics db (id company) in
      let scores := get_latest_score db (id company) in
      (* [if not sources or not scores: return None] *)
      match sources, scores with
      | _ :: _, Some latest => Some (company, sources, metrics, latest)
      | _, _ => None
      end
  end.

End DatabaseManager.

(** [l[:n]] *)
Definition slice_to {A} (n : Z) (l : list A) : list A :=
  if (0 <=? n)%Z then take (Z.to_nat n) l
  else take (length l - Z.to_nat (- n)) l.

(** ** research/agent.py *)

Module ResearchAgent.

(** What the agent does to the outside, in order: a call of [scrape_url]
    and a [time.sleep(1.5)]. *)
Inductive Event : Type :=
  | Scrape (url : string)
  | Sleep.

Record Research : Type := {
  company : string;
  sources : list MetricsExtractor.Source
}.

Section Web.

(** The two requests: the search ([search_company], the URLs it found)
    and the scrape of one URL ([scrape_url], [None] when it failed or found
    no content), whose answer may differ from one iteration of the loop
    to the next.  Both are taken to return: an exception that escapes
    them (they catch [RequestException] only) is not modelled. *)
Variable search_company : string -> list string.
Variable scrape_url : nat -> string -> option MetricsExtractor.Source.

(** The loop of [scrape_sources] from iteration [i] on; [rest] is what is
    left of [urls[:max_sources * 2]]. *)
Fixpoint scrape_loop (len_urls : nat) (max_sources : Z) (i : nat)
    (rest : list string) (sources : list MetricsExtractor.Source)
    : list MetricsExtractor.Source * list Event :=
  match rest with
  | [] => (sources, [])
  | url :: rest' =>
      if (max_sources <=? Z.of_nat (length sources))%Z then (sources, [])
      else
        let sources' :=
          match scrape_url i url with
          | Some source => sources ++ [source]
          | None => sources
          end in
        let pause :=
          if (Z.of_nat i <? Z.of_nat len_urls - 1)%Z then [Sleep] else [] in
        let '(result, later) :=
          scrape_loop len_urls max_sources (S i) rest' sources' in
        (result, Scrape url :: pause ++ later)
  end.

Definition scrape_sources (urls : list string) (max_sources : Z)
    : list MetricsExtractor.Source * list Event :=
  scrape_loop (length urls) max_sources 0 (slice_to (max_sources * 2) urls) [].

Definition research_company (company_name : string) : Research * list Event :=
  let urls := search_company company_name in
  match urls with
  | [] => ({| company := company_name; sources := [] |}, [])
  | _ :: _ =>
      let '(scraped, events) := scrape_sources urls 5 in
      ({| company := company_name; sources := scraped |}, events)
  end.

End Web.

End ResearchAgent.

(** ** logic/intents.py *)

Module IntentClassifier.

(** [v.get(key)] *)
Definition py_get (v : PyVal) (key : string) : res PyVal :=
  match v with
  | VDict d => Ok (default VNone (d !! key))
  | _ => Raise AttributeError
  end.

Section Runtime.

(** The builtins and collaborators the classifier calls: [json.loads],
    the prompt template, the LLM client and [str.strip()]. *)
Variable json_loads : string -> res PyVal.
Variable create_intent_classification_prompt : string -> list string -> string.
Variable complete_json : string -> res PyVal.
Variable strip : string -> string.

(** The dict both [except] clauses of [classify] return. *)
Definition fallback (user_message : string) : gmap string PyVal :=
  {[ "intent" := VStr "analyze";
     "companies" := VList [VStr (strip user_message)];
     "question" := VNone;
     "needs_analysis" := VList [VStr (strip user_message)] ]}.

(** The body of the [try] of [classify]; the log line reads
    [intent_data.get('intent')]. *)
Definition classification_attempt (user_message : string)
    (analyzed_companies : list string) : res PyVal :=
  let prompt :=
    create_intent_classification_prompt user_message analyzed_companies in
  response ← complete_json prompt;
  intent_data ← MetricsExtractor.py_json_loads json_loads response;
  _ ← py_get intent_data "intent";
  Ok intent_data.

Definition classify (user_message : string) (analyzed_companies : list string)
    : res PyVal :=
  try_clauses
    (classification_attempt user_message analyzed_companies)
    [ (is_JSONDecodeError, fun _ => Ok (VDict (fallback user_message)));
      (is_Exception, fun _ => Ok (VDict (fallback user_message))) ].

End Runtime.

End IntentClassifier.

(** ** Python's numbers: [int] and binary64 [float] *)

(** A [float] is an IEEE 754 binary64 number; its operations round to
    nearest, ties to even. *)
Definition float64 : Type := spec_float.

Definition fadd : float64 -> float64 -> float64 := SFadd 53 1024.
Definition fmul : float64 -> float64 -> float64 := SFmul 53 1024.
Definition fdiv : float64 -> float64 -> float64 := SFdiv 53 1024.

(** The float nearest to [n / d]; an infinity when that is out of range. *)
Definition float_of_ratio (n : Z) (d : positive) : float64 :=
  match n with
  | Z0 => S754_zero false
  | Zpos p => fdiv (S754_finite false p 0) (S754_finite false d 0)
  | Zneg p => fdiv (S754_finite true p 0) (S754_finite false d 0)
  end.

(** A decimal literal of the source, such as [0.35] or [50.0]. *)
Definition float_lit (q : Q) : float64 := float_of_ratio (Qnum q) (Qden q).

(** The number a finite float stands for. *)
Definition finite_value (s : bool) (m : positive) (e : Z) : Q :=
  let n := if s then Zneg m else Zpos m in
  match e with
  | Z0 => inject_Z n
  | Zpos p => inject_Z (n * Z.pow_pos 2 p)
  | Zneg p => n # Pos.pow 2 p
  end.

Definition float_value (f : float64) : option Q :=
  match f with
  | S754_zero _ => Some 0
  | S754_finite s m e => Some (finite_value s m e)
  | S754_infinity _ | S754_nan => None
  end.

(** [round(x, ndigits)] on a float, for [ndigits > 0]: the float nearest to
    the decimal nearest to [x], ties to even; an infinity and NaN are
    returned as they are. *)
Definition float_round (f : float64) (ndigits : nat) : float64 :=
  match f with
  | S754_finite s m e =>
      let scale := Pos.pow 10 (Pos.of_nat ndigits) in
      let units := round_half_even (finite_value s m e * inject_Z (Zpos scale)) in
      if (units =? 0)%Z then S754_zero s else float_of_ratio units scale
  | _ => f
  end.

Inductive PyNum : Type :=
  | NInt (z : Z)
  | NFloat (f : float64).

(** [float(z)] for an int, as the arithmetic operators apply it to an int
    operand beside a float: [OverflowError] beyond the float range. *)
Definition int_to_float (z : Z) : res float64 :=
  if (Z.abs z <? 2 ^ 1024 - 2 ^ 970)%Z
  then Ok (binary_normalize 53 1024 z 0 false)
  else Raise OverflowError.

Definition to_float (x : PyNum) : res float64 :=
  match x with
  | NInt z => int_to_float z
  | NFloat f => Ok f
  end.

(** [a + b] *)
Definition py_add (a b : PyNum) : res PyNum :=
  match a, b with
  | NInt x, NInt y => Ok (NInt (x + y))
  | _, _ => x ← to_float a; y ← to_float b; Ok (NFloat (fadd x y))
  end.

(** [a * b] *)
Definition py_mul (a b : PyNum) : res PyNum :=
  match a, b with
  | NInt x, NInt y => Ok (NInt (x * y))
  | _, _ => x ← to_float a; y ← to_float b; Ok (NFloat (fmul x y))
  end.

Definition is_zero (f : float64) : bool :=
  match f with S754_zero _ => true | _ => false end.

(** [x / y] on two ints: the float nearest to the quotient,
    [OverflowError] when that is beyond the float range. *)
Definition int_truediv (x y : Z) : res float64 :=
  match x, y with
  | _, Z0 => Raise ZeroDivisionError
  | Z0, _ => Ok (S754_zero (y <? 0)%Z)
  | _, _ =>
      if (Z.abs x <? (2 ^ 1024 - 2 ^ 970) * Z.abs y)%Z
      then Ok (fdiv (S754_finite (x <? 0)%Z (Z.to_pos (Z.abs x)) 0)
                    (S754_finite (y <? 0)%Z (Z.to_pos (Z.abs y)) 0))
      else Raise OverflowError
  end.

(** [a / b]: always a float. *)
Definition py_truediv (a b : PyNum) : res float64 :=
  match a, b with
  | NInt x, NInt y => int_truediv x y
  | _, _ =>
      x ← to_float a; y ← to_float b;
      if is_zero y then Raise ZeroDivisionError else Ok (fdiv x y)
  end.

(** Comparison of two numbers by their exact values; [None] when one of
    them is NaN. *)
Definition int_float_compare (z : Z) (f : float64) : option comparison :=
  match f with
  | S754_nan => None
  | S754_infinity s => Some (if s then Gt else Lt)
  | S754_zero _ => Some (z ?= 0)%Z
  | S754_finite s m e => Some (Qcompare (inject_Z z) (finite_value s m e))
  end.

Definition py_compare (a b : PyNum) : option comparison :=
  match a, b with
  | NInt x, NInt y => Some (x ?= y)%Z
  | NInt x, NFloat g => int_float_compare x g
  | NFloat f, NInt y => CompOpp <$> int_float_compare y f
  | NFloat f, NFloat g => SFcompare f g
  end.

(** [a < b] and [a <= b] *)
Definition py_lt (a b : PyNum) : bool :=
  match py_compare a b with Some Lt => true | _ => false end.

Definition py_le (a b : PyNum) : bool :=
  match py_compare a b with Some (Lt | Eq) => true | _ => false end.

(** [round(x, ndigits)] for [ndigits > 0]: an int is returned as it is. *)
Definition py_round_num (x : PyNum) (ndigits : nat) : PyNum :=
  match x with
  | NInt z => NInt z
  | NFloat f => NFloat (float_round f ndigits)
  end.

Definition fsub : float64 -> float64 -> float64 := SFsub 53 1024.

Definition is_finite (f : float64) : bool :=
  match f with S754_zero _ | S754_finite _ _ _ => true | _ => false end.

(** [a > b] *)
Definition py_gt (a b : PyNum) : bool := py_lt b a.

(** The float loop of the builtin [sum], on [(f_result, c)]: up to Python
    3.11 it adds one item after the other; from Python 3.12 on it also
    keeps Neumaier's compensation [c]. *)
Definition sum_step (compensated : bool) (st : float64 * float64) (x : float64)
    : float64 * float64 :=
  let '(f_result, c) := st in
  let t := fadd f_result x in
  if compensated
  then (t, fadd c (if SFleb (SFabs x) (SFabs f_result)
                   then fadd (fsub f_result t) x
                   else fadd (fsub x t) f_result))
  else (t, c).

(** The float part of [sum]: [first] is the running sum when the loop is
    entered; a compensation that is finite and not zero is added at the
    end. *)
Definition float_sum (compensated : bool) (first : float64)
    (rest : list float64) : float64 :=
  let '(f_result, c) :=
    fold_left (sum_step compensated) rest (first, S754_zero false) in
  if is_zero c || negb (is_finite c) then f_result else fadd f_result c.

(** [sum(l)] for a list of floats: the start value is the int [0], to
    which the first item is added as a float. *)
Definition sum_floats (compensated : bool) (l : list float64) : PyNum :=
  match l with
  | [] => NInt 0
  | x :: rest => NFloat (float_sum compensated (fadd (S754_zero false) x) rest)
  end.

(** ** analysis/scorer.py, on Python's numbers *)

Module FloatScorer.

Definition CATEGORY_WEIGHTS : list (string * float64) :=
  [ ("Environmental", float_lit 0.40);
    ("Social", float_lit 0.35);
    ("Governance", float_lit 0.25) ]%string.

Definition SCORE_LEVELS : list (string * (Z * Z)) :=
  [ ("Excellent", (85, 100));
    ("Good", (70, 84));
    ("Fair", (50, 69));
    ("Poor", (30, 49));
    ("Very Poor", (0, 29)) ]%string%Z.

(** A metric dict as the scorer reads it; each key may be absent, and a
    number is an int or a float. *)
Record Metric : Type := {
  category : option string;
  metric_name : option string;
  value : option PyNum;
  confidence : option PyNum
}.

(** [{'name': ..., 'value': ..., 'confidence': ...}] *)
Record MetricDetail : Type := {
  md_name : string;
  md_value : PyNum;
  md_confidence : PyNum
}.

(** [{'score': ..., 'confidence': ..., 'metric_count': ..., 'metrics': ...}];
    the score and the confidence are results of [round] on a float. *)
Record CategoryScore : Type := {
  cs_score : float64;
  cs_confidence : float64;
  cs_metric_count : nat;
  cs_metrics : list MetricDetail
}.

(** The result of [calculate_final_score].  The key [calculated_at], the
    clock reading as text, is left out. *)
Record FinalScore : Type := {
  final_score : float64;
  score_level : string;
  fs_confidence : float64;
  environmental_score : float64;
  social_score : float64;
  governance_score : float64;
  category_breakdown : list (string * CategoryScore);
  component_scores : gmap string PyNum
}.

(** [[m for m in metrics if m['category'] == category]] *)
Fixpoint filter_category (metrics : list Metric) (cat : string)
    : res (list Metric) :=
  match metrics with
  | [] => Ok []
  | m :: rest =>
      c ← getitem "category" (category m);
      rest' ← filter_category rest cat;
      Ok (if String.eqb c cat then m :: rest' else rest')
  end.

(** The body of the loop of step 3, on
    [(total_weighted_score, total_confidence)]. *)
Definition accumulate (acc : PyNum * PyNum) (metric : Metric)
    : res (PyNum * PyNum) :=
  let conf := default (NFloat (float_lit 0.5)) (confidence metric) in
  let val := default (NInt 50) (value metric) in
  weighted ← py_mul val conf;
  total_weighted_score ← py_add (fst acc) weighted;
  total_confidence ← py_add (snd acc) conf;
  Ok (total_weighted_score, total_confidence).

Definition metric_detail (m : Metric) : res MetricDetail :=
  n ← getitem "metric_name" (metric_name m);
  v ← getitem "value" (value m);
  c ← getitem "confidence" (confidence m);
  Ok {| md_name := n; md_value := v; md_confidence := c |}.

Definition calculate_category_score (metrics : list Metric) (cat : string)
    : res CategoryScore :=
  category_metrics ← filter_category metrics cat;
  match category_metrics with
  | [] =>
      Ok {| cs_score := float_lit 50.0; cs_confidence := float_lit 0.0;
            cs_metric_count := 0; cs_metrics := [] |}
  | _ =>
      totals ← for_each accumulate category_metrics (NInt 0, NInt 0);
      let total_weighted_score := fst totals in
      let total_confidence := snd totals in
      averages ←
        (if py_gt total_confidence (NInt 0)
         then
           category_score ← py_truediv total_weighted_score total_confidence;
           avg_confidence ←
             py_truediv total_confidence
                        (NInt (Z.of_nat (length category_metrics)));
           Ok (category_score, avg_confidence)
         else Ok (float_lit 50.0, float_lit 0.0));
      metric_details ← mapM metric_detail category_metrics;
      Ok {| cs_score := float_round (fst averages) 2;
            cs_confidence := float_round (snd averages) 2;
            cs_metric_count := length category_metrics;
            cs_metrics := metric_details |}
  end.

(** [for level, (min_score, max_score) in levels.items(): ...] *)
Fixpoint level_lookup (levels : list (string * (Z * Z))) (score : PyNum)
    : string :=
  match levels with
  | [] => "Unknown"
  | (level, (min_score, max_score)) :: rest =>
      if py_le (NInt min_score) score && py_le score (NInt max_score)
      then level
      else level_lookup rest score
  end.

Definition _get_score_level (score : PyNum) : string :=
  level_lookup SCORE_LEVELS score.

(** [d[key]] on a dict given by its items. *)
Definition items_get {A} (key : string) (items : list (string * A)) : res A :=
  getitem key (snd <$> List.find (fun kv => String.eqb (fst kv) key) items).

(** The body of the loop of step 1, on
    [(category_scores, weighted_sum, total_weight)]. *)
Definition score_step (metrics : list Metric)
    (st : list (string * CategoryScore) * PyNum * PyNum)
    (item : string * float64)
    : res (list (string * CategoryScore) * PyNum * PyNum) :=
  let '(category_scores, weighted_sum, total_weight) := st in
  let '(cat, weight) := item in
  category_data ← calculate_category_score metrics cat;
  contribution ← py_mul (NFloat (cs_score category_data)) (NFloat weight);
  weighted_sum ← py_add weighted_sum contribution;
  total_weight ← py_add total_weight (NFloat weight);
  Ok (category_scores ++ [(cat, category_data)], weighted_sum, total_weight).

(** The local [final_score] of step 2, before rounding. *)
Definition weighted_final (weighted_sum total_weight : PyNum) : res float64 :=
  if py_gt total_weight (NInt 0)
  then py_truediv weighted_sum total_weight
  else Ok (float_lit 50.0).

(** A later write to the same key replaces the earlier one. *)
Definition _build_component_scores
    (category_scores : list (string * CategoryScore)) : gmap string PyNum :=
  fold_left
    (fun (component_scores : gmap string PyNum)
         (item : string * CategoryScore) =>
       let '(cat, data) := item in
       let component_scores :=
         <[ (str_lower cat +:+ "_overall")%string := NFloat (cs_score data) ]>
           component_scores in
       fold_left
         (fun (component_scores : gmap string PyNum) (metric : MetricDetail) =>
            <[ SustainabilityScorer.metric_key (md_name metric)
               := md_value metric ]> component_scores)
         (cs_metrics data) component_scores)
    category_scores ∅.

(** [calculate_final_score] with the class constant [CATEGORY_WEIGHTS]
    given as [weights] (the items of a dict: keys pairwise distinct), for
    an interpreter whose [sum] is [compensated] or not. *)
Definition calculate_final_score_with (compensated : bool)
    (weights : list (string * float64)) (metrics : list Metric)
    : res FinalScore :=
  '(category_scores, weighted_sum, total_weight) ←
    for_each (score_step metrics) weights ([], NInt 0, NInt 0);
  final ← weighted_final weighted_sum total_weight;
  let level := _get_score_level (NFloat final) in
  avg_confidence ←
    py_truediv
      (sum_floats compensated
         (map (fun kv => cs_confidence (snd kv)) category_scores))
      (NInt (Z.of_nat (length category_scores)));
  env ← items_get "Environmental" category_scores;
  soc ← items_get "Social" category_scores;
  gov ← items_get "Governance" category_scores;
  Ok {| final_score := float_round final 2;
        score_level := level;
        fs_confidence := float_round avg_confidence 2;
        environmental_score := cs_score env;
        social_score := cs_score soc;
        governance_score := cs_score gov;
        category_breakdown := category_scores;
        component_scores := _build_component_scores category_scores |}.

Definition calculate_final_score (compensated : bool) (metrics : list Metric)
    : res FinalScore :=
  calculate_final_score_with compensated CATEGORY_WEIGHTS metrics.

End FloatScorer.

(** ** Predicates and reference functions used in the statements *)

(** The score lies in one of the five ranges of [SCORE_LEVELS]. *)
Definition in_score_ranges (score : Q) : bool :=
  existsb (fun entry : string * (Q * Q) =>
             Qle_bool (fst (snd entry)) score && Qle_bool score (snd (snd entry)))
          SustainabilityScorer.SCORE_LEVELS.


(** A metric that carries all four fields, and the dict it stands for. *)
Record Row : Type := {
  row_category : string;
  row_name : string;
  row_value : Q;
  row_confidence : Q
}.

Definition metric_of (r : Row) : SustainabilityScorer.Metric :=
  {| SustainabilityScorer.category := Some (row_category r);
     SustainabilityScorer.metric_name := Some (row_name r);
     SustainabilityScorer.value := Some (row_value r);
     SustainabilityScorer.confidence := Some (row_confidence r) |}.

(** Category among the three fixed ones, value in [0, 100], confidence in
    [0, 1]. *)
Definition valid_row (r : Row) : bool :=
  existsb (String.eqb (row_category r)) ["Environmental"; "Social"; "Governance"]%string
  && Qle_bool 0 (row_value r) && Qle_bool (row_value r) 100
  && Qle_bool 0 (row_confidence r) && Qle_bool (row_confidence r) 1.

(** The records of one category, in their order in the list. *)
Definition select (cat : string) (rows : list Row) : list Row :=
  List.filter (fun r => String.eqb (row_category r) cat) rows.

Definition detail_of (r : Row) : SustainabilityScorer.MetricDetail :=
  {| SustainabilityScorer.md_name := row_name r;
     SustainabilityScorer.md_value := row_value r;
     SustainabilityScorer.md_confidence := row_confidence r |}.

(** Σ over a list. *)
Definition sigma (l : list Q) : Q := fold_right Qplus 0 l.

Definition sigma_weighted (sel : list Row) : Q :=
  sigma (map (fun r => row_value r * row_confidence r) sel).

Definition sigma_confidence (sel : list Row) : Q :=
  sigma (map row_confidence sel).

Definition count_of (sel : list Row) : Q := inject_Z (Z.of_nat (length sel)).

(** The category result as section 4.2 of the specification words it, on
    the selected records [sel]. *)
Definition spec_category_score (sel : list Row) : SustainabilityScorer.CategoryScore :=
  match sel with
  | [] =>
      {| SustainabilityScorer.cs_score := 50;
         SustainabilityScorer.cs_confidence := 0;
         SustainabilityScorer.cs_metric_count := 0;
         SustainabilityScorer.cs_metrics := [] |}
  | _ =>
      if Qltb 0 (sigma_confidence sel) then
        {| SustainabilityScorer.cs_score :=
             py_round (sigma_weighted sel / sigma_confidence sel) 2;
           SustainabilityScorer.cs_confidence :=
             py_round (sigma_confidence sel / count_of sel) 2;
           SustainabilityScorer.cs_metric_count := length sel;
           SustainabilityScorer.cs_metrics := map detail_of sel |}
      else
        {| SustainabilityScorer.cs_score := 50;
           SustainabilityScorer.cs_confidence := 0;
           SustainabilityScorer.cs_metric_count := length sel;
           SustainabilityScorer.cs_metrics := map detail_of sel |}
  end.

(** The weighted combination of section 4.3, before any rounding. *)
Definition combine (env soc gov : Q) : Q :=
  (0.40 * env + 0.35 * soc + 0.25 * gov) / 1.

(** The simple mean of three confidences. *)
Definition mean3 (a b c : Q) : Q := (a + b + c) / 3.

(** The recommendation list as section 4.3 of the specification words it:
    the header, then the lines of each category, cut to five entries. *)
Definition severity_header (final : Q) : list string :=
  if Qltb final 50 then [SustainabilityScorer.critical_line]
  else if Qltb final 70 then [SustainabilityScorer.important_line]
  else [].

Definition category_lines (cat : string)
    (data : SustainabilityScorer.CategoryScore) : list string :=
  (if Qltb (SustainabilityScorer.cs_score data) 60
   then [SustainabilityScorer.priority_line cat (SustainabilityScorer.cs_score data)]
   else [])
  ++ map (SustainabilityScorer.focus_line cat)
         (take 2 (List.filter
                    (fun m => Qltb (SustainabilityScorer.md_value m) 50)
                    (SustainabilityScorer.cs_metrics data))).

Definition recommendations_spec (final : Q)
    (env soc gov : SustainabilityScorer.CategoryScore) : list string :=
  take 5 (severity_header final
          ++ category_lines "Environmental" env
          ++ category_lines "Social" soc
          ++ category_lines "Governance" gov).


(** One company, researched at [researched], with the given sources, no
    metric row and one score row. *)
Definition cache_db (researched : DatabaseManager.datetime)
    (sources : list DatabaseManager.ResearchSource) : DatabaseManager.Database :=
  {| DatabaseManager.companies :=
       [ {| DatabaseManager.id := 1; DatabaseManager.name := "Tesla";
            DatabaseManager.research_date := researched;
            DatabaseManager.last_updated := researched |} ];
     DatabaseManager.research_sources := sources;
     DatabaseManager.sustainability_metrics := [];
     DatabaseManager.sustainability_scores :=
       [ {| DatabaseManager.sr_company_id := 1;
            DatabaseManager.final_score := 71.5;
            DatabaseManager.environmental_score := Some 80;
            DatabaseManager.social_score := Some 70;
            DatabaseManager.governance_score := Some 60;
            DatabaseManager.component_scores_json := "{}";
            DatabaseManager.calculated_at := researched |} ] |}.

Definition one_source (scraped : DatabaseManager.datetime)
    : list DatabaseManager.ResearchSource :=
  [ {| DatabaseManager.rs_company_id := 1;
       DatabaseManager.url := "https://example.com/impact";
       DatabaseManager.content := "report";
       DatabaseManager.scraped_at := scraped |} ].

Definition days_ago (now : DatabaseManager.datetime) (n : Z)
    : DatabaseManager.datetime :=
  (now - DatabaseManager.timedelta_days n)%Z.

(** The fifteen fixed metric names, in schema order. *)
Definition fifteen_names : list string :=
  [ "Carbon Emissions Reduction"; "Renewable Energy Usage"; "Waste Management";
    "Water Conservation"; "Sustainable Materials";
    "Labor Practices"; "Diversity and Inclusion"; "Community Impact";
    "Human Rights"; "Employee Well-being";
    "Board Independence"; "Ethics and Compliance"; "Transparency and Reporting";
    "Risk Management"; "Stakeholder Engagement" ]%string.

(** The category of a record, when it is a string. *)
Definition category_string (m : MetricsExtractor.MetricRecord) : string :=
  match MetricsExtractor.category m with VStr s => s | _ => "" end.

(** A raw metric dict as [json.loads] would deliver it. *)
Definition raw_metric (cat name val conf : PyVal) : PyVal :=
  VDict {[ "category" := cat; "metric_name" := name;
           "value" := val; "confidence" := conf ]}.

(** What the validator is specified to do with one raw dict, for a given
    string-to-float conversion. *)
Section ValidatorSpec.

Variable float_of_string : string -> option pyfloat.

(** Clamping to [0, hi]; NaN compares false with everything and ends at [hi]. *)
Definition spec_clamp (hi : Q) (x : pyfloat) : Q :=
  match x with
  | Fin q => if Qltb q 0 then 0 else if Qltb hi q then hi else q
  | PInf | NaN => hi
  | NInf => 0
  end.

(** Coercion to a number, clamped; the fallback when there is no number. *)
Definition spec_coerced (raw : PyVal) (hi fallback : Q) : Q :=
  match MetricsExtractor.py_float float_of_string raw with
  | Ok x => spec_clamp hi x
  | Raise _ => fallback
  end.

Definition spec_validated (d : gmap string PyVal) : option MetricsExtractor.MetricRecord :=
  cat ← d !! "category";
  name ← d !! "metric_name";
  val ← d !! "value";
  conf ← d !! "confidence";
  match cat with
  | VStr s =>
      if existsb (String.eqb s) ["Environmental"; "Social"; "Governance"]%string
      then Some {| MetricsExtractor.category := cat;
                   MetricsExtractor.metric_name := name;
                   MetricsExtractor.value := Fin (py_round (spec_coerced val 100 50) 2);
                   MetricsExtractor.confidence := Fin (py_round (spec_coerced conf 1 0.5) 2) |}
      else None
  | _ => None
  end.

End ValidatorSpec.

(** Inputs outside the two cases in which the validator raises: a category
    that cannot be hashed, and an integer too large for a float. *)
Definition hashable (v : PyVal) : bool :=
  match v with VList _ | VDict _ => false | _ => true end.

Definition float_in_range (v : PyVal) : bool :=
  match v with
  | VInt z => (Z.abs z <? 2 ^ 1024 - 2 ^ 970)%Z
  | _ => true
  end.

Definition tolerated (d : gmap string PyVal) : bool :=
  from_option hashable true (d !! "category")
  && from_option float_in_range true (d !! "value")
  && from_option float_in_range true (d !! "confidence").



(** A runtime in which the LLM call fails. *)
Definition failing_llm (prompt : string) : res PyVal :=
  Raise (OtherException "APIConnectionError").

Definition no_float (s : string) : option pyfloat := None.

Definition no_json (s : string) : res PyVal := Raise JSONDecodeError.

Definition plain_prompt (company_name content : string) : string :=
  (company_name +:+ content)%string.

(** A fixed reading of the clock. *)
Definition example_now : DatabaseManager.datetime := 1700000000000000%Z.

(** The record has its [category] key. *)
Definition has_category (m : SustainabilityScorer.Metric) : bool :=
  match SustainabilityScorer.category m with Some _ => true | None => false end.

(** The record has its three other keys. *)
Definition has_details (m : SustainabilityScorer.Metric) : bool :=
  match SustainabilityScorer.metric_name m, SustainabilityScorer.value m,
        SustainabilityScorer.confidence m with
  | Some _, Some _, Some _ => true
  | _, _, _ => false
  end.

(** The record belongs to the category. *)
Definition of_category (cat : string) (m : SustainabilityScorer.Metric) : bool :=
  match SustainabilityScorer.category m with
  | Some c => String.eqb c cat
  | None => false
  end.

(** The record belongs to one of the three scored categories. *)
Definition is_scored (m : SustainabilityScorer.Metric) : bool :=
  of_category "Environmental" m || of_category "Social" m
  || of_category "Governance" m.



(** The writes of [_build_component_scores], in the order it makes them. *)
Definition component_writes
    (category_scores : list (string * SustainabilityScorer.CategoryScore))
    : list (string * Q) :=
  flat_map
    (fun item : string * SustainabilityScorer.CategoryScore =>
       ((str_lower (fst item) +:+ "_overall")%string,
        SustainabilityScorer.cs_score (snd item))
       :: map (fun m => (SustainabilityScorer.metric_key
                           (SustainabilityScorer.md_name m),
                         SustainabilityScorer.md_value m))
              (SustainabilityScorer.cs_metrics (snd item)))
    category_scores.

(** The same fraction, written the same way. *)
Definition Qsame (a b : Q) : bool :=
  Z.eqb (Qnum a) (Qnum b) && Pos.eqb (Qden a) (Qden b).

(** A number within [0, hi] that rounding to two decimals leaves as it is. *)
Definition settled (hi : Q) (x : pyfloat) : bool :=
  match x with
  | Fin q => Qle_bool 0 q && Qle_bool q hi && Qsame (py_round q 2) q
  | _ => false
  end.

(** A record in the shape the validator promises: a category among the
    three, a value in 0..100 and a confidence in 0..1, both with two
    decimals. *)
Definition clean_record (r : MetricsExtractor.MetricRecord) : bool :=
  match MetricsExtractor.category r with
  | VStr s =>
      existsb (String.eqb s) ["Environmental"; "Social"; "Governance"]%string
      && settled 100 (MetricsExtractor.value r)
      && settled 1 (MetricsExtractor.confidence r)
  | _ => false
  end.

(** The dict of a record, as it would come back in a response. *)
Definition record_map (r : MetricsExtractor.MetricRecord) : gmap string PyVal :=
  {[ "category" := MetricsExtractor.category r;
     "metric_name" := MetricsExtractor.metric_name r;
     "value" := VFloat (MetricsExtractor.value r);
     "confidence" := VFloat (MetricsExtractor.confidence r) ]}.

(** A record of the extractor as the scorer reads it: the same dict, when
    its category and name are strings and its numbers finite. *)
Definition row_of_record (r : MetricsExtractor.MetricRecord) : option Row :=
  match MetricsExtractor.category r, MetricsExtractor.metric_name r,
        MetricsExtractor.value r, MetricsExtractor.confidence r with
  | VStr c, VStr n, Fin v, Fin k =>
      Some {| row_category := c; row_name := n;
              row_value := v; row_confidence := k |}
  | _, _, _, _ => None
  end.

Definition has_string_name (r : MetricsExtractor.MetricRecord) : bool :=
  match MetricsExtractor.metric_name r with VStr _ => true | _ => false end.

(** The successful scrapes of a list of URLs tried one after the other,
    the first at iteration [i]. *)
Fixpoint successes (scrape_url : nat -> string -> option MetricsExtractor.Source)
    (i : nat) (urls : list string) : list MetricsExtractor.Source :=
  match urls with
  | [] => []
  | url :: rest =>
      match scrape_url i url with
      | Some source => source :: successes scrape_url (S i) rest
      | None => successes scrape_url (S i) rest
      end
  end.

(** The URLs scraped, in order. *)
Definition scraped_urls (events : list ResearchAgent.Event) : list string :=
  omap (fun e => match e with ResearchAgent.Scrape u => Some u
                            | ResearchAgent.Sleep => None end) events.

(** No two scrapes without a pause between them. *)
Fixpoint paced (events : list ResearchAgent.Event) : bool :=
  match events with
  | ResearchAgent.Scrape _ :: ((ResearchAgent.Scrape _ :: _) as rest) => false
  | _ :: rest => paced rest
  | [] => true
  end.

Definition is_dict (v : PyVal) : bool :=
  match v with VDict _ => true | _ => false end.


(** Two names that give the same component key. *)
Definition clashing_names : list (string * SustainabilityScorer.CategoryScore) :=
  [ ("Environmental",
     {| SustainabilityScorer.cs_score := 60;
        SustainabilityScorer.cs_confidence := 0.9;
        SustainabilityScorer.cs_metric_count := 2;
        SustainabilityScorer.cs_metrics :=
          [ {| SustainabilityScorer.md_name := "Waste Management";
               SustainabilityScorer.md_value := 80;
               SustainabilityScorer.md_confidence := 0.9 |};
            {| SustainabilityScorer.md_name := "waste management";
               SustainabilityScorer.md_value := 40;
               SustainabilityScorer.md_confidence := 0.9 |} ] |}) ]%string.

(** A record of a category that is not scored, without value or
    confidence, and a record of a scored one. *)
Definition mixed_metrics : list SustainabilityScorer.Metric :=
  [ {| SustainabilityScorer.category := Some "Economic";
       SustainabilityScorer.metric_name := Some "Revenue";
       SustainabilityScorer.value := None;
       SustainabilityScorer.confidence := None |};
    {| SustainabilityScorer.category := Some "Social";
       SustainabilityScorer.metric_name := Some "Labor Practices";
       SustainabilityScorer.value := Some 70;
       SustainabilityScorer.confidence := Some 0.8 |} ]%string.

Definition row_labor (v : Q) : Row :=
  {| row_category := "Social"; row_name := "Labor Practices";
     row_value := v; row_confidence := 0.8 |}.

(** Raw dicts as a response may hold them: a value out of range, an unknown
    category, a value that is no number. *)
Definition raw_examples : list (gmap string PyVal) :=
  [ {[ "category" := VStr "Environmental"; "metric_name" := VStr "Waste Management";
       "value" := VInt 150; "confidence" := VFloat (Fin 0.456) ]};
    {[ "category" := VStr "Economic"; "metric_name" := VStr "Revenue";
       "value" := VInt 10; "confidence" := VFloat (Fin 0.5) ]};
    {[ "category" := VStr "Social"; "metric_name" := VStr "Labor Practices";
       "value" := VStr "high"; "confidence" := VNone ]} ]%string.

(** What the validator makes of them: 100 and 0.46, the record of the
    unknown category dropped, 50 and 0.5. *)
Definition validated_examples : list MetricsExtractor.MetricRecord :=
  [ {| MetricsExtractor.category := VStr "Environmental";
       MetricsExtractor.metric_name := VStr "Waste Management";
       MetricsExtractor.value := Fin 100;
       MetricsExtractor.confidence := Fin (23 # 50) |};
    {| MetricsExtractor.category := VStr "Social";
       MetricsExtractor.metric_name := VStr "Labor Practices";
       MetricsExtractor.value := Fin 50;
       MetricsExtractor.confidence := Fin (1 # 2) |} ]%string.

(** A runtime in which the LLM answers with an empty JSON object. *)
Definition empty_object_llm (prompt : string) : res PyVal := Ok (VStr "{}").

Definition json_empty_object (s : string) : res PyVal := Ok (VDict ∅).

Definition plain_intent_prompt (user_message : string)
    (analyzed_companies : list string) : string := user_message.

(** A message without surrounding whitespace is left as it is. *)
Definition strip_nothing (s : string) : string := s.

(** A web in which every scrape succeeds, and one in which the search
    finds nothing. *)
Definition scrape_ok (i : nat) (url : string) : option MetricsExtractor.Source :=
  Some {| MetricsExtractor.url := url; MetricsExtractor.content := "report" |}.

Definition no_search (company_name : string) : list string := [].

Definition seven_urls : list string :=
  [ "https://a.example"; "https://b.example"; "https://c.example";
    "https://d.example"; "https://e.example"; "https://f.example";
    "https://g.example" ]%string.

(** A metric that carries all four fields, on Python's numbers, and the
    dict it stands for. *)
Record NumRow : Type := {
  nr_category : string;
  nr_name : string;
  nr_value : PyNum;
  nr_confidence : PyNum
}.

Definition num_metric_of (r : NumRow) : FloatScorer.Metric :=
  {| FloatScorer.category := Some (nr_category r);
     FloatScorer.metric_name := Some (nr_name r);
     FloatScorer.value := Some (nr_value r);
     FloatScorer.confidence := Some (nr_confidence r) |}.

Definition num_select (cat : string) (rows : list NumRow) : list NumRow :=
  List.filter (fun r => String.eqb (nr_category r) cat) rows.

Definition num_detail_of (r : NumRow) : FloatScorer.MetricDetail :=
  {| FloatScorer.md_name := nr_name r;
     FloatScorer.md_value := nr_value r;
     FloatScorer.md_confidence := nr_confidence r |}.

(** The two sums of the specification, evaluated as Python evaluates
    them: from the int [0], in the order of the list. *)
Definition sum_weighted (sel : list NumRow) : res PyNum :=
  for_each (fun total r =>
              weighted ← py_mul (nr_value r) (nr_confidence r);
              py_add total weighted)
           sel (NInt 0).

Definition sum_confidence (sel : list NumRow) : res PyNum :=
  for_each (fun total r => py_add total (nr_confidence r)) sel (NInt 0).

(** The result of the specification for the records of one category. *)
Definition num_category_score (sel : list NumRow)
    : res FloatScorer.CategoryScore :=
  match sel with
  | [] =>
      Ok {| FloatScorer.cs_score := float_lit 50.0;
            FloatScorer.cs_confidence := float_lit 0.0;
            FloatScorer.cs_metric_count := 0;
            FloatScorer.cs_metrics := [] |}
  | _ =>
      weighted ← sum_weighted sel;
      total ← sum_confidence sel;
      averages ←
        (if py_gt total (NInt 0)
         then
           score ← py_truediv weighted total;
           conf ← py_truediv total (NInt (Z.of_nat (length sel)));
           Ok (score, conf)
         else Ok (float_lit 50.0, float_lit 0.0));
      Ok {| FloatScorer.cs_score := float_round (fst averages) 2;
            FloatScorer.cs_confidence := float_round (snd averages) 2;
            FloatScorer.cs_metric_count := length sel;
            FloatScorer.cs_metrics := map num_detail_of sel |}
  end.

(** An int that fits 64 bits, or a float. *)
Definition modest (x : PyNum) : bool :=
  match x with
  | NInt z => (Z.abs z <? 2 ^ 63)%Z
  | NFloat _ => true
  end.

Definition modest_row (r : NumRow) : bool :=
  modest (nr_value r) && modest (nr_confidence r).

(** The weighted combination of three category scores and the mean of
    three confidences, evaluated as Python evaluates them. *)
Definition float_combine (e s g : float64) : float64 :=
  fdiv (fadd (fadd (fadd (S754_zero false) (fmul e (float_lit 0.40)))
                   (fmul s (float_lit 0.35)))
             (fmul g (float_lit 0.25)))
       (fadd (fadd (fadd (S754_zero false) (float_lit 0.40)) (float_lit 0.35))
             (float_lit 0.25)).

Definition float_mean3 (compensated : bool) (a b c : float64) : float64 :=
  fdiv (float_sum compensated (fadd (S754_zero false) a) [b; c]) (float_lit 3).

(** The result of the specification for three category results. *)
Definition num_final_score (compensated : bool)
    (env soc gov : FloatScorer.CategoryScore) : FloatScorer.FinalScore :=
  let raw := float_combine (FloatScorer.cs_score env) (FloatScorer.cs_score soc)
                           (FloatScorer.cs_score gov) in
  let breakdown :=
    [ ("Environmental", env); ("Social", soc); ("Governance", gov) ]%string in
  {| FloatScorer.final_score := float_round raw 2;
     FloatScorer.score_level := FloatScorer._get_score_level (NFloat raw);
     FloatScorer.fs_confidence :=
       float_round (float_mean3 compensated (FloatScorer.cs_confidence env)
                                (FloatScorer.cs_confidence soc)
                                (FloatScorer.cs_confidence gov)) 2;
     FloatScorer.environmental_score := FloatScorer.cs_score env;
     FloatScorer.social_score := FloatScorer.cs_score soc;
     FloatScorer.governance_score := FloatScorer.cs_score gov;
     FloatScorer.category_breakdown := breakdown;
     FloatScorer.component_scores :=
       FloatScorer._build_component_scores breakdown |}.

(** The computation fails with [OverflowError] or not at all. *)
Definition only_overflow {A} (m : res A) : Prop :=
  forall e, m = Raise e -> e = OverflowError.

(** A number that is not zero. *)
Definition nonzero (x : PyNum) : Prop :=
  match x with
  | NInt z => z <> 0%Z
  | NFloat f => is_zero f = false
  end.

(** An int of absolute value at most [bound], or a float. *)
Definition tame (bound : Z) (x : PyNum) : Prop :=
  match x with
  | NInt z => (Z.abs z <= bound)%Z
  | NFloat _ => True
  end.

(** The predicates on a metric dict: its keys, its category, its numbers. *)
Definition num_has_category (m : FloatScorer.Metric) : bool :=
  match FloatScorer.category m with Some _ => true | None => false end.

Definition num_has_details (m : FloatScorer.Metric) : bool :=
  match FloatScorer.metric_name m, FloatScorer.value m,
        FloatScorer.confidence m with
  | Some _, Some _, Some _ => true
  | _, _, _ => false
  end.

Definition num_of_category (cat : string) (m : FloatScorer.Metric) : bool :=
  match FloatScorer.category m with
  | Some c => String.eqb c cat
  | None => false
  end.

Definition num_is_scored (m : FloatScorer.Metric) : bool :=
  num_of_category "Environmental" m || num_of_category "Social" m
  || num_of_category "Governance" m.

Definition modest_metric (m : FloatScorer.Metric) : bool :=
  from_option modest true (FloatScorer.value m)
  && from_option modest true (FloatScorer.confidence m).

(** The metrics used as examples. *)
Definition num_metric (cat name : string) (value confidence : PyNum)
    : FloatScorer.Metric :=
  {| FloatScorer.category := Some cat;
     FloatScorer.metric_name := Some name;
     FloatScorer.value := Some value;
     FloatScorer.confidence := Some confidence |}.

Definition flt (q : Q) : PyNum := NFloat (float_lit q).

Definition one_per_category (e s g : PyNum) : list FloatScorer.Metric :=
  [ num_metric "Environmental" "Carbon Emissions Reduction" e (flt 1.0);
    num_metric "Social" "Labor Practices" s (flt 1.0);
    num_metric "Governance" "Board Independence" g (flt 1.0) ]%string.

Definition num_row (cat name : string) (value confidence : PyNum) : NumRow :=
  {| nr_category := cat; nr_name := name;
     nr_value := value; nr_confidence := confidence |}.

(** The two Environmental metrics (80, 0.2) and (40, 0.8). *)
Definition two_environmental : list NumRow :=
  [ num_row "Environmental" "A" (NInt 80) (flt 0.2);
    num_row "Environmental" "B" (NInt 40) (flt 0.8) ]%string.

(** The result with score 50.0 and confidence 0.0. *)
Definition neutral_result (count : nat)
    (details : list FloatScorer.MetricDetail) : FloatScorer.CategoryScore :=
  {| FloatScorer.cs_score := float_lit 50.0;
     FloatScorer.cs_confidence := float_lit 0.0;
     FloatScorer.cs_metric_count := count;
     FloatScorer.cs_metrics := details |}.

(** Steps 3 and 4 of [calculate_category_score] on the records of the
    category: the unrounded score and confidence. *)
Definition category_averages (l : list FloatScorer.Metric)
    : res (float64 * float64) :=
  totals ← for_each FloatScorer.accumulate l (NInt 0, NInt 0);
  if py_gt (snd totals) (NInt 0)
  then
    category_score ← py_truediv (fst totals) (snd totals);
    avg_confidence ← py_truediv (snd totals) (NInt (Z.of_nat (length l)));
    Ok (category_score, avg_confidence)
  else Ok (float_lit 50.0, float_lit 0.0).

(** The category result of a list holding, for the category, the single
    metric [name] with the given value and confidence 1.0. *)
Definition single_result (name : string) (value : PyNum) (score : Q)
    : FloatScorer.CategoryScore :=
  {| FloatScorer.cs_score := float_lit score;
     FloatScorer.cs_confidence := float_lit 1;
     FloatScorer.cs_metric_count := 1;
     FloatScorer.cs_metrics :=
       [ {| FloatScorer.md_name := name;
            FloatScorer.md_value := value;
            FloatScorer.md_confidence := flt 1.0 |} ] |}.

(** Category scores 85.0, 85.0 and 84.99, with category confidences 1.0,
    1.0 and 0.5. *)
Definition rounded_example : list FloatScorer.Metric :=
  [ num_metric "Environmental" "A" (flt 85) (flt 1.0);
    num_metric "Social" "B" (flt 85) (flt 1.0);
    num_metric "Governance" "C" (flt 84.99) (flt 0.0);
    num_metric "Governance" "D" (flt 84.99) (flt 1.0) ]%string.

(** The returned final score and confidence are not the combination and
    the mean themselves. *)
Definition returns_rounded (compensated : bool) : Prop :=
  exists r,
    FloatScorer.calculate_final_score compensated rounded_example = Ok r /\
    FloatScorer.environmental_score r = float_lit 85 /\
    FloatScorer.social_score r = float_lit 85 /\
    FloatScorer.governance_score r = float_lit 84.99 /\
    FloatScorer.final_score r = float_lit 85 /\
    FloatScorer.final_score r
      <> float_combine (FloatScorer.environmental_score r)
                       (FloatScorer.social_score r)
                       (FloatScorer.governance_score r) /\
    FloatScorer.fs_confidence r = float_lit 0.83 /\
    FloatScorer.fs_confidence r
      <> float_mean3 compensated (float_lit 1) (float_lit 1) (float_lit 0.5).

(** * Properties *)

(** ** Comparisons and rounding *)

Lemma Qltb_lt (a b : Q) : Qltb a b = true <-> a < b.
Proof.
  unfold Qltb. rewrite negb_true_iff, <- not_true_iff_false, Qle_bool_iff.
  split; [apply Qnot_le_lt | apply Qlt_not_le].
Qed.

Lemma Qltb_ge (a b : Q) : Qltb a b = false <-> b <= a.
Proof.
  unfold Qltb. rewrite negb_false_iff. apply Qle_bool_iff.
Qed.

Lemma Qle_bool_false (a b : Q) : Qle_bool a b = false <-> b < a.
Proof.
  rewrite <- not_true_iff_false, Qle_bool_iff.
  split; [apply Qnot_le_lt | apply Qlt_not_le].
Qed.

Lemma Qltb_proper (a a' b b' : Q) : a == a' -> b == b' -> Qltb a b = Qltb a' b'.
Proof.
  intros Ha Hb.
  destruct (Qltb a b) eqn:E1, (Qltb a' b') eqn:E2; trivial.
  - apply Qltb_lt in E1. apply Qltb_ge in E2. lra.
  - apply Qltb_ge in E1. apply Qltb_lt in E2. lra.
Qed.

(** Turns every boolean comparison of the goal into a hypothesis on
    rationals, one case per outcome. *)
Ltac qcases :=
  repeat match goal with
  | |- context [Qle_bool ?a ?b] =>
      let E := fresh "E" in
      destruct (Qle_bool a b) eqn:E;
      [apply Qle_bool_iff in E | apply Qle_bool_false in E]
  | |- context [Qltb ?a ?b] =>
      let E := fresh "E" in
      destruct (Qltb a b) eqn:E;
      [apply Qltb_lt in E | apply Qltb_ge in E]
  end.

Lemma round_half_even_proper (x y : Q) :
  x == y -> round_half_even x = round_half_even y.
Proof.
  intros H. unfold round_half_even.
  rewrite (Qfloor_comp x y H).
  assert (Hc : Qcompare (x - inject_Z (Qfloor y)) (1 # 2)
             = Qcompare (y - inject_Z (Qfloor y)) (1 # 2)).
  { apply Qcompare_comp; [rewrite H |]; reflexivity. }
  rewrite Hc. reflexivity.
Qed.

Lemma py_round_proper (x y : Q) (n : nat) : x == y -> py_round x n = py_round y n.
Proof.
  intros H. unfold py_round. destruct n.
  - now rewrite (round_half_even_proper x y H).
  - f_equal. f_equal. apply round_half_even_proper. now rewrite H.
Qed.

(** Rounding moves a value by less than one unit and never across an
    integer. *)
Lemma round_half_even_between (q : Q) (lo hi : Z) :
  inject_Z lo <= q -> q <= inject_Z hi ->
  (lo <= round_half_even q <= hi)%Z.
Proof.
  intros Hlo Hhi.
  assert (Hf1 := Qfloor_le q). assert (Hf2 := Qlt_floor q).
  assert (Hl : (lo <= Qfloor q)%Z).
  { rewrite <- (Qfloor_Z lo). now apply Qfloor_resp_le. }
  assert (Hh : (Qfloor q <= hi)%Z).
  { rewrite <- (Qfloor_Z hi). now apply Qfloor_resp_le. }
  assert (Hup : ~ (q == inject_Z (Qfloor q)) -> (Qfloor q + 1 <= hi)%Z).
  { intros Hne.
    destruct (Z.eq_dec (Qfloor q) hi) as [Heq | Hneq]; [| lia].
    exfalso. apply Hne. rewrite Heq in *. lra. }
  unfold round_half_even.
  destruct (Qcompare (q - inject_Z (Qfloor q)) (1 # 2)) eqn:C.
  - apply Qeq_alt in C. destruct (Z.even (Qfloor q)); [lia |].
    split; [lia |]. apply Hup. lra.
  - lia.
  - apply Qgt_alt in C. split; [lia |]. apply Hup. lra.
Qed.

Lemma py_round2_spec (x : Q) :
  py_round x 2 == inject_Z (round_half_even (x * 100)) / 100.
Proof.
  unfold py_round. cbn [Pos.of_nat]. rewrite Qred_correct.
  change (Pos.pow 10 (Pos.of_nat 2)) with 100%positive.
  change (inject_Z (Z.pos 100)) with 100.
  rewrite (Qmake_Qdiv (round_half_even (x * 100)) 100). reflexivity.
Qed.

Lemma py_round2_between (x : Q) (lo hi : Z) :
  inject_Z lo <= x -> x <= inject_Z hi ->
  inject_Z lo <= py_round x 2 /\ py_round x 2 <= inject_Z hi.
Proof.
  intros Hlo Hhi. rewrite py_round2_spec.
  destruct (round_half_even_between (x * 100) (lo * 100) (hi * 100)) as [H1 H2].
  - rewrite inject_Z_mult. change (inject_Z 100) with 100. lra.
  - rewrite inject_Z_mult. change (inject_Z 100) with 100. lra.
  - rewrite Zle_Qle in H1, H2.
    rewrite inject_Z_mult in H1, H2. change (inject_Z 100) with 100 in H1, H2.
    split.
    + apply Qle_shift_div_l; lra.
    + apply Qle_shift_div_r; lra.
Qed.

(** ** Score levels *)

Lemma in_score_ranges_iff (score : Q) :
  in_score_ranges score = true <->
  (85 <= score <= 100 \/ 70 <= score <= 84 \/ 50 <= score <= 69 \/
   30 <= score <= 49 \/ 0 <= score <= 29).
Proof.
  unfold in_score_ranges, SustainabilityScorer.SCORE_LEVELS. cbn.
  rewrite !orb_true_iff, !andb_true_iff, !Qle_bool_iff.
  intuition (try discriminate; auto).
Qed.

Lemma pdf_sidebar_same_level (score : Q) :
  PDFGenerator._get_score_level score = sidebar.get_score_level score.
Proof. reflexivity. Qed.

(** Between two consecutive ranges, and outside 0..100, the scorer finds no
    level. *)
Lemma scorer_level_unknown (score : Q) :
  in_score_ranges score = false ->
  SustainabilityScorer._get_score_level score = "Unknown"%string.
Proof.
  unfold in_score_ranges, SustainabilityScorer._get_score_level,
    SustainabilityScorer.SCORE_LEVELS.
  cbn. rewrite !orb_false_iff. intros (-> & -> & -> & -> & -> & _).
  reflexivity.
Qed.

(** C2 (as amended): the PDF generator and the sidebar compute the same
    level for every score, and on every score that lies in one of the five
    ranges 85..100, 70..84, 50..69, 30..49, 0..29 this is also the level of
    [SustainabilityScorer._get_score_level]; above 100 and below 0 the
    scorer answers "Unknown" and the presentation layer "Excellent" and
    "Very Poor". *)
Theorem C2_levels_agree_within_ranges (score : Q) :
  PDFGenerator._get_score_level score = sidebar.get_score_level score /\
  (in_score_ranges score = true ->
   SustainabilityScorer._get_score_level score
     = PDFGenerator._get_score_level score) /\
  (100 < score ->
   SustainabilityScorer._get_score_level score = "Unknown"%string /\
   PDFGenerator._get_score_level score = "Excellent"%string) /\
  (score < 0 ->
   SustainabilityScorer._get_score_level score = "Unknown"%string /\
   PDFGenerator._get_score_level score = "Very Poor"%string).
Proof.
  split; [reflexivity |]. split; [| split].
  - rewrite in_score_ranges_iff.
    unfold SustainabilityScorer._get_score_level, PDFGenerator._get_score_level,
      SustainabilityScorer.SCORE_LEVELS.
    cbn. intros H. qcases; cbn; try reflexivity; exfalso; lra.
  - intros H. split.
    + apply scorer_level_unknown. apply not_true_iff_false.
      rewrite in_score_ranges_iff. lra.
    + unfold PDFGenerator._get_score_level. qcases; try reflexivity; lra.
  - intros H. split.
    + apply scorer_level_unknown. apply not_true_iff_false.
      rewrite in_score_ranges_iff. lra.
    + unfold PDFGenerator._get_score_level. qcases; try reflexivity; lra.
Qed.

(** The score 78 lies in the range of "Good". *)
Lemma C2_levels_agree_within_ranges_witness :
  in_score_ranges 78 = true /\
  SustainabilityScorer._get_score_level 78 = PDFGenerator._get_score_level 78.
Proof.
  split; [reflexivity |].
  apply (proj1 (proj2 (C2_levels_agree_within_ranges 78))). reflexivity.
Defined.

(** C2 (as stated) fails above 100, where the scorer answers "Unknown" and
    the presentation layer "Excellent". *)
Lemma C2_levels_differ_out_of_range :
  SustainabilityScorer._get_score_level 150 = "Unknown"%string /\
  PDFGenerator._get_score_level 150 = "Excellent"%string /\
  sidebar.get_score_level 150 = "Excellent"%string /\
  ~ (forall score : Q,
       PDFGenerator._get_score_level score
         = SustainabilityScorer._get_score_level score /\
       sidebar.get_score_level score
         = SustainabilityScorer._get_score_level score).
Proof.
  repeat split; try reflexivity.
  intros H. destruct (H 150) as [H1 _]. discriminate H1.
Qed.

(** ** Category scorer *)

Section CategoryScorer.
Import SustainabilityScorer.

Lemma filter_category_rows (rows : list Row) (cat : string) :
  filter_category (map metric_of rows) cat = Ok (map metric_of (select cat rows)).
Proof.
  induction rows as [| r rows IH]; [reflexivity |].
  cbn [map filter_category]. rewrite IH. cbn.
  destruct (String.eqb (row_category r) cat); reflexivity.
Qed.

Lemma mapM_metric_detail_rows (rows : list Row) :
  mapM metric_detail (map metric_of rows) = Ok (map detail_of rows).
Proof.
  induction rows as [| r rows IH]; [reflexivity |].
  cbn [map mapM]. rewrite IH. reflexivity.
Qed.

Lemma sigma_cons (x : Q) (l : list Q) : sigma (x :: l) = x + sigma l.
Proof. reflexivity. Qed.

Lemma fold_accumulate_rows (rows : list Row) (acc : Q * Q) :
  fst (fold_left accumulate (map metric_of rows) acc)
    == fst acc + sigma_weighted rows /\
  snd (fold_left accumulate (map metric_of rows) acc)
    == snd acc + sigma_confidence rows.
Proof.
  revert acc. induction rows as [| r rows IH]; intros acc.
  - unfold sigma_weighted, sigma_confidence.
    cbn [map fold_left sigma fold_right]. split; ring.
  - cbn [map fold_left]. destruct (IH (accumulate acc (metric_of r))) as [H1 H2].
    rewrite H1, H2. unfold sigma_weighted, sigma_confidence.
    cbn [map accumulate metric_of value confidence default from_option id fst snd].
    rewrite !sigma_cons. split; ring.
Qed.

(** On records that carry their four fields the code computes the category
    result of the specification. *)
Lemma calculate_category_score_rows (rows : list Row) (cat : string) :
  calculate_category_score (map metric_of rows) cat
    = Ok (spec_category_score (select cat rows)).
Proof.
  unfold calculate_category_score. rewrite filter_category_rows.
  cbn [mbind res_bind].
  generalize (select cat rows). intros sel.
  destruct (fold_accumulate_rows sel (0, 0)) as [Hw Hc].
  cbn [fst snd] in Hw, Hc.
  assert (Hbranch :
    Qltb 0 (snd (fold_left accumulate (map metric_of sel) (0, 0)))
    = Qltb 0 (sigma_confidence sel)).
  { apply Qltb_proper; [reflexivity |]. rewrite Hc. ring. }
  destruct (map metric_of sel) as [| m ms] eqn:Hms.
  { destruct sel; [| discriminate Hms]. reflexivity. }
  rewrite <- Hms in *. clear Hms m ms.
  rewrite Hbranch, mapM_metric_detail_rows, length_map.
  unfold spec_category_score.
  destruct sel as [| r0 sel0] eqn:Hs; [reflexivity |]. rewrite <- Hs in *.
  destruct (Qltb 0 (sigma_confidence sel)) eqn:Hpos; [| reflexivity].
  cbn [mbind res_bind]. f_equal. f_equal.
  - apply py_round_proper. rewrite Hw, Hc.
    apply Qltb_lt in Hpos. field. lra.
  - apply py_round_proper. rewrite Hc. unfold count_of. field.
    rewrite Hs. cbn [length]. rewrite Nat2Z.inj_succ.
    intros Hz. assert (H0 := Nat2Z.is_nonneg (length sel0)).
    unfold Z.succ in Hz. rewrite inject_Z_plus in Hz.
    rewrite Zle_Qle in H0. change (inject_Z 1) with 1 in Hz.
    change (inject_Z 0) with 0 in H0. lra.
Qed.

Lemma valid_row_bounds (r : Row) :
  valid_row r = true ->
  0 <= row_value r <= 100 /\ 0 <= row_confidence r <= 1.
Proof.
  unfold valid_row. rewrite !andb_true_iff, !Qle_bool_iff. tauto.
Qed.

Lemma Forall_valid_select (cat : string) (rows : list Row) :
  Forall (fun r => valid_row r = true) rows ->
  Forall (fun r => valid_row r = true) (select cat rows).
Proof.
  unfold select. induction 1 as [| r rows Hr _ IH]; cbn [List.filter].
  - constructor.
  - destruct (String.eqb (row_category r) cat); [constructor |]; assumption.
Qed.

Lemma sigma_bounds (sel : list Row) :
  Forall (fun r => valid_row r = true) sel ->
  0 <= sigma_weighted sel /\
  sigma_weighted sel <= 100 * sigma_confidence sel /\
  0 <= sigma_confidence sel /\
  sigma_confidence sel <= count_of sel.
Proof.
  unfold sigma_weighted, sigma_confidence, count_of.
  induction 1 as [| r sel Hr _ IH].
  - cbn [map length]. change (sigma []) with 0.
    change (inject_Z (Z.of_nat 0)) with 0. lra.
  - destruct IH as (I1 & I2 & I3 & I4).
    apply valid_row_bounds in Hr. destruct Hr as [[V1 V2] [C1 C2]].
    cbn [map length]. rewrite !sigma_cons, Nat2Z.inj_succ.
    unfold Z.succ. rewrite inject_Z_plus. change (inject_Z 1) with 1.
    repeat split; nra.
Qed.

(** On valid records the category score lies in 0..100 and the category
    confidence in 0..1. *)
Lemma spec_category_score_range (sel : list Row) :
  Forall (fun r => valid_row r = true) sel ->
  0 <= cs_score (spec_category_score sel) <= 100 /\
  0 <= cs_confidence (spec_category_score sel) <= 1.
Proof.
  intros Hv. destruct (sigma_bounds sel Hv) as (S1 & S2 & S3 & S4).
  unfold spec_category_score. destruct sel as [| r0 sel0] eqn:Hs.
  { cbn. lra. }
  rewrite <- Hs in *.
  destruct (Qltb 0 (sigma_confidence sel)) eqn:Hpos; [| cbn; lra].
  apply Qltb_lt in Hpos. cbn [cs_score cs_confidence].
  assert (Hcnt : 0 < count_of sel).
  { unfold count_of. rewrite Hs. cbn [length]. rewrite Nat2Z.inj_succ.
    unfold Z.succ. rewrite inject_Z_plus. change (inject_Z 1) with 1.
    assert (H0 := Nat2Z.is_nonneg (length sel0)). rewrite Zle_Qle in H0.
    change (inject_Z 0) with 0 in H0. lra. }
  split.
  - apply (py_round2_between _ 0 100); change (inject_Z 0) with 0;
      change (inject_Z 100) with 100.
    + apply Qle_shift_div_l; lra.
    + apply Qle_shift_div_r; lra.
  - apply (py_round2_between _ 0 1); change (inject_Z 0) with 0;
      change (inject_Z 1) with 1.
    + apply Qle_shift_div_l; lra.
    + apply Qle_shift_div_r; lra.
Qed.

(** C3: a record of the category without its [value] key, or without its
    [confidence] key, passes the accumulation loop on the fallback and then
    makes the detail list raise [KeyError]. *)
Theorem C3_missing_field_raises :
  calculate_category_score
    [ {| category := Some "Environmental"; metric_name := Some "Carbon";
         value := None; confidence := Some 0.9 |} ]
    "Environmental" = Raise (KeyError "value") /\
  calculate_category_score
    [ {| category := Some "Environmental"; metric_name := Some "Carbon";
         value := Some 80; confidence := None |} ]
    "Environmental" = Raise (KeyError "confidence") /\
  fold_left accumulate
    [ {| category := Some "Environmental"; metric_name := Some "Carbon";
         value := None; confidence := None |} ] (0, 0)
    = (0 + 50 * 0.5, 0 + 0.5).
Proof. repeat split; reflexivity. Qed.

End CategoryScorer.
(** ** Final scorer *)

Section FinalScorer.
Import SustainabilityScorer.

Lemma level_lookup_proper (levels : list (string * (Q * Q))) (x y : Q) :
  x == y -> level_lookup levels x = level_lookup levels y.
Proof.
  intros H. induction levels as [| [lvl [lo hi]] levels IH]; [reflexivity |].
  cbn [level_lookup]. rewrite IH.
  assert (H1 : Qle_bool lo x = Qle_bool lo y) by now rewrite H.
  assert (H2 : Qle_bool x hi = Qle_bool y hi) by now rewrite H.
  now rewrite H1, H2.
Qed.

Lemma get_score_level_proper (x y : Q) :
  x == y -> _get_score_level x = _get_score_level y.
Proof. apply level_lookup_proper. Qed.

(** The state of the scoring loop after the three categories. *)
Lemma calculate_final_score_rows (rows : list Row) :
  let env := spec_category_score (select "Environmental" rows) in
  let soc := spec_category_score (select "Social" rows) in
  let gov := spec_category_score (select "Governance" rows) in
  let raw := combine (cs_score env) (cs_score soc) (cs_score gov) in
  calculate_final_score (map metric_of rows)
  = Ok {| final_score := py_round raw 2;
          score_level := _get_score_level raw;
          fs_confidence :=
            py_round (mean3 (cs_confidence env) (cs_confidence soc)
                            (cs_confidence gov)) 2;
          environmental_score := cs_score env;
          social_score := cs_score soc;
          governance_score := cs_score gov;
          category_breakdown :=
            [ ("Environmental", env); ("Social", soc); ("Governance", gov) ]%string;
          component_scores :=
            _build_component_scores
              [ ("Environmental", env); ("Social", soc); ("Governance", gov) ]%string |}.
Proof.
  intros env soc gov raw.
  unfold calculate_final_score, calculate_final_score_with, CATEGORY_WEIGHTS.
  cbn [for_each]. unfold score_step.
  rewrite !calculate_category_score_rows.
  fold env soc gov. cbn [mbind res_bind app].
  change (items_get "Environmental" _) with (Ok env).
  change (items_get "Social" _) with (Ok soc).
  change (items_get "Governance" _) with (Ok gov).
  cbn [mbind res_bind map length snd].
  assert (Hraw : weighted_final
                   (0 + cs_score env * 0.40 + cs_score soc * 0.35
                    + cs_score gov * 0.25) (0 + 0.40 + 0.35 + 0.25) == raw).
  { unfold weighted_final.
    change (Qltb 0 (0 + 0.40 + 0.35 + 0.25)) with true. cbv iota.
    unfold raw, combine. field. }
  f_equal. f_equal.
  - now apply py_round_proper.
  - now apply get_score_level_proper.
  - apply py_round_proper. unfold sum_Q, mean3. cbn [fold_left].
    change (inject_Z (Z.of_nat 3)) with 3. field.
Qed.

(** The flattened keys: the docstring's example, a name with "and", and two
    metrics whose names give the same key, of which the later one stays. *)
Lemma component_scores_keys :
  metric_key "Carbon Emissions Reduction" = "carbon_emissions_reduction"%string /\
  metric_key "Diversity and Inclusion" = "diversity_inclusion"%string /\
  _build_component_scores
    [ ("Social",
       {| cs_score := 55; cs_confidence := 1; cs_metric_count := 1;
          cs_metrics := [ {| md_name := "Risk Management"; md_value := 10;
                             md_confidence := 1 |} ] |});
      ("Governance",
       {| cs_score := 60; cs_confidence := 1; cs_metric_count := 1;
          cs_metrics := [ {| md_name := "Risk and Management"; md_value := 20;
                             md_confidence := 1 |} ] |}) ]%string
  = {[ "social_overall" := 55; "governance_overall" := 60;
       "risk_management" := 20 ]}%string.
Proof. repeat split; vm_compute; reflexivity. Qed.

(** On valid records the final score lies in 0..100, and so does the
    overall confidence in 0..1. *)
Lemma final_score_range (rows : list Row) :
  Forall (fun r => valid_row r = true) rows ->
  exists r, calculate_final_score (map metric_of rows) = Ok r /\
            0 <= final_score r <= 100 /\ 0 <= fs_confidence r <= 1.
Proof.
  intros Hv. eexists. split; [apply calculate_final_score_rows |].
  cbn [final_score fs_confidence].
  destruct (spec_category_score_range _ (Forall_valid_select "Environmental" _ Hv))
    as [[E1 E2] [E3 E4]].
  destruct (spec_category_score_range _ (Forall_valid_select "Social" _ Hv))
    as [[S1 S2] [S3 S4]].
  destruct (spec_category_score_range _ (Forall_valid_select "Governance" _ Hv))
    as [[G1 G2] [G3 G4]].
  split.
  - apply (py_round2_between _ 0 100); change (inject_Z 0) with 0;
      change (inject_Z 100) with 100; unfold combine.
    + apply Qle_shift_div_l; lra.
    + apply Qle_shift_div_r; lra.
  - apply (py_round2_between _ 0 1); change (inject_Z 0) with 0;
      change (inject_Z 1) with 1; unfold mean3.
    + apply Qle_shift_div_l; lra.
    + apply Qle_shift_div_r; lra.
Qed.

(** C1: a valid metric list whose final score falls between two of the
    integer ranges of [SCORE_LEVELS] gets the level "Unknown", and so does
    the score 84.99; the scores 85.0, 50.0 and 29.0 get "Excellent", "Fair"
    and "Very Poor". *)
Theorem C1_valid_metrics_unknown_level :
  let rows :=
    [ {| row_category := "Environmental"; row_name := "Carbon Emissions Reduction";
         row_value := 85; row_confidence := 1 |};
      {| row_category := "Social"; row_name := "Labor Practices";
         row_value := 84; row_confidence := 1 |};
      {| row_category := "Governance"; row_name := "Board Independence";
         row_value := 84; row_confidence := 1 |} ] in
  Forall (fun r => valid_row r = true) rows /\
  (exists r, calculate_final_score (map metric_of rows) = Ok r /\
             final_score r == 84.4 /\ score_level r = "Unknown"%string) /\
  _get_score_level 84.99 = "Unknown"%string /\
  _get_score_level 85.0 = "Excellent"%string /\
  _get_score_level 50.0 = "Fair"%string /\
  _get_score_level 29.0 = "Very Poor"%string.
Proof.
  cbv zeta. split.
  - repeat constructor.
  - split; [| repeat split; reflexivity].
    eexists. split; [vm_compute; reflexivity |]. split; reflexivity.
Qed.

End FinalScorer.

(** ** Recommendations *)

Section Recommendations.
Import SustainabilityScorer.

(** The loop that appends, the insertion at the front and the final slice
    build the list of the specification. *)
Lemma get_recommendations_eq (scores : FinalScore) (env soc gov : CategoryScore) :
  items_get "Environmental" (category_breakdown scores) = Ok env ->
  items_get "Social" (category_breakdown scores) = Ok soc ->
  items_get "Governance" (category_breakdown scores) = Ok gov ->
  get_recommendations scores
    = Ok (recommendations_spec (final_score scores) env soc gov).
Proof.
  intros He Hs Hg.
  unfold get_recommendations. cbn [for_each]. unfold recommend_step.
  rewrite He. cbn [mbind res_bind]. rewrite Hs. cbn [mbind res_bind].
  rewrite Hg. cbn [mbind res_bind].
  unfold recommendations_spec, severity_header, category_lines.
  f_equal.
  destruct (Qltb (final_score scores) 50);
    [| destruct (Qltb (final_score scores) 70)];
    destruct (Qltb (cs_score env) 60), (Qltb (cs_score soc) 60),
      (Qltb (cs_score gov) 60);
    cbn [app]; rewrite <- ?app_assoc; cbn [app]; reflexivity.
Qed.

(** A score structure returned by [calculate_final_score] holds the three
    categories. *)
Lemma final_score_has_categories (metrics : list Metric) (scores : FinalScore) :
  calculate_final_score metrics = Ok scores ->
  exists env soc gov,
    items_get "Environmental" (category_breakdown scores) = Ok env /\
    items_get "Social" (category_breakdown scores) = Ok soc /\
    items_get "Governance" (category_breakdown scores) = Ok gov.
Proof.
  unfold calculate_final_score, calculate_final_score_with, CATEGORY_WEIGHTS.
  cbn [for_each]. unfold score_step.
  destruct (calculate_category_score metrics "Environmental") as [env |];
    cbn [mbind res_bind]; [| discriminate].
  destruct (calculate_category_score metrics "Social") as [soc |];
    cbn [mbind res_bind]; [| discriminate].
  destruct (calculate_category_score metrics "Governance") as [gov |];
    cbn [mbind res_bind]; [| discriminate].
  cbn [app]. intros H.
  change (items_get "Environmental" _) with (Ok env) in H.
  change (items_get "Social" _) with (Ok soc) in H.
  change (items_get "Governance" _) with (Ok gov) in H.
  cbn [mbind res_bind] in H. injection H as <-. cbn [category_breakdown].
  exists env, soc, gov. repeat split; reflexivity.
Qed.

(** On every result of [calculate_final_score] the recommendations are
    computed without error and are at most five. *)
Lemma recommendations_after_scoring (metrics : list Metric) (scores : FinalScore) :
  calculate_final_score metrics = Ok scores ->
  exists recs, get_recommendations scores = Ok recs /\ (length recs <= 5)%nat.
Proof.
  intros H. destruct (final_score_has_categories _ _ H)
    as (env & soc & gov & He & Hs & Hg).
  exists (recommendations_spec (final_score scores) env soc gov).
  split; [now apply get_recommendations_eq |].
  unfold recommendations_spec. rewrite length_take. lia.
Qed.


End Recommendations.

(** ** Cache gate *)

Section CacheGate.
Import DatabaseManager.

Lemma merge_sort_nil {A} (R : relation A) `{!RelDecision R} (l : list A) :
  merge_sort R l = [] <-> l = [].
Proof.
  rewrite <- (Permutation_nil_r (merge_sort R l)), <- (Permutation_nil_r l).
  now rewrite merge_sort_Permutation.
Qed.

(** The stored source list of a company is empty exactly when no row of the
    table belongs to it. *)
Lemma get_research_sources_nil (db : Database) (cid : Z) :
  get_research_sources db cid = [] <->
  Forall (fun r => rs_company_id r <> cid) (research_sources db).
Proof.
  unfold get_research_sources. rewrite merge_sort_nil.
  induction (research_sources db) as [| r l IH]; cbn [List.filter].
  - split; [constructor | reflexivity].
  - destruct (Z.eqb_spec (rs_company_id r) cid) as [Heq | Hne].
    + split; [discriminate |]. intros H. inversion H; subst. congruence.
    + rewrite IH. split; [now constructor |]. intros H. now inversion H.
Qed.

(** No score record exists exactly when no row of the table belongs to the
    company. *)
Lemma get_latest_score_None (db : Database) (cid : Z) :
  get_latest_score db cid = None <->
  Forall (fun r => sr_company_id r <> cid) (sustainability_scores db).
Proof.
  unfold get_latest_score.
  rewrite head_None, merge_sort_nil.
  induction (sustainability_scores db) as [| r l IH]; cbn [List.filter].
  - split; [constructor | reflexivity].
  - destruct (Z.eqb_spec (sr_company_id r) cid) as [Heq | Hne].
    + split; [discriminate |]. intros H. inversion H; subst. congruence.
    + rewrite IH. split; [now constructor |]. intros H. now inversion H.
Qed.

Lemma calculated_desc_total : Total calculated_desc.
Proof. intros a b. unfold calculated_desc. lia. Qed.

Lemma calculated_desc_trans : Transitive calculated_desc.
Proof. intros a b c. unfold calculated_desc. lia. Qed.

(** The score record handed out is one of the company's, and no record of
    the company was calculated later. *)
Lemma get_latest_score_latest (db : Database) (cid : Z) (latest : ScoreRow) :
  get_latest_score db cid = Some latest ->
  latest ∈ sustainability_scores db /\
  sr_company_id latest = cid /\
  forall other, other ∈ sustainability_scores db -> sr_company_id other = cid ->
                (calculated_at other <= calculated_at latest)%Z.
Proof.
  unfold get_latest_score.
  set (rows := List.filter (fun r => Z.eqb (sr_company_id r) cid)
                           (sustainability_scores db)).
  assert (Hrows : forall r, r ∈ rows <->
                            r ∈ sustainability_scores db /\ sr_company_id r = cid).
  { intros r. unfold rows. rewrite !list_elem_of_In, filter_In, Z.eqb_eq.
    reflexivity. }
  assert (Hsorted := @StronglySorted_merge_sort _ calculated_desc _
                       calculated_desc_trans calculated_desc_total rows).
  assert (Hperm := merge_sort_Permutation calculated_desc rows).
  destruct (merge_sort calculated_desc rows) as [| first rest]; [discriminate |].
  intros [= ->].
  assert (Hin : latest ∈ rows) by (rewrite <- Hperm; left).
  apply Hrows in Hin. destruct Hin as [Hin Hid].
  split; [exact Hin |]. split; [exact Hid |].
  intros other Ho Hoid.
  assert (Hor : other ∈ latest :: rest) by (rewrite Hperm; apply Hrows; auto).
  apply StronglySorted_inv in Hsorted. destruct Hsorted as [_ Hall].
  apply elem_of_cons in Hor. destruct Hor as [-> | Hor]; [lia |].
  rewrite Forall_forall in Hall. apply (Hall other Hor).
Qed.


End CacheGate.

(** ** Metric extraction *)

Section Extraction.
Import MetricsExtractor.

Variable float_of_string : string -> option pyfloat.
Variable json_loads : string -> res PyVal.
Variable create_metrics_extraction_prompt : string -> string -> string.
Variable complete_json : string -> res PyVal.

(** C8: whenever the body of the [try] of [extract_metrics] raises an
    exception (a failing LLM call, an unparsable response, or anything
    else), [extract_metrics] returns the default set; that set has exactly
    one record for each of the fifteen metric names, five per category,
    every one with value 50.0 and confidence 0.1. *)
Theorem C8_extraction_failure_gives_defaults
    (company_name : string) (sources : list Source) :
  let prompt :=
    create_metrics_extraction_prompt company_name (combined_content sources) in
  let result :=
    extract_metrics float_of_string json_loads create_metrics_extraction_prompt
      complete_json company_name sources in
  (forall e,
     extraction_attempt float_of_string json_loads complete_json prompt = Raise e ->
     is_Exception e = true ->
     result = Ok _get_default_metrics) /\
  (forall e,
     complete_json prompt = Raise e -> is_Exception e = true ->
     result = Ok _get_default_metrics) /\
  (forall response e,
     complete_json prompt = Ok (VStr response) ->
     json_loads response = Raise e -> is_Exception e = true ->
     result = Ok _get_default_metrics) /\
  (forall e, result = Raise e -> is_Exception e = false) /\
  (is_Exception JSONDecodeError = true) /\
  fifteen_names = flat_map snd METRICS_SCHEMA /\
  map metric_name _get_default_metrics = map VStr fifteen_names /\
  NoDup fifteen_names /\
  length _get_default_metrics = 15%nat /\
  Forall (fun m => value m = Fin 50 /\ confidence m = Fin 0.1)
         _get_default_metrics /\
  Forall (fun cat =>
            length (List.filter (fun m => String.eqb (category_string m) cat)
                                _get_default_metrics) = 5%nat)
         ["Environmental"; "Social"; "Governance"]%string.
Proof.
  intros prompt result.
  assert (Hmain : forall e,
    extraction_attempt float_of_string json_loads complete_json prompt = Raise e ->
    is_Exception e = true -> result = Ok _get_default_metrics).
  { intros e He Hexc. subst result. unfold extract_metrics. fold prompt.
    rewrite He. cbn [try_clauses handle].
    destruct (is_JSONDecodeError e); [reflexivity |]. now rewrite Hexc. }
  split; [exact Hmain |]. split; [| split; [| split]].
  - intros e He. apply Hmain. unfold extraction_attempt. now rewrite He.
  - intros response e Hr He. apply Hmain. unfold extraction_attempt.
    rewrite Hr. cbn [mbind res_bind py_json_loads]. now rewrite He.
  - intros e. subst result. unfold extract_metrics. fold prompt.
    destruct (extraction_attempt _ _ _ prompt) as [l | e']; [discriminate |].
    cbn [try_clauses handle].
    destruct (is_JSONDecodeError e'); [discriminate |].
    destruct (is_Exception e') eqn:Hexc; [discriminate |].
    now intros [= <-].
  - split; [reflexivity |]. split; [reflexivity |]. split; [reflexivity |]. split.
    { apply (bool_decide_unpack _). vm_compute. exact I. }
    split; [reflexivity |]. split; repeat constructor.
Qed.

(** C7: a record whose category is a JSON list reaches the membership test
    [metric['category'] not in CATEGORY_WEIGHTS], which raises [TypeError];
    a record whose value is an integer beyond the float range makes
    [float(...)] raise [OverflowError], which the handler for
    [(ValueError, TypeError)] lets through. *)
Theorem C7_validator_raises :
  _validate_metrics float_of_string
    (VList [ raw_metric (VList [VStr "Environmental"]) (VStr "Waste Management")
                        (VInt 80) (VFloat (Fin 0.9)) ])
  = Raise TypeError /\
  _validate_metrics float_of_string
    (VList [ raw_metric (VStr "Environmental") (VStr "Waste Management")
                        (VInt (10 ^ 400)) (VFloat (Fin 0.9)) ])
  = Raise OverflowError.
Proof. split; vm_compute; reflexivity. Qed.

(** Seen from [extract_metrics]: one record with a list as category among
    the metrics of a well-formed response replaces the whole result with the
    default set, the well-formed records included. *)
Lemma unhashable_category_discards_all
    (company_name : string) (sources : list Source) (response : string) :
  let prompt :=
    create_metrics_extraction_prompt company_name (combined_content sources) in
  complete_json prompt = Ok (VStr response) ->
  json_loads response
    = Ok (VDict {[ "metrics" :=
            VList [ raw_metric (VStr "Social") (VStr "Human Rights")
                               (VInt 90) (VFloat (Fin 0.8));
                    raw_metric (VList [VStr "Environmental"])
                               (VStr "Waste Management")
                               (VInt 80) (VFloat (Fin 0.9)) ] ]}) ->
  extract_metrics float_of_string json_loads create_metrics_extraction_prompt
    complete_json company_name sources
  = Ok _get_default_metrics.
Proof.
  intros prompt Hllm Hjson. unfold extract_metrics, extraction_attempt.
  fold prompt. rewrite Hllm. cbn [mbind res_bind py_json_loads].
  rewrite Hjson. vm_compute. reflexivity.
Qed.

Lemma py_float_in_range (raw : PyVal) :
  float_in_range raw = true ->
  match py_float float_of_string raw with
  | Ok _ => True
  | Raise e => is_ValueError e || is_TypeError e = true
  end.
Proof.
  destruct raw; cbn; try (intros; exact I || reflexivity).
  - intros ->. exact I.
  - intros _. destruct (float_of_string s); [exact I | reflexivity].
Qed.

Lemma clamp_code_spec (hi : Q) (x : pyfloat) :
  0 <= hi ->
  exists q, py_max (Fin 0) (py_min (Fin hi) x) = Fin q /\ q == spec_clamp hi x.
Proof.
  intros Hhi. unfold py_max, py_min, spec_clamp.
  destruct x as [q | | |]; cbn [flt_ltb].
  - destruct (Qltb q hi) eqn:E1; cbn [flt_ltb].
    + apply Qltb_lt in E1.
      destruct (Qltb 0 q) eqn:E2; [apply Qltb_lt in E2 | apply Qltb_ge in E2];
        eexists; (split; [reflexivity |]); qcases; lra.
    + apply Qltb_ge in E1.
      destruct (Qltb 0 hi) eqn:E2; [apply Qltb_lt in E2 | apply Qltb_ge in E2];
        eexists; (split; [reflexivity |]); qcases; lra.
  - destruct (Qltb 0 hi) eqn:E; [apply Qltb_lt in E | apply Qltb_ge in E];
      eexists; (split; [reflexivity |]); lra.
  - eexists. split; reflexivity.
  - destruct (Qltb 0 hi) eqn:E; [apply Qltb_lt in E | apply Qltb_ge in E];
      eexists; (split; [reflexivity |]); lra.
Qed.

Lemma coerce_clamp_code (raw : PyVal) (hi fallback : Q) :
  0 <= hi -> float_in_range raw = true ->
  exists q, coerce_clamp float_of_string raw hi fallback = Ok (Fin q) /\
            q == spec_coerced float_of_string raw hi fallback.
Proof.
  intros Hhi Hr. unfold coerce_clamp, spec_coerced.
  assert (H := py_float_in_range raw Hr).
  destruct (py_float float_of_string raw) as [x | e].
  - cbn [mbind res_bind try_clauses].
    destruct (clamp_code_spec hi x Hhi) as (q & -> & Hq). now exists q.
  - cbn [mbind res_bind try_clauses handle]. rewrite H.
    eexists. split; reflexivity.
Qed.

Lemma spec_clamp_range (hi : Q) (x : pyfloat) : 0 <= hi -> 0 <= spec_clamp hi x <= hi.
Proof.
  intros Hhi. unfold spec_clamp. destruct x; qcases; lra.
Qed.

Lemma validate_step_tolerated (acc : list MetricRecord) (d : gmap string PyVal) :
  tolerated d = true ->
  validate_step float_of_string acc (VDict d)
    = Ok (acc ++ option_list (spec_validated float_of_string d)).
Proof.
  unfold tolerated, validate_step, spec_validated.
  cbn [all_in required_fields py_contains py_getitem mbind res_bind].
  destruct (d !! "category"%string) as [cat |] eqn:Hcat;
    [| intros _; cbn; now rewrite app_nil_r].
  destruct (d !! "metric_name"%string) as [name |] eqn:Hname;
    [| intros _; cbn; now rewrite app_nil_r].
  destruct (d !! "value"%string) as [val |] eqn:Hval;
    [| intros _; cbn; now rewrite app_nil_r].
  destruct (d !! "confidence"%string) as [conf |] eqn:Hconf;
    [| intros _; cbn; now rewrite app_nil_r].
  cbn [from_option]. rewrite !andb_true_iff. intros [[Hh Hv] Hc].
  rewrite !bool_decide_eq_true_2 by eauto.
  cbn [mbind res_bind negb getitem option_bind].
  destruct cat as [| b | z | f | s | l | m]; try discriminate Hh;
    try (cbn; now rewrite app_nil_r).
  cbn [in_category_weights CATEGORY_WEIGHTS existsb fst mbind res_bind].
  rewrite !(String.eqb_sym _ s).
  destruct ((s =? "Environmental")%string || ((s =? "Social")%string
            || ((s =? "Governance")%string || false))) eqn:Hknown;
    [| cbn; now rewrite app_nil_r].
  cbn [negb].
  destruct (coerce_clamp_code val 100 50) as (v & -> & Hvq); [lra | exact Hv |].
  destruct (coerce_clamp_code conf 1 0.5) as (c & -> & Hcq); [lra | exact Hc |].
  cbn [mbind res_bind option_list py_round_float].
  rewrite (py_round_proper _ _ 2 Hvq), (py_round_proper _ _ 2 Hcq).
  reflexivity.
Qed.

(** On dicts with a hashable category and numbers within the float range,
    the validator returns the spec_validated records of those dicts that carry the
    four fields and a known category, in order. *)
Lemma validate_metrics_tolerated (ds : list (gmap string PyVal)) :
  Forall (fun d => tolerated d = true) ds ->
  _validate_metrics float_of_string (VList (map VDict ds))
    = Ok (omap (spec_validated float_of_string) ds).
Proof.
  intros Hds. unfold _validate_metrics. cbn [py_iter mbind res_bind].
  change (omap (spec_validated float_of_string) ds)
    with ([] ++ omap (spec_validated float_of_string) ds).
  generalize (@nil MetricRecord) as acc.
  induction Hds as [| d ds Hd _ IH]; intros acc.
  - cbn. now rewrite app_nil_r.
  - cbn [map for_each]. rewrite (validate_step_tolerated acc d Hd).
    cbn [mbind res_bind]. rewrite IH. f_equal.
    rewrite <- app_assoc. f_equal.
    cbn [omap list_omap]. destruct (spec_validated float_of_string d); reflexivity.
Qed.

(** Every spec_validated record has a value in 0..100 and a confidence in 0..1,
    both rounded to two decimals, and a category among the three. *)
Lemma spec_validated_range (d : gmap string PyVal) (m : MetricRecord) :
  spec_validated float_of_string d = Some m ->
  (exists v, value m = Fin (py_round v 2) /\ 0 <= py_round v 2 <= 100) /\
  (exists c, confidence m = Fin (py_round c 2) /\ 0 <= py_round c 2 <= 1) /\
  Some (category m) = d !! "category"%string /\
  Some (metric_name m) = d !! "metric_name"%string /\
  existsb (String.eqb (category_string m))
          ["Environmental"; "Social"; "Governance"]%string = true.
Proof.
  unfold spec_validated.
  destruct (d !! "category"%string) as [cat |]; [| discriminate].
  destruct (d !! "metric_name"%string) as [name |]; [| discriminate].
  destruct (d !! "value"%string) as [val |]; [| discriminate].
  destruct (d !! "confidence"%string) as [conf |]; [| discriminate].
  cbn [mbind option_bind].
  destruct cat as [| b | z | f | s | l | m']; try discriminate.
  destruct (existsb (String.eqb s) _) eqn:Hknown; [| discriminate].
  intros [= <-]. cbn [value confidence category metric_name].
  assert (Hv : 0 <= spec_coerced float_of_string val 100 50 <= 100).
  { unfold spec_coerced. destruct (py_float float_of_string val);
      [apply spec_clamp_range |]; lra. }
  assert (Hc : 0 <= spec_coerced float_of_string conf 1 0.5 <= 1).
  { unfold spec_coerced. destruct (py_float float_of_string conf);
      [apply spec_clamp_range |]; lra. }
  repeat split; try reflexivity.
  - eexists. split; [reflexivity |].
    apply (py_round2_between _ 0 100); change (inject_Z 0) with 0;
      change (inject_Z 100) with 100; lra.
  - eexists. split; [reflexivity |].
    apply (py_round2_between _ 0 1); change (inject_Z 0) with 0;
      change (inject_Z 1) with 1; lra.
  - exact Hknown.
Qed.

(** The three examples of the specification: 150 is clamped to 100, -0.3 to
    0, and a string that is no number is replaced with 50.0. *)
Lemma spec_coerced_examples :
  spec_coerced float_of_string (VInt 150) 100 50 == 100 /\
  spec_coerced float_of_string (VFloat (Fin (-0.3))) 1 0.5 == 0 /\
  (float_of_string "N/A" = None ->
   spec_coerced float_of_string (VStr "N/A") 100 50 == 50.0).
Proof.
  repeat split; try reflexivity.
  intros H. unfold spec_coerced. cbn [py_float]. rewrite H. reflexivity.
Qed.

End Extraction.

(** ** The scorer: when it returns, what it ignores, how it orders *)

Section ScorerRounding.
Import SustainabilityScorer.



Lemma round_half_even_Z (z : Z) : round_half_even (inject_Z z) = z.
Proof.
  unfold round_half_even. rewrite Qfloor_Z.
  destruct (Qcompare (inject_Z z - inject_Z z) (1 # 2)) eqn:C; [| reflexivity |].
  - apply Qeq_alt in C. exfalso. lra.
  - apply Qgt_alt in C. exfalso. lra.
Qed.

Lemma py_round2_idem (x : Q) : py_round (py_round x 2) 2 = py_round x 2.
Proof.
  assert (H : round_half_even (py_round x 2 * 100) = round_half_even (x * 100)).
  { rewrite (round_half_even_proper _ (inject_Z (round_half_even (x * 100)))).
    - apply round_half_even_Z.
    - rewrite py_round2_spec. field. }
  unfold py_round at 1.
  change (Pos.pow 10 (Pos.of_nat 2)) with 100%positive.
  change (inject_Z (Z.pos 100)) with 100. rewrite H. reflexivity.
Qed.

End ScorerRounding.

Section ScorerErrors.
Import SustainabilityScorer.

Lemma filter_category_ok (metrics : list Metric) (cat : string) :
  forallb has_category metrics = true ->
  filter_category metrics cat = Ok (List.filter (of_category cat) metrics).
Proof.
  induction metrics as [| m ms IH]; [reflexivity |].
  cbn [forallb]. rewrite andb_true_iff. intros [Hm Hms].
  cbn [filter_category List.filter]. rewrite (IH Hms).
  unfold has_category in Hm. unfold of_category.
  destruct (category m) as [c |]; [| discriminate]. cbn.
  destruct (String.eqb c cat); reflexivity.
Qed.

Lemma filter_category_raises (metrics : list Metric) (cat : string) :
  forallb has_category metrics = false ->
  filter_category metrics cat = Raise (KeyError "category").
Proof.
  induction metrics as [| m ms IH]; [discriminate |].
  cbn [forallb filter_category]. unfold has_category at 1.
  destruct (category m) as [c |]; [| reflexivity].
  cbn. intros H. rewrite (IH H). reflexivity.
Qed.

Lemma mapM_metric_detail_ok (l : list Metric) :
  forallb has_details l = true ->
  exists details, mapM metric_detail l = Ok details /\ length details = length l.
Proof.
  induction l as [| m l IH]; [exists []; split; reflexivity |].
  cbn [forallb]. rewrite andb_true_iff. intros [Hm Hl].
  destruct (IH Hl) as (ds & Hds & Hlen).
  unfold has_details in Hm.
  destruct (metric_name m) as [n |] eqn:En; [| discriminate].
  destruct (value m) as [v |] eqn:Ev; [| discriminate].
  destruct (confidence m) as [c |] eqn:Ec; [| discriminate].
  assert (Hdm : metric_detail m
                = Ok {| md_name := n; md_value := v; md_confidence := c |}).
  { unfold metric_detail. now rewrite En, Ev, Ec. }
  eexists. cbn [mapM]. rewrite Hdm, Hds.
  cbn. split; [reflexivity |]. cbn. now rewrite Hlen.
Qed.

Lemma mapM_metric_detail_raises (l : list Metric) :
  forallb has_details l = false ->
  exists key, mapM metric_detail l = Raise (KeyError key) /\
              In key ["metric_name"; "value"; "confidence"]%string.
Proof.
  induction l as [| m l IH]; [discriminate |].
  cbn [forallb]. rewrite andb_false_iff.
  cbn [mapM]. unfold has_details at 1.
  assert (Hdm : metric_detail m
                = n ← getitem "metric_name" (metric_name m);
                  v ← getitem "value" (value m);
                  c ← getitem "confidence" (confidence m);
                  Ok {| md_name := n; md_value := v; md_confidence := c |})
    by reflexivity.
  rewrite Hdm. clear Hdm.
  destruct (metric_name m) as [n |];
    [| intros _; eexists; split; [reflexivity | cbn; tauto]].
  destruct (value m) as [v |];
    [| intros _; eexists; split; [reflexivity | cbn; tauto]].
  destruct (confidence m) as [c |];
    [| intros _; eexists; split; [reflexivity | cbn; tauto]].
  intros [H | H]; [discriminate |].
  destruct (IH H) as (key & Hk & Hin). exists key. cbn. rewrite Hk. now split.
Qed.

(** When every record has a category, the category score is computed
    exactly when the records of the category have their other keys. *)
Lemma calculate_category_score_returns (metrics : list Metric) (cat : string) :
  forallb has_category metrics = true ->
  if forallb has_details (List.filter (of_category cat) metrics)
  then exists data, calculate_category_score metrics cat = Ok data
  else exists key, calculate_category_score metrics cat = Raise (KeyError key) /\
                   In key ["metric_name"; "value"; "confidence"]%string.
Proof.
  intros Hc. unfold calculate_category_score.
  rewrite (filter_category_ok _ _ Hc). cbn [mbind res_bind].
  destruct (forallb has_details (List.filter (of_category cat) metrics)) eqn:Hd.
  - destruct (List.filter (of_category cat) metrics) as [| m l] eqn:Hl;
      [eexists; reflexivity |].
    rewrite <- Hl in *. destruct (mapM_metric_detail_ok _ Hd) as (ds & -> & _).
    rewrite Hl. destruct (if Qltb 0 _ then _ else _). eexists. reflexivity.
  - destruct (List.filter (of_category cat) metrics) as [| m l] eqn:Hl;
      [discriminate |].
    rewrite <- Hl in *. destruct (mapM_metric_detail_raises _ Hd) as (k & -> & Hin).
    rewrite Hl. destruct (if Qltb 0 _ then _ else _). exists k. now split.
Qed.

Lemma calculate_category_score_no_category (metrics : list Metric) (cat : string) :
  forallb has_category metrics = false ->
  calculate_category_score metrics cat = Raise (KeyError "category").
Proof.
  intros H. unfold calculate_category_score.
  now rewrite (filter_category_raises _ _ H).
Qed.

End ScorerErrors.

Section ScorerResult.
Import SustainabilityScorer.


Lemma forallb_filter {A} (p f : A -> bool) (l : list A) :
  forallb f (List.filter p l) = forallb (fun x => implb (p x) (f x)) l.
Proof.
  induction l as [| x l IH]; [reflexivity |].
  cbn [List.filter forallb]. destruct (p x); cbn [forallb implb]; now rewrite IH.
Qed.

Lemma forallb_scored (metrics : list Metric) :
  forallb (fun m => implb (is_scored m) (has_details m)) metrics
  = forallb has_details (List.filter (of_category "Environmental") metrics)
    && forallb has_details (List.filter (of_category "Social") metrics)
    && forallb has_details (List.filter (of_category "Governance") metrics).
Proof.
  rewrite !forallb_filter.
  induction metrics as [| m ms IH]; [reflexivity |].
  cbn [forallb]. rewrite IH. unfold is_scored.
  destruct (of_category "Environmental" m), (of_category "Social" m),
    (of_category "Governance" m), (has_details m); cbn;
    repeat (destruct (forallb _ ms)); reflexivity.
Qed.

Lemma filter_of_category_scored (cat : string) (metrics : list Metric) :
  In cat ["Environmental"; "Social"; "Governance"]%string ->
  List.filter (of_category cat) (List.filter is_scored metrics)
  = List.filter (of_category cat) metrics.
Proof.
  intros Hcat. induction metrics as [| m ms IH]; [reflexivity |].
  cbn [List.filter].
  destruct (is_scored m) eqn:Hs; cbn [List.filter]; rewrite IH; [reflexivity |].
  assert (Hf : of_category cat m = false).
  { unfold is_scored in Hs. rewrite !orb_false_iff in Hs.
    destruct Hs as [[H1 H2] H3].
    cbn in Hcat. destruct Hcat as [<- | [<- | [<- | []]]]; assumption. }
  now rewrite Hf.
Qed.

Lemma forallb_has_category_filter (p : Metric -> bool) (metrics : list Metric) :
  forallb has_category metrics = true ->
  forallb has_category (List.filter p metrics) = true.
Proof.
  induction metrics as [| m ms IH]; [reflexivity |].
  cbn [forallb List.filter]. rewrite andb_true_iff. intros [Hm Hms].
  destruct (p m); cbn [forallb]; [rewrite Hm |]; auto.
Qed.

Lemma calculate_category_score_scored (cat : string) (metrics : list Metric) :
  In cat ["Environmental"; "Social"; "Governance"]%string ->
  forallb has_category metrics = true ->
  calculate_category_score (List.filter is_scored metrics) cat
  = calculate_category_score metrics cat.
Proof.
  intros Hcat Hc. unfold calculate_category_score.
  rewrite (filter_category_ok _ _ Hc).
  rewrite (filter_category_ok _ _ (forallb_has_category_filter is_scored _ Hc)).
  now rewrite filter_of_category_scored.
Qed.

(** X2: records whose category is none of the three scored ones play no
    part in the result, even when they lack their value or confidence: the
    list and the list without them give the same result. *)
Theorem X2_other_categories_ignored (metrics : list Metric) :
  forallb has_category metrics = true ->
  calculate_final_score metrics
  = calculate_final_score (List.filter is_scored metrics).
Proof.
  intros Hc.
  unfold calculate_final_score, calculate_final_score_with, CATEGORY_WEIGHTS.
  cbn [for_each]. unfold score_step.
  rewrite !(calculate_category_score_scored _ metrics) by (cbn; tauto).
  reflexivity.
Qed.

End ScorerResult.

Section ScorerOrder.
Import SustainabilityScorer.

Lemma calculate_final_score_no_data (metrics : list Metric) :
  forallb has_category metrics = true ->
  forallb (fun m => negb (is_scored m)) metrics = true ->
  calculate_final_score metrics = calculate_final_score [].
Proof.
  intros Hc Hn.
  unfold calculate_final_score, calculate_final_score_with, CATEGORY_WEIGHTS.
  cbn [for_each]. unfold score_step.
  rewrite <- !(calculate_category_score_scored _ metrics) by (cbn; tauto || exact Hc).
  replace (List.filter is_scored metrics) with (@nil Metric); [reflexivity |].
  clear Hc. induction metrics as [| m ms IH]; [reflexivity |].
  cbn [forallb] in Hn. apply andb_true_iff in Hn. destruct Hn as [Hm Hms].
  cbn [List.filter]. apply negb_true_iff in Hm. rewrite Hm. now apply IH.
Qed.

(** X3: with no record of the three scored categories (the empty list in
    particular) the result is the neutral one: every category 50.0 with
    confidence 0.0 and no metric, final score 50.0, level "Fair",
    confidence 0.0, and the three overall entries as only components. *)
Theorem X3_no_data_is_neutral (metrics : list Metric) :
  forallb has_category metrics = true ->
  forallb (fun m => negb (is_scored m)) metrics = true ->
  let neutral := {| cs_score := 50; cs_confidence := 0;
                    cs_metric_count := 0; cs_metrics := [] |} in
  calculate_final_score metrics
  = Ok {| final_score := 50; score_level := "Fair"; fs_confidence := 0;
          environmental_score := 50; social_score := 50; governance_score := 50;
          category_breakdown :=
            [("Environmental", neutral); ("Social", neutral);
             ("Governance", neutral)]%string;
          component_scores :=
            {[ "environmental_overall" := 50; "social_overall" := 50;
               "governance_overall" := 50 ]}%string |}.
Proof.
  intros Hc Hn neutral. rewrite (calculate_final_score_no_data _ Hc Hn).
  vm_compute. reflexivity.
Qed.






(** X5: on records with a category among the three, a value in 0..100 and a
    confidence in 0..1 the scorer returns, with the three category scores
    and the final score in 0..100 and the category confidences and the
    overall confidence in 0..1. *)
Theorem X5_scores_in_range (rows : list Row) :
  Forall (fun r => valid_row r = true) rows ->
  exists r,
    calculate_final_score (map metric_of rows) = Ok r /\
    0 <= final_score r <= 100 /\ 0 <= fs_confidence r <= 1 /\
    0 <= environmental_score r <= 100 /\ 0 <= social_score r <= 100 /\
    0 <= governance_score r <= 100 /\
    Forall (fun item => 0 <= cs_score (snd item) <= 100 /\
                        0 <= cs_confidence (snd item) <= 1)
           (category_breakdown r).
Proof.
  intros Hv. destruct (final_score_range rows Hv) as (r & Hr & Hf & Hc).
  exists r. split; [exact Hr |]. split; [exact Hf |]. split; [exact Hc |].
  rewrite calculate_final_score_rows in Hr. injection Hr as <-.
  cbn [environmental_score social_score governance_score category_breakdown].
  assert (E := spec_category_score_range _ (Forall_valid_select "Environmental" _ Hv)).
  assert (S := spec_category_score_range _ (Forall_valid_select "Social" _ Hv)).
  assert (G := spec_category_score_range _ (Forall_valid_select "Governance" _ Hv)).
  repeat split; try tauto.
  repeat constructor; cbn [snd]; tauto.
Qed.

End ScorerOrder.

(** ** Recommendations and component scores *)

Section RecommendationList.
Import SustainabilityScorer.




Lemma build_component_scores_writes (category_scores : list (string * CategoryScore)) :
  _build_component_scores category_scores
  = fold_left (fun (m : gmap string Q) (kv : string * Q) => <[kv.1 := kv.2]> m)
              (component_writes category_scores) ∅.
Proof.
  unfold _build_component_scores, component_writes.
  generalize (∅ : gmap string Q) as acc.
  induction category_scores as [| [cat data] cs IH]; intros acc; [reflexivity |].
  cbn [fold_left flat_map fst snd]. rewrite IH. rewrite fold_left_app.
  cbn [fold_left fst snd]. f_equal.
  generalize (<[(str_lower cat +:+ "_overall")%string := cs_score data]> acc) as acc'.
  induction (cs_metrics data) as [| m ms IHm]; intros acc'; [reflexivity |].
  cbn [fold_left map fst snd]. apply IHm.
Qed.

Lemma fold_insert_lookup (writes : list (string * Q)) (m : gmap string Q) (k : string) :
  k ∉ writes.*1 ->
  fold_left (fun (m : gmap string Q) (kv : string * Q) => <[kv.1 := kv.2]> m)
            writes m !! k = m !! k.
Proof.
  revert m. induction writes as [| [k' v'] ws IH]; intros m Hk; [reflexivity |].
  cbn [fold_left fst snd]. cbn in Hk. apply not_elem_of_cons in Hk.
  destruct Hk as [Hne Hk]. rewrite (IH _ Hk). now apply lookup_insert_ne.
Qed.

Lemma fold_insert_dom (writes : list (string * Q)) (m : gmap string Q) (k : string) :
  is_Some (fold_left (fun (m : gmap string Q) (kv : string * Q) => <[kv.1 := kv.2]> m)
                     writes m !! k)
  <-> k ∈ writes.*1 \/ is_Some (m !! k).
Proof.
  revert m. induction writes as [| [k' v'] ws IH]; intros m.
  - cbn. rewrite elem_of_nil. tauto.
  - cbn [fold_left fst snd fmap list_fmap]. rewrite IH, elem_of_cons.
    destruct (decide (k' = k)) as [-> | Hne].
    + rewrite lookup_insert_eq. split; [tauto |]. intros _. right. eauto.
    + rewrite lookup_insert_ne by exact Hne. split; [tauto |].
      intros [[-> | H] | H]; [congruence | tauto | tauto].
Qed.

(** X8: the flattened component scores hold exactly the keys written, one
    "<category>_overall" per category and one normalised key per metric,
    and under each key the value of the last write to it: when two names
    give the same key the later one replaces the earlier. *)
Theorem X8_component_scores (category_scores : list (string * CategoryScore)) :
  (forall key,
     is_Some (_build_component_scores category_scores !! key)
     <-> key ∈ (component_writes category_scores).*1) /\
  (forall before key val after,
     component_writes category_scores = before ++ (key, val) :: after ->
     key ∉ after.*1 ->
     _build_component_scores category_scores !! key = Some val).
Proof.
  rewrite build_component_scores_writes. split.
  - intros key. rewrite fold_insert_dom, lookup_empty.
    split; [intros [H | [x H]]; [exact H | discriminate] | tauto].
  - intros before key val after -> Hafter.
    rewrite fold_left_app. cbn [fold_left fst snd].
    rewrite (fold_insert_lookup _ _ _ Hafter). apply lookup_insert_eq.
Qed.

End RecommendationList.

(** ** The validator and the extraction as a whole *)

Section ValidatorResult.
Import MetricsExtractor.

Variable float_of_string : string -> option pyfloat.
Variable json_loads : string -> res PyVal.
Variable create_metrics_extraction_prompt : string -> string -> string.
Variable complete_json : string -> res PyVal.

Lemma Qsame_eq (a b : Q) : Qsame a b = true <-> a = b.
Proof.
  unfold Qsame. rewrite andb_true_iff, Z.eqb_eq, Pos.eqb_eq.
  destruct a, b; cbn. split; [intros [-> ->]; reflexivity | intros [= -> ->]; auto].
Qed.

Lemma settled_round (hi : Z) (q : Q) :
  0 <= q -> q <= inject_Z hi -> settled (inject_Z hi) (Fin (py_round q 2)) = true.
Proof.
  intros H0 Hhi. unfold settled.
  destruct (py_round2_between q 0 hi) as [L U]; [exact H0 | exact Hhi |].
  change (inject_Z 0) with 0 in L.
  rewrite !andb_true_iff, !Qle_bool_iff, Qsame_eq.
  repeat split; try assumption. apply py_round2_idem.
Qed.

Lemma coerce_clamp_result (raw : PyVal) (hi : Z) (fallback : Q) (y : pyfloat) :
  (0 <= hi)%Z -> 0 <= fallback -> fallback <= inject_Z hi ->
  coerce_clamp float_of_string raw (inject_Z hi) fallback = Ok y ->
  settled (inject_Z hi) (py_round_float y 2) = true.
Proof.
  intros Hhi F0 F1. unfold coerce_clamp.
  assert (Hhi' : 0 <= inject_Z hi).
  { change 0 with (inject_Z 0). now rewrite <- Zle_Qle. }
  destruct (py_float float_of_string raw) as [x | e]; cbn [mbind res_bind try_clauses handle].
  - destruct (clamp_code_spec (inject_Z hi) x Hhi') as (q & -> & Hq).
    intros [= <-]. cbn [py_round_float].
    destruct (spec_clamp_range (inject_Z hi) x Hhi') as [C0 C1].
    apply settled_round; lra.
  - destruct (is_ValueError e || is_TypeError e); [| discriminate].
    intros [= <-]. cbn [py_round_float]. now apply settled_round.
Qed.

Lemma validate_step_result (acc acc' : list MetricRecord) (metric : PyVal) :
  validate_step float_of_string acc metric = Ok acc' ->
  acc' = acc \/ exists r, acc' = acc ++ [r] /\ clean_record r = true.
Proof.
  unfold validate_step.
  destruct (all_in required_fields metric) as [[] | e]; cbn [mbind res_bind negb];
    [| intros [= <-]; now left | discriminate].
  destruct (py_getitem metric "category") as [cat | e] eqn:Hcat;
    cbn [mbind res_bind]; [| discriminate].
  destruct (in_category_weights cat) as [[] | e] eqn:Hknown;
    cbn [mbind res_bind negb]; [| intros [= <-]; now left | discriminate].
  destruct (py_getitem metric "value") as [rv | e];
    cbn [mbind res_bind]; [| discriminate].
  destruct (coerce_clamp float_of_string rv 100 50) as [v | e] eqn:Hv;
    cbn [mbind res_bind]; [| discriminate].
  destruct (py_getitem metric "confidence") as [rc | e];
    cbn [mbind res_bind]; [| discriminate].
  destruct (coerce_clamp float_of_string rc 1 0.5) as [c | e] eqn:Hc;
    cbn [mbind res_bind]; [| discriminate].
  destruct (py_getitem metric "metric_name") as [name | e];
    cbn [mbind res_bind]; [| discriminate].
  intros [= <-]. right. eexists. split; [reflexivity |].
  unfold clean_record. cbn [category value confidence].
  destruct cat as [| b | z | f | s | l | d]; try discriminate Hknown.
  cbn [in_category_weights CATEGORY_WEIGHTS existsb fst] in Hknown.
  injection Hknown as Hknown.
  rewrite !andb_true_iff. repeat split.
  - cbn [existsb]. rewrite !(String.eqb_sym s). exact Hknown.
  - apply (coerce_clamp_result rv 100 50 v); [lia | lra | now apply Qle_bool_imp_le | exact Hv].
  - apply (coerce_clamp_result rc 1 0.5 c); [lia | lra | now apply Qle_bool_imp_le | exact Hc].
Qed.

Lemma validate_loop_result (items : list PyVal) (acc out : list MetricRecord) :
  for_each (validate_step float_of_string) items acc = Ok out ->
  forallb clean_record acc = true ->
  forallb clean_record out = true /\
  (length out <= length acc + length items)%nat.
Proof.
  revert acc. induction items as [| m items IH]; intros acc.
  - cbn. intros [= <-] H. split; [exact H | lia].
  - cbn [for_each].
    destruct (validate_step float_of_string acc m) as [acc' |] eqn:Hstep;
      cbn [mbind res_bind]; [| discriminate].
    intros Hrest Hacc.
    destruct (validate_step_result _ _ _ Hstep) as [-> | (r & -> & Hr)].
    + destruct (IH _ Hrest Hacc) as [H1 H2]. split; [exact H1 | cbn; lia].
    + assert (Hacc' : forallb clean_record (acc ++ [r]) = true).
      { rewrite forallb_app, Hacc. cbn. now rewrite Hr. }
      destruct (IH _ Hrest Hacc') as [H1 H2]. split; [exact H1 |].
      rewrite length_app in H2. cbn in *. lia.
Qed.

(** X9: whatever value the validator is given, when it returns every record
    of its result has a category among the three, a value in 0..100 and a
    confidence in 0..1, each with two decimals; and on a list it returns at
    most as many records as it was given. *)
Theorem X9_validator_output_clean (metrics : PyVal) (out : list MetricRecord) :
  _validate_metrics float_of_string metrics = Ok out ->
  forallb clean_record out = true /\
  (forall items, metrics = VList items -> (length out <= length items)%nat).
Proof.
  unfold _validate_metrics.
  destruct (py_iter metrics) as [items |] eqn:Hiter; cbn [mbind res_bind];
    [| discriminate].
  intros H. destruct (validate_loop_result _ _ _ H eq_refl) as [H1 H2].
  split; [exact H1 |]. intros items' ->. cbn in Hiter. injection Hiter as <-.
  exact H2.
Qed.

End ValidatorResult.

Section ValidatorRoundTrip.
Import MetricsExtractor.

Variable float_of_string : string -> option pyfloat.
Variable json_loads : string -> res PyVal.
Variable create_metrics_extraction_prompt : string -> string -> string.
Variable complete_json : string -> res PyVal.

Lemma settled_spec (hi : Q) (x : pyfloat) :
  settled hi x = true ->
  exists q, x = Fin q /\ 0 <= q /\ q <= hi /\ py_round q 2 = q.
Proof.
  destruct x as [q | | |]; try discriminate. cbn [settled].
  rewrite !andb_true_iff, !Qle_bool_iff, Qsame_eq. intros [[H0 H1] H2].
  exists q. auto.
Qed.

Lemma spec_clamp_inside (hi q : Q) : 0 <= q -> q <= hi -> spec_clamp hi (Fin q) = q.
Proof.
  intros H0 H1. unfold spec_clamp.
  destruct (Qltb q 0) eqn:E1; [apply Qltb_lt in E1; lra |].
  destruct (Qltb hi q) eqn:E2; [apply Qltb_lt in E2; lra |]. reflexivity.
Qed.

Lemma record_map_validated (r : MetricRecord) :
  clean_record r = true ->
  tolerated (record_map r) = true /\
  spec_validated float_of_string (record_map r) = Some r.
Proof.
  destruct r as [cat name val conf]. unfold clean_record, record_map.
  cbn [category metric_name value confidence].
  destruct cat as [| b | z | f | s | l | d]; try discriminate.
  rewrite !andb_true_iff. intros [[Hs Hv] Hc].
  destruct (settled_spec _ _ Hv) as (v & -> & V0 & V1 & V2).
  destruct (settled_spec _ _ Hc) as (c & -> & C0 & C1 & C2).
  split.
  - unfold tolerated. now simplify_map_eq.
  - unfold spec_validated. simplify_map_eq. cbn [mbind option_bind].
    rewrite Hs. unfold spec_coerced. cbn [py_float].
    rewrite !spec_clamp_inside by assumption. now rewrite V2, C2.
Qed.

Lemma omap_validated_clean (out : list MetricRecord) :
  forallb clean_record out = true ->
  Forall (fun d => tolerated d = true) (map record_map out) /\
  omap (spec_validated float_of_string) (map record_map out) = out.
Proof.
  induction out as [| r out IH]; [split; [constructor | reflexivity] |].
  cbn [forallb]. rewrite andb_true_iff. intros [Hr Hout].
  destruct (record_map_validated r Hr) as [Ht Hs].
  destruct (IH Hout) as [IH1 IH2]. split.
  - cbn [map]. now constructor.
  - cbn [map]. change (omap (spec_validated float_of_string) (record_map r :: map record_map out))
      with (match spec_validated float_of_string (record_map r) with
            | Some y => y :: omap (spec_validated float_of_string) (map record_map out)
            | None => omap (spec_validated float_of_string) (map record_map out)
            end).
    now rewrite Hs, IH2.
Qed.

Lemma validate_metrics_clean (metrics : PyVal) (out : list MetricRecord) :
  _validate_metrics float_of_string metrics = Ok out ->
  forallb clean_record out = true.
Proof.
  unfold _validate_metrics.
  destruct (py_iter metrics) as [items |]; cbn [mbind res_bind]; [| discriminate].
  intros H. now destruct (validate_loop_result float_of_string _ _ _ H eq_refl).
Qed.

(** X10: validating again what the validator returned changes nothing: the
    records of its result, passed back as a list of dicts, all come back,
    in the same order and with the same values. *)
Theorem X10_validator_idempotent (metrics : PyVal) (out : list MetricRecord) :
  _validate_metrics float_of_string metrics = Ok out ->
  _validate_metrics float_of_string (VList (map VDict (map record_map out)))
    = Ok out.
Proof.
  intros H. apply validate_metrics_clean in H.
  destruct (omap_validated_clean out H) as [Ht Ho].
  rewrite (validate_metrics_tolerated float_of_string _ Ht). now rewrite Ho.
Qed.

(** X11: on a list of dicts whose category can be hashed and whose integers
    fit a float, the validator returns, and its result is the list of the
    dicts that hold the four fields and a known category, in their order,
    each with its value and confidence coerced, clamped and rounded. *)
Theorem X11_validator_on_dicts (ds : list (gmap string PyVal)) :
  Forall (fun d => tolerated d = true) ds ->
  _validate_metrics float_of_string (VList (map VDict ds))
    = Ok (omap (spec_validated float_of_string) ds).
Proof.
  apply validate_metrics_tolerated.
Qed.

Lemma default_metrics_clean : forallb clean_record _get_default_metrics = true.
Proof. reflexivity. Qed.

Lemma extract_metrics_clean (company_name : string) (sources : list Source)
    (out : list MetricRecord) :
  extract_metrics float_of_string json_loads create_metrics_extraction_prompt
    complete_json company_name sources = Ok out ->
  forallb clean_record out = true.
Proof.
  unfold extract_metrics.
  destruct (extraction_attempt float_of_string json_loads complete_json _)
    as [out' | e] eqn:Hattempt; cbn [try_clauses handle].
  - intros [= <-]. revert Hattempt. unfold extraction_attempt.
    destruct (complete_json _) as [response |]; cbn [mbind res_bind]; [| discriminate].
    destruct (py_json_loads json_loads response) as [data |]; cbn [mbind res_bind];
      [| discriminate].
    destruct (get_metrics_key data) as [metrics |]; cbn [mbind res_bind];
      [| discriminate].
    apply validate_metrics_clean.
  - destruct (is_JSONDecodeError e); [intros [= <-]; apply default_metrics_clean |].
    destruct (is_Exception e); [intros [= <-]; apply default_metrics_clean |].
    discriminate.
Qed.

(** X12: every list [extract_metrics] returns, whether it comes from the
    response or is the default set, holds only records with a category
    among the three, a value in 0..100 and a confidence in 0..1; and a
    response without a 'metrics' key gives the empty list, not the
    default set. *)
Theorem X12_extract_metrics_clean (company_name : string) (sources : list Source) :
  let prompt :=
    create_metrics_extraction_prompt company_name (combined_content sources) in
  let result :=
    extract_metrics float_of_string json_loads create_metrics_extraction_prompt
      complete_json company_name sources in
  (forall out, result = Ok out -> forallb clean_record out = true) /\
  (forall response d,
     complete_json prompt = Ok (VStr response) ->
     json_loads response = Ok (VDict d) ->
     d !! "metrics" = None ->
     result = Ok []).
Proof.
  cbn zeta. split.
  - intros out. apply extract_metrics_clean.
  - intros response d Hc Hj Hd. unfold extract_metrics, extraction_attempt. rewrite Hc.
    cbn [mbind res_bind py_json_loads]. rewrite Hj.
    cbn [mbind res_bind get_metrics_key]. rewrite Hd. reflexivity.
Qed.

Lemma clean_rows (out : list MetricRecord) :
  forallb clean_record out = true ->
  forallb has_string_name out = true ->
  exists rows, mapM row_of_record out = Some rows /\
               Forall (fun r => valid_row r = true) rows.
Proof.
  induction out as [| r out IH]; [exists []; split; [reflexivity | constructor] |].
  cbn [forallb]. rewrite !andb_true_iff. intros [Hr Hout] [Nr Nout].
  destruct (IH Hout Nout) as (rows & Hrows & Hvalid).
  destruct r as [cat name val conf]. unfold clean_record in Hr.
  unfold has_string_name in Nr. cbn [category metric_name value confidence] in *.
  destruct cat as [| b | z | f | s | l | d]; try discriminate.
  destruct name as [| b | z | f | n | l | d]; try discriminate.
  rewrite !andb_true_iff in Hr. destruct Hr as [[Hs Hv] Hc].
  destruct (settled_spec _ _ Hv) as (v & -> & V0 & V1 & V2).
  destruct (settled_spec _ _ Hc) as (c & -> & C0 & C1 & C2).
  eexists. split.
  - change (mapM row_of_record (?x :: out))
      with (y ← row_of_record x; k ← mapM row_of_record out; mret (y :: k)).
    rewrite Hrows. reflexivity.
  - constructor; [| exact Hvalid]. unfold valid_row.
    cbn [row_category row_value row_confidence].
    rewrite Hs. rewrite !andb_true_iff, !Qle_bool_iff. auto.
Qed.

(** X13: the extractor's result can always be scored: when [extract_metrics]
    returns records whose names are strings, [calculate_final_score] on
    those records returns, with a final score in 0..100 and a confidence
    in 0..1. *)
Theorem X13_extracted_metrics_score (company_name : string) (sources : list Source)
    (out : list MetricRecord) :
  extract_metrics float_of_string json_loads create_metrics_extraction_prompt
    complete_json company_name sources = Ok out ->
  forallb has_string_name out = true ->
  exists rows r,
    mapM row_of_record out = Some rows /\
    SustainabilityScorer.calculate_final_score (map metric_of rows) = Ok r /\
    0 <= SustainabilityScorer.final_score r <= 100 /\
    0 <= SustainabilityScorer.fs_confidence r <= 1.
Proof.
  intros Hout Hnames.
  destruct (clean_rows out (extract_metrics_clean _ _ _ Hout) Hnames)
    as (rows & Hrows & Hvalid).
  destruct (final_score_range rows Hvalid) as (r & Hr & Hrange).
  exists rows, r. auto.
Qed.

End ValidatorRoundTrip.

(** ** What the cache gate hands out *)

Section CacheAnswer.
Import DatabaseManager.

Lemma scraped_desc_total : Total scraped_desc.
Proof. intros a b. unfold scraped_desc. lia. Qed.

Lemma scraped_desc_trans : Transitive scraped_desc.
Proof. intros a b c. unfold scraped_desc. lia. Qed.

Lemma elem_of_sorted_filter {A} (R : relation A) `{!RelDecision R}
    (p : A -> bool) (l : list A) (x : A) :
  x ∈ merge_sort R (List.filter p l) <-> x ∈ l /\ p x = true.
Proof.
  rewrite (merge_sort_Permutation R (List.filter p l)).
  rewrite !list_elem_of_In. apply filter_In.
Qed.

Lemma get_company_found (db : Database) (company_name : string) (company : Company) :
  get_company db company_name = Some company ->
  company ∈ companies db /\ name company = company_name.
Proof.
  unfold get_company. intros H. apply find_some in H. destruct H as [Hin Heq].
  split; [now apply list_elem_of_In | now apply String.eqb_eq].
Qed.

Lemma get_recent_analysis_Some (now : datetime) (db : Database)
    (company_name : string) (days : Z) (a : Analysis) :
  get_recent_analysis now db company_name days = Some a ->
  exists company,
    get_company db company_name = Some company /\
    (now - timedelta_days days <= research_date company)%Z /\
    get_research_sources db (id company) <> [] /\
    exists latest,
    get_latest_score db (id company) = Some latest /\
    a = (company, get_research_sources db (id company),
         get_metrics db (id company), latest).
Proof.
  unfold get_recent_analysis.
  destruct (get_company db company_name) as [company |]; [| discriminate].
  destruct (Z.ltb_spec (research_date company) (now - timedelta_days days))
    as [Hold | Hfresh]; [discriminate |].
  destruct (get_research_sources db (id company)) as [| s sources] eqn:Hs;
    [discriminate |].
  intros Hres. exists company.
  split; [reflexivity |]. split; [assumption |]. split; [rewrite Hs; discriminate |].
  destruct (get_latest_score db (id company)) as [latest' |] eqn:Hl; [| discriminate].
  injection Hres as <-. exists latest'. rewrite Hs. split; reflexivity.
Qed.

(** X14: what the cache gate hands out belongs to the company asked for: the
    company row carries the requested name and a research date inside the
    window; the sources are exactly the company's rows of the sources
    table, at least one, newest first; the metrics are exactly the
    company's rows of the metrics table; the score is one of the company's
    score rows and none of them was calculated later. *)
Theorem X14_cache_answer_consistent (now : datetime) (db : Database)
    (company_name : string) (days : Z)
    (company : Company) (sources : list ResearchSource)
    (metrics : list MetricRow) (latest : ScoreRow) :
  get_recent_analysis now db company_name days
    = Some (company, sources, metrics, latest) ->
  company ∈ companies db /\ name company = company_name /\
  (now - timedelta_days days <= research_date company)%Z /\
  sources <> [] /\
  (forall s, s ∈ sources <->
             s ∈ research_sources db /\ rs_company_id s = id company) /\
  StronglySorted scraped_desc sources /\
  (forall m, m ∈ metrics <->
             m ∈ sustainability_metrics db /\ mr_company_id m = id company) /\
  latest ∈ sustainability_scores db /\ sr_company_id latest = id company /\
  (forall other, other ∈ sustainability_scores db ->
                 sr_company_id other = id company ->
                 (calculated_at other <= calculated_at latest)%Z).
Proof.
  intros H. apply get_recent_analysis_Some in H.
  destruct H as (company' & Hc & Hfresh & Hsrc & latest' & Hlatest & Heq).
  injection Heq as -> -> -> ->.
  destruct (get_company_found _ _ _ Hc) as [Hin Hname].
  destruct (get_latest_score_latest _ _ _ Hlatest) as (L1 & L2 & L3).
  split; [exact Hin |]. split; [exact Hname |]. split; [exact Hfresh |].
  split; [exact Hsrc |].
  split.
  { intros s. unfold get_research_sources.
    rewrite elem_of_sorted_filter, Z.eqb_eq. reflexivity. }
  split.
  { unfold get_research_sources.
    apply (@StronglySorted_merge_sort _ scraped_desc _
             scraped_desc_trans scraped_desc_total). }
  split.
  { intros m. unfold get_metrics.
    rewrite elem_of_sorted_filter, Z.eqb_eq. reflexivity. }
  split; [exact L1 |]. split; [exact L2 | exact L3].
Qed.


End CacheAnswer.

(** ** The scraping loop *)

Section Scraping.
Import ResearchAgent.

Variable search_company : string -> list string.
Variable scrape_url : nat -> string -> option MetricsExtractor.Source.

Lemma scrape_loop_sources (len_urls : nat) (max_sources : Z)
    (rest : list string) (i : nat) (sources : list MetricsExtractor.Source) :
  (length sources <= Z.to_nat max_sources)%nat ->
  fst (scrape_loop scrape_url len_urls max_sources i rest sources)
  = take (Z.to_nat max_sources) (sources ++ successes scrape_url i rest).
Proof.
  revert i sources. induction rest as [| url rest IH]; intros i sources Hlen.
  - cbn [scrape_loop successes fst]. rewrite app_nil_r.
    symmetry. now apply take_ge.
  - cbn [scrape_loop successes].
    destruct (Z.leb_spec max_sources (Z.of_nat (length sources))) as [Hfull | Hroom].
    + cbn [fst]. assert (Z.to_nat max_sources = length sources) as -> by lia.
      symmetry. apply take_app_length.
    + specialize (IH (S i)).
      destruct (scrape_url i url) as [source |].
      * specialize (IH (sources ++ [source])).
        destruct (scrape_loop scrape_url len_urls max_sources (S i) rest
                    (sources ++ [source])) as [result later].
        cbn [fst] in *. rewrite IH by (rewrite length_app; cbn; lia).
        now rewrite <- app_assoc.
      * specialize (IH sources).
        destruct (scrape_loop scrape_url len_urls max_sources (S i) rest sources)
          as [result later].
        cbn [fst] in *. now apply IH.
Qed.

Lemma successes_scraped (i : nat) (urls : list string) (s : MetricsExtractor.Source) :
  s ∈ successes scrape_url i urls ->
  exists k url, urls !! k = Some url /\ scrape_url (i + k) url = Some s.
Proof.
  revert i. induction urls as [| url urls IH]; intros i; cbn [successes].
  - intros H. inversion H.
  - destruct (scrape_url i url) as [source |] eqn:Hs.
    + intros H. apply elem_of_cons in H. destruct H as [-> | H].
      * exists 0%nat, url. split; [reflexivity |]. now rewrite Nat.add_0_r.
      * destruct (IH _ H) as (k & u & Hk & Hu). exists (S k), u.
        split; [exact Hk |]. now replace (i + S k)%nat with (S i + k)%nat by lia.
    + intros H. destruct (IH _ H) as (k & u & Hk & Hu). exists (S k), u.
      split; [exact Hk |]. now replace (i + S k)%nat with (S i + k)%nat by lia.
Qed.

Lemma slice_to_prefix {A} (n : Z) (l : list A) : slice_to n l `prefix_of` l.
Proof. unfold slice_to. destruct (0 <=? n)%Z; apply prefix_take. Qed.

Lemma slice_to_length {A} (n : Z) (l : list A) :
  (0 <= n)%Z -> length (slice_to n l) = Nat.min (Z.to_nat n) (length l).
Proof.
  intros Hn. unfold slice_to. destruct (Z.leb_spec 0 n); [| lia].
  apply length_take.
Qed.

(** X16: [scrape_sources] returns the first [max_sources] successful scrapes
    among the first [2 * max_sources] URLs, in the order of the URLs: never
    more than [max_sources] sources, none when [max_sources] is not
    positive, and each one the answer of [scrape_url] for one of those
    URLs. *)
Theorem X16_scrape_sources_result (urls : list string) (max_sources : Z) :
  let result := fst (scrape_sources scrape_url urls max_sources) in
  result = take (Z.to_nat max_sources)
             (successes scrape_url 0 (slice_to (max_sources * 2) urls)) /\
  (Z.of_nat (length result) <= Z.max 0 max_sources)%Z /\
  (forall s, s ∈ result ->
     exists k url, (Z.of_nat k < max_sources * 2)%Z /\ urls !! k = Some url /\
                   scrape_url k url = Some s).
Proof.
  cbn zeta. unfold scrape_sources.
  rewrite scrape_loop_sources by (cbn; lia). cbn [app].
  split; [reflexivity |]. split.
  - rewrite length_take. lia.
  - intros s Hs.
    destruct (Z.leb_spec max_sources 0) as [Hneg | Hpos].
    { replace (Z.to_nat max_sources) with 0%nat in Hs by lia. inversion Hs. }
    apply elem_of_take in Hs. destruct Hs as (j & Hj & _).
    apply list_elem_of_lookup_2 in Hj.
    destruct (successes_scraped _ _ _ Hj) as (k & url & Hk & Hu).
    exists k, url. cbn in Hu.
    assert (Hlt : (k < length (slice_to (max_sources * 2) urls))%nat)
      by (eapply lookup_lt_Some; eassumption).
    rewrite slice_to_length in Hlt by lia.
    split; [lia |]. split; [| exact Hu].
    eapply prefix_lookup_Some; [exact Hk | apply slice_to_prefix].
Qed.

Lemma scrape_loop_events (len_urls : nat) (max_sources : Z)
    (rest : list string) (i : nat) (sources : list MetricsExtractor.Source) :
  (i + length rest <= len_urls)%nat ->
  let events := snd (scrape_loop scrape_url len_urls max_sources i rest sources) in
  paced events = true /\ scraped_urls events `prefix_of` rest.
Proof.
  cbn zeta. revert i sources. induction rest as [| url rest IH]; intros i sources Hlen.
  - cbn. split; [reflexivity | apply prefix_nil].
  - cbn [scrape_loop].
    destruct (max_sources <=? Z.of_nat (length sources))%Z.
    { cbn. split; [reflexivity | apply prefix_nil]. }
    set (sources' := match scrape_url i url with
                     | Some source => sources ++ [source]
                     | None => sources
                     end).
    cbn [length] in Hlen.
    destruct (IH (S i) sources' ltac:(lia)) as [IH1 IH2].
    destruct (scrape_loop scrape_url len_urls max_sources (S i) rest sources')
      as [result later] eqn:Hloop.
    cbn [snd] in *.
    destruct (Z.ltb_spec (Z.of_nat i) (Z.of_nat len_urls - 1)) as [Hmore | Hlast].
    + cbn [app paced scraped_urls omap list_omap]. split; [exact IH1 |].
      now apply prefix_cons.
    + assert (rest = []) as -> by (destruct rest; [reflexivity | cbn in Hlen; lia]).
      cbn in Hloop. injection Hloop as <- <-. cbn.
      split; [reflexivity | apply prefix_cons, prefix_nil].
Qed.

(** X17: [scrape_sources] pauses between any two requests and tries the
    URLs in order from the first one: the URLs it scrapes are a prefix of
    the list it was given, at most [2 * max_sources] of them, and in the
    sequence of its requests and pauses no two requests follow each other
    directly. *)
Theorem X17_scrape_sources_paced (urls : list string) (max_sources : Z) :
  let events := snd (scrape_sources scrape_url urls max_sources) in
  paced events = true /\
  scraped_urls events `prefix_of` urls /\
  (Z.of_nat (length (scraped_urls events)) <= Z.max 0 (max_sources * 2))%Z.
Proof.
  cbn zeta. unfold scrape_sources.
  assert (Hp := slice_to_prefix (max_sources * 2) urls).
  assert (Hl : (0 + length (slice_to (max_sources * 2) urls) <= length urls)%nat).
  { cbn. now apply prefix_length. }
  destruct (scrape_loop_events (length urls) max_sources _ 0 [] Hl) as [H1 H2].
  split; [exact H1 |]. split; [now transitivity (slice_to (max_sources * 2) urls) |].
  destruct (Z.leb_spec 0 (max_sources * 2)) as [Hpos | Hneg].
  - apply prefix_length in H2. rewrite slice_to_length in H2 by lia. lia.
  - assert (Hbreak : (max_sources <=? Z.of_nat (length (@nil MetricsExtractor.Source)))%Z = true)
      by (apply Z.leb_le; cbn; lia).
    destruct (slice_to (max_sources * 2) urls) as [| u r]; cbn [scrape_loop].
    + cbn. lia.
    + rewrite Hbreak. cbn. lia.
Qed.

(** X18: [research_company] returns at most five sources after at most ten
    scrapes, under the name it was given; and when the search finds no URL
    it returns no source without scraping anything. *)
Theorem X18_research_company_bounds (company_name : string) :
  let result := research_company search_company scrape_url company_name in
  company (fst result) = company_name /\
  (length (sources (fst result)) <= 5)%nat /\
  (length (scraped_urls (snd result)) <= 10)%nat /\
  scraped_urls (snd result) `prefix_of` search_company company_name /\
  paced (snd result) = true /\
  (search_company company_name = [] ->
   sources (fst result) = [] /\ snd result = []).
Proof.
  cbn zeta. unfold research_company.
  destruct (search_company company_name) as [| u urls] eqn:Hsearch.
  - cbn. split; [reflexivity |]. split; [lia |]. split; [lia |].
    split; [apply prefix_nil |]. split; [reflexivity |]. intros _. split; reflexivity.
  - set (all := u :: urls).
    assert (Hs := scrape_loop_sources (length all) 5 (slice_to (5 * 2) all) 0 []
                    ltac:(cbn; lia)).
    assert (Hp := slice_to_prefix (5 * 2) all).
    assert (Hl : (0 + length (slice_to (5 * 2) all) <= length all)%nat).
    { cbn [Nat.add]. now apply prefix_length. }
    destruct (scrape_loop_events (length all) 5 _ 0 [] Hl) as [H1 H2].
    unfold scrape_sources.
    destruct (scrape_loop scrape_url (length all) 5 0 (slice_to (5 * 2) all) [])
      as [scraped events].
    cbn [fst snd company sources] in *.
    split; [reflexivity |]. split.
    { rewrite Hs, length_take. lia. }
    split.
    { apply prefix_length in H2. rewrite slice_to_length in H2 by lia. lia. }
    split; [now transitivity (slice_to (5 * 2) all) |].
    split; [exact H1 | discriminate].
Qed.

End Scraping.

(** ** Intent classification *)

Section Classification.
Import IntentClassifier.

Variable json_loads : string -> res PyVal.
Variable create_intent_classification_prompt : string -> list string -> string.
Variable complete_json : string -> res PyVal.
Variable strip : string -> string.

Lemma handle_fallback (user_message : string) (e : PyExc) :
  is_Exception e = true ->
  handle [ (is_JSONDecodeError,
            fun _ => Ok (VDict (fallback strip user_message)));
           (is_Exception,
            fun _ => Ok (VDict (fallback strip user_message))) ] e
  = Ok (VDict (fallback strip user_message)).
Proof.
  intros He. cbn [handle]. rewrite He. now destruct (is_JSONDecodeError e).
Qed.

(** X19: [classify] always answers with a dict unless the exception raised
    is outside [Exception]: a response that parses to a dict is returned
    as it is, whatever its keys; a response that parses to anything else,
    and every exception of the LLM call or of the parse, gives the fallback
    dict, whose intent is 'analyze' and whose companies and needs_analysis
    hold the stripped message alone. *)
Theorem X19_classify_returns_dict (user_message : string)
    (analyzed_companies : list string) :
  let prompt :=
    create_intent_classification_prompt user_message analyzed_companies in
  let result :=
    classify json_loads create_intent_classification_prompt complete_json strip
      user_message analyzed_companies in
  let stripped := VList [VStr (strip user_message)] in
  (forall v, result = Ok v -> is_dict v = true) /\
  (forall e, result = Raise e -> is_Exception e = false) /\
  (forall response d,
     complete_json prompt = Ok (VStr response) ->
     json_loads response = Ok (VDict d) ->
     result = Ok (VDict d)) /\
  (forall response v,
     complete_json prompt = Ok (VStr response) ->
     json_loads response = Ok v -> is_dict v = false ->
     result = Ok (VDict (fallback strip user_message))) /\
  (forall e,
     complete_json prompt = Raise e -> is_Exception e = true ->
     result = Ok (VDict (fallback strip user_message))) /\
  (forall response e,
     complete_json prompt = Ok (VStr response) ->
     json_loads response = Raise e -> is_Exception e = true ->
     result = Ok (VDict (fallback strip user_message))) /\
  fallback strip user_message !! "intent" = Some (VStr "analyze") /\
  fallback strip user_message !! "companies" = Some stripped /\
  fallback strip user_message !! "question" = Some VNone /\
  fallback strip user_message !! "needs_analysis" = Some stripped.
Proof.
  cbn zeta. unfold classify, classification_attempt.
  split; [| split; [| split; [| split; [| split; [| split]]]]].
  - intros v.
    destruct (complete_json _) as [response | e]; cbn [mbind res_bind try_clauses].
    2:{ cbn [handle]. destruct (is_JSONDecodeError e); [now intros [= <-] |].
        destruct (is_Exception e); [now intros [= <-] | discriminate]. }
    destruct (MetricsExtractor.py_json_loads json_loads response) as [data | e];
      cbn [mbind res_bind try_clauses].
    2:{ cbn [handle]. destruct (is_JSONDecodeError e); [now intros [= <-] |].
        destruct (is_Exception e); [now intros [= <-] | discriminate]. }
    destruct data; cbn; now intros [= <-].
  - intros e.
    destruct (complete_json _) as [response | e']; cbn [mbind res_bind try_clauses].
    2:{ cbn [handle]. destruct (is_JSONDecodeError e'); [discriminate |].
        destruct (is_Exception e') eqn:He; [discriminate | now intros [= <-]]. }
    destruct (MetricsExtractor.py_json_loads json_loads response) as [data | e'];
      cbn [mbind res_bind try_clauses].
    2:{ cbn [handle]. destruct (is_JSONDecodeError e'); [discriminate |].
        destruct (is_Exception e') eqn:He; [discriminate | now intros [= <-]]. }
    destruct data; cbn; discriminate.
  - intros response d Hc Hj. rewrite Hc. cbn [mbind res_bind MetricsExtractor.py_json_loads].
    rewrite Hj. reflexivity.
  - intros response v Hc Hj Hv. rewrite Hc.
    cbn [mbind res_bind MetricsExtractor.py_json_loads]. rewrite Hj.
    destruct v; try discriminate Hv; reflexivity.
  - intros e Hc He. rewrite Hc. cbn [mbind res_bind try_clauses].
    now apply handle_fallback.
  - intros response e Hc Hj He. rewrite Hc.
    cbn [mbind res_bind MetricsExtractor.py_json_loads]. rewrite Hj.
    cbn [mbind res_bind try_clauses]. now apply handle_fallback.
  - unfold fallback. repeat split; now simplify_map_eq.
Qed.

End Classification.

(** ** Binary64 facts *)

Section Float64Facts.

Lemma shr_1_div2 (mrs : shr_record) :
  (0 <= shr_m mrs)%Z ->
  shr_m (shr_1 mrs) = (shr_m mrs / 2)%Z /\ (0 <= shr_m (shr_1 mrs))%Z.
Proof.
  destruct mrs as [m r s]. cbn [shr_m].
  destruct m as [| p | p]; [intros _; split; [reflexivity | cbn; lia] | | intros H; exfalso; lia].
  intros _. destruct p as [p | p |]; cbn [shr_1 shr_m].
  - rewrite Pos2Z.inj_xI. split; [| lia].
    apply Z.div_unique with (r := 1%Z); lia.
  - rewrite Pos2Z.inj_xO. split; [| lia].
    apply Z.div_unique with (r := 0%Z); lia.
  - split; [reflexivity | lia].
Qed.

Lemma iter_shr_1_div (n : positive) (mrs : shr_record) :
  (0 <= shr_m mrs)%Z ->
  shr_m (SpecFloat.iter_pos shr_1 n mrs) = (shr_m mrs / 2 ^ Zpos n)%Z /\
  (0 <= shr_m (SpecFloat.iter_pos shr_1 n mrs))%Z.
Proof.
  revert mrs. induction n as [n IH | n IH |]; intros mrs Hm; cbn [SpecFloat.iter_pos].
  - destruct (shr_1_div2 mrs Hm) as [E1 P1].
    destruct (IH _ P1) as [E2 P2]. destruct (IH _ P2) as [E3 P3].
    split; [| exact P3]. rewrite E3, E2, E1.
    rewrite !Z.div_div by lia. f_equal.
    assert (Hp : (2 ^ Z.pos n~1 = 2 * 2 ^ Z.pos n * 2 ^ Z.pos n)%Z).
    { replace (Z.pos n~1) with (1 + Z.pos n + Z.pos n)%Z by lia.
      rewrite !Z.pow_add_r by lia. reflexivity. }
    rewrite Hp. ring.
  - destruct (IH _ Hm) as [E2 P2]. destruct (IH _ P2) as [E3 P3].
    split; [| exact P3]. rewrite E3, E2.
    rewrite !Z.div_div by lia. f_equal.
    replace (Z.pos n~0) with (Z.pos n + Z.pos n)%Z by lia.
    rewrite Z.pow_add_r by lia. reflexivity.
  - destruct (shr_1_div2 mrs Hm) as [E1 P1]. split; [| exact P1].
    rewrite E1. reflexivity.
Qed.

Lemma shr_div (mrs : shr_record) (e n : Z) :
  (0 <= shr_m mrs)%Z ->
  shr_m (fst (shr mrs e n)) = (shr_m mrs / 2 ^ Z.max 0 n)%Z.
Proof.
  intros Hm. destruct n as [| p | p]; cbn [shr fst].
  - cbn. now rewrite Z.div_1_r.
  - replace (Z.max 0 (Z.pos p)) with (Z.pos p) by lia.
    apply iter_shr_1_div, Hm.
  - replace (Z.max 0 (Z.neg p)) with 0%Z by lia. cbn. now rewrite Z.div_1_r.
Qed.

Lemma shr_exponent (mrs : shr_record) (e n : Z) :
  snd (shr mrs e n) = (e + Z.max 0 n)%Z.
Proof. destruct n; cbn [shr snd]; lia. Qed.

Lemma digits2_pos_bounds (p : positive) :
  (2 ^ (Zpos (digits2_pos p) - 1) <= Zpos p < 2 ^ Zpos (digits2_pos p))%Z.
Proof.
  induction p as [p IH | p IH |]; cbn [digits2_pos].
  - rewrite Pos2Z.inj_succ.
    replace (Z.succ (Z.pos (digits2_pos p)) - 1)%Z
      with (1 + (Z.pos (digits2_pos p) - 1))%Z by lia.
    rewrite Z.pow_add_r, Z.pow_succ_r by lia. change (2 ^ 1)%Z with 2%Z.
    revert IH. generalize (2 ^ (Z.pos (digits2_pos p) - 1))%Z (2 ^ Z.pos (digits2_pos p))%Z.
    intros a b IH. lia.
  - rewrite Pos2Z.inj_succ.
    replace (Z.succ (Z.pos (digits2_pos p)) - 1)%Z
      with (1 + (Z.pos (digits2_pos p) - 1))%Z by lia.
    rewrite Z.pow_add_r, Z.pow_succ_r by lia. change (2 ^ 1)%Z with 2%Z.
    revert IH. generalize (2 ^ (Z.pos (digits2_pos p) - 1))%Z (2 ^ Z.pos (digits2_pos p))%Z.
    intros a b IH. lia.
  - cbn. lia.
Qed.

Lemma round_nearest_even_bounds (m : Z) (l : location) :
  (m <= round_nearest_even m l <= m + 1)%Z.
Proof.
  destruct l as [| []]; cbn [round_nearest_even]; try lia.
  destruct (Z.even m); lia.
Qed.

Lemma shr_record_of_loc_m (m : Z) (l : location) :
  shr_m (shr_record_of_loc m l) = m.
Proof. destruct l as [| []]; reflexivity. Qed.

(** A positive mantissa at an exponent that is not below the least one
    does not round to zero. *)
Lemma binary_round_aux_nonzero (s : bool) (m : positive) (e : Z) (l : location) :
  (-1074 <= e)%Z ->
  is_zero (binary_round_aux 53 1024 s (Zpos m) e l) = false.
Proof.
  intros He. unfold binary_round_aux.
  destruct (shr_fexp 53 1024 (Z.pos m) e l) as [mrs' e'] eqn:H1.
  assert (Hm1 : shr_m mrs' = (Zpos m / 2 ^ Z.max 0 (fexp 53 1024 (Zdigits2 (Zpos m) + e) - e))%Z).
  { unfold shr_fexp in H1.
    pose proof (shr_div (shr_record_of_loc (Zpos m) l) e
                  (fexp 53 1024 (Zdigits2 (Zpos m) + e) - e)) as Hd.
    rewrite H1, shr_record_of_loc_m in Hd. cbn [fst] in Hd. apply Hd. lia. }
  assert (He' : e' = (e + Z.max 0 (fexp 53 1024 (Zdigits2 (Zpos m) + e) - e))%Z).
  { unfold shr_fexp in H1.
    pose proof (shr_exponent (shr_record_of_loc (Zpos m) l) e
                  (fexp 53 1024 (Zdigits2 (Zpos m) + e) - e)) as Hd.
    rewrite H1 in Hd. exact Hd. }
  set (n1 := Z.max 0 (fexp 53 1024 (Zdigits2 (Z.pos m) + e) - e)) in *.
  assert (Hdm := digits2_pos_bounds m).
  assert (Hn1 : (0 <= n1 <= Zpos (digits2_pos m) - 1)%Z).
  { unfold n1, fexp, emin. cbn [Zdigits2]. lia. }
  assert (Hpos1 : (0 < shr_m mrs')%Z).
  { rewrite Hm1. apply Z.div_str_pos. split; [lia |].
    apply Z.le_trans with (2 ^ (Zpos (digits2_pos m) - 1))%Z; [| lia].
    apply Z.pow_le_mono_r; lia. }
  set (m2 := round_nearest_even (shr_m mrs') (loc_of_shr_record mrs')).
  assert (Hm2 : (0 < m2)%Z).
  { pose proof (round_nearest_even_bounds (shr_m mrs') (loc_of_shr_record mrs')).
    unfold m2. lia. }
  destruct (shr_fexp 53 1024 m2 e' loc_Exact) as [mrs'' e''] eqn:H2.
  assert (Hm3 : shr_m mrs'' = (m2 / 2 ^ Z.max 0 (fexp 53 1024 (Zdigits2 m2 + e') - e'))%Z).
  { unfold shr_fexp in H2.
    pose proof (shr_div (shr_record_of_loc m2 loc_Exact) e'
                  (fexp 53 1024 (Zdigits2 m2 + e') - e')) as Hd.
    rewrite H2, shr_record_of_loc_m in Hd. cbn [fst] in Hd. apply Hd. lia. }
  destruct m2 as [| p2 | p2] eqn:Ep2; try lia.
  assert (Hd2 := digits2_pos_bounds p2).
  assert (Hn2 : (0 <= Z.max 0 (fexp 53 1024 (Zdigits2 (Zpos p2) + e') - e')
                 <= Zpos (digits2_pos p2) - 1)%Z).
  { unfold fexp, emin. cbn [Zdigits2]. unfold n1, fexp, emin in He'. lia. }
  assert (Hpos3 : (0 < shr_m mrs'')%Z).
  { rewrite Hm3. apply Z.div_str_pos. split; [lia |].
    apply Z.le_trans with (2 ^ (Zpos (digits2_pos p2) - 1))%Z; [| lia].
    apply Z.pow_le_mono_r; lia. }
  destruct (shr_m mrs'') as [| p3 | p3]; try lia.
  destruct (e'' <=? 1024 - 53)%Z; reflexivity.
Qed.

Lemma shl_align_exponent (mx : positive) (ex ex' : Z) :
  (Z.min ex ex' <= snd (shl_align mx ex ex'))%Z.
Proof.
  unfold shl_align. destruct (ex' - ex)%Z eqn:E; cbn [snd]; lia.
Qed.

Lemma binary_normalize_nonzero (z : Z) :
  z <> 0%Z -> is_zero (binary_normalize 53 1024 z 0 false) = false.
Proof.
  intros Hz.
  assert (H : forall s p, is_zero (binary_round 53 1024 s p 0) = false).
  { intros s p. unfold binary_round.
    pose proof (shl_align_exponent p 0 (fexp 53 1024 (Z.pos (digits2_pos p) + 0))) as Hs.
    destruct (shl_align p 0 (fexp 53 1024 (Z.pos (digits2_pos p) + 0))) as [mz ez].
    cbn [snd] in Hs. apply binary_round_aux_nonzero.
    unfold fexp, emin in Hs. lia. }
  destruct z as [| p | p]; [congruence | apply H | apply H].
Qed.

Lemma int_to_float_nonzero (z : Z) (f : float64) :
  z <> 0%Z -> int_to_float z = Ok f -> is_zero f = false.
Proof.
  intros Hz. unfold int_to_float.
  destruct (Z.abs z <? 2 ^ 1024 - 2 ^ 970)%Z; [| discriminate].
  intros [= <-]. now apply binary_normalize_nonzero.
Qed.

Lemma int_to_float_returns (z : Z) :
  (Z.abs z < 2 ^ 1024 - 2 ^ 970)%Z -> exists f, int_to_float z = Ok f.
Proof.
  intros Hz. unfold int_to_float. apply Z.ltb_lt in Hz. rewrite Hz. eauto.
Qed.

End Float64Facts.

(** ** The scorer on Python's numbers *)

Section NumCategoryScorer.
Import FloatScorer.

Lemma only_overflow_Ok {A} (a : A) : only_overflow (Ok a).
Proof. intros e; discriminate. Qed.

Lemma only_overflow_bind {A B} (m : res A) (k : A -> res B) :
  only_overflow m -> (forall a, m = Ok a -> only_overflow (k a)) ->
  only_overflow (mbind k m).
Proof.
  intros Hm Hk e. destruct m as [a | e']; cbn [mbind res_bind].
  - now apply Hk.
  - intros [= <-]. now apply Hm.
Qed.

Lemma int_to_float_only_overflow (z : Z) : only_overflow (int_to_float z).
Proof.
  intros e. unfold int_to_float.
  destruct (Z.abs z <? 2 ^ 1024 - 2 ^ 970)%Z; [discriminate | now intros [= <-]].
Qed.

Lemma to_float_only_overflow (x : PyNum) : only_overflow (to_float x).
Proof.
  destruct x; [apply int_to_float_only_overflow | apply only_overflow_Ok].
Qed.

Lemma py_add_only_overflow (a b : PyNum) : only_overflow (py_add a b).
Proof.
  assert (H : only_overflow (x ← to_float a; y ← to_float b; Ok (NFloat (fadd x y)))).
  { apply only_overflow_bind; [apply to_float_only_overflow |]. intros x _.
    apply only_overflow_bind; [apply to_float_only_overflow |]. intros y _.
    apply only_overflow_Ok. }
  destruct a, b; cbn [py_add]; (apply only_overflow_Ok || exact H).
Qed.

Lemma py_mul_only_overflow (a b : PyNum) : only_overflow (py_mul a b).
Proof.
  assert (H : only_overflow (x ← to_float a; y ← to_float b; Ok (NFloat (fmul x y)))).
  { apply only_overflow_bind; [apply to_float_only_overflow |]. intros x _.
    apply only_overflow_bind; [apply to_float_only_overflow |]. intros y _.
    apply only_overflow_Ok. }
  destruct a, b; cbn [py_mul]; (apply only_overflow_Ok || exact H).
Qed.

Lemma for_each_only_overflow {A S} (body : S -> A -> res S) (l : list A) (s : S) :
  (forall s x, only_overflow (body s x)) -> only_overflow (for_each body l s).
Proof.
  intros Hb. revert s. induction l as [| x l IH]; intros s; cbn [for_each].
  - apply only_overflow_Ok.
  - apply only_overflow_bind; [apply Hb | intros s' _; apply IH].
Qed.

Lemma py_gt_nonzero (x : PyNum) : py_gt x (NInt 0) = true -> nonzero x.
Proof.
  unfold py_gt, py_lt. destruct x as [z | f]; cbn [py_compare nonzero].
  - destruct (Z.compare_spec 0 z); try discriminate. intros _. lia.
  - destruct f; cbn; try reflexivity. discriminate.
Qed.

Lemma to_float_nonzero (x : PyNum) (f : float64) :
  nonzero x -> to_float x = Ok f -> is_zero f = false.
Proof.
  destruct x as [z | g]; cbn [nonzero to_float].
  - apply int_to_float_nonzero.
  - intros H [= <-]. exact H.
Qed.

Lemma py_truediv_only_overflow (a b : PyNum) :
  nonzero b -> only_overflow (py_truediv a b).
Proof.
  intros Hb.
  assert (H : only_overflow
                (x ← to_float a; y ← to_float b;
                 if is_zero y then Raise ZeroDivisionError else Ok (fdiv x y))).
  { apply only_overflow_bind; [apply to_float_only_overflow |]. intros x _.
    apply only_overflow_bind; [apply to_float_only_overflow |]. intros y Hy.
    rewrite (to_float_nonzero b y Hb Hy). apply only_overflow_Ok. }
  destruct a as [x | f], b as [y | g]; cbn [py_truediv]; try exact H.
  cbn [nonzero] in Hb. unfold int_truediv.
  destruct x, y; try congruence; try apply only_overflow_Ok;
    (destruct (_ <? _)%Z; [apply only_overflow_Ok | now intros e [= <-]]).
Qed.

Lemma filter_category_num_rows (rows : list NumRow) (cat : string) :
  filter_category (map num_metric_of rows) cat
  = Ok (map num_metric_of (num_select cat rows)).
Proof.
  induction rows as [| r rows IH]; [reflexivity |].
  cbn [map filter_category num_metric_of category getitem mbind res_bind].
  rewrite IH. cbn [res_bind num_select List.filter].
  fold (num_select cat rows). now destruct (String.eqb (nr_category r) cat).
Qed.

Lemma mapM_metric_detail_num_rows (sel : list NumRow) :
  mapM metric_detail (map num_metric_of sel) = Ok (map num_detail_of sel).
Proof.
  induction sel as [| r sel IH]; [reflexivity |].
  cbn [map]. change (mapM metric_detail (?x :: ?l))
    with (y ← metric_detail x; k ← mapM metric_detail l; mret (y :: k)).
  rewrite IH. reflexivity.
Qed.

(** The loop computes the two sums side by side. *)
Lemma for_each_accumulate_num_rows (sel : list NumRow) (tw tc : PyNum) :
  for_each accumulate (map num_metric_of sel) (tw, tc)
  = (weighted ← for_each (fun total r =>
                            w ← py_mul (nr_value r) (nr_confidence r);
                            py_add total w) sel tw;
     total ← for_each (fun total r => py_add total (nr_confidence r)) sel tc;
     Ok (weighted, total)).
Proof.
  revert tw tc. induction sel as [| r sel IH]; intros tw tc; [reflexivity |].
  cbn [map for_each].
  assert (Hstep : accumulate (tw, tc) (num_metric_of r)
                  = (w ← py_mul (nr_value r) (nr_confidence r);
                     tw' ← py_add tw w;
                     tc' ← py_add tc (nr_confidence r);
                     Ok (tw', tc'))) by reflexivity.
  rewrite Hstep. clear Hstep.
  destruct (py_mul (nr_value r) (nr_confidence r)) as [w | e]; cbn [mbind res_bind];
    [| reflexivity].
  destruct (py_add tw w) as [tw' | e]; cbn [mbind res_bind]; [| reflexivity].
  destruct (py_add tc (nr_confidence r)) as [tc' | e] eqn:Hc; cbn [mbind res_bind].
  - apply IH.
  - pose proof (py_add_only_overflow _ _ _ Hc) as ->.
    destruct (for_each _ sel tw') as [w' | e'] eqn:Hw; cbn [mbind res_bind]; [reflexivity |].
    f_equal. symmetry.
    refine (for_each_only_overflow _ sel tw' _ _ Hw).
    intros s x. apply only_overflow_bind; [apply py_mul_only_overflow |].
    intros a _. apply py_add_only_overflow.
Qed.

Lemma calculate_category_score_num_rows (rows : list NumRow) (cat : string) :
  calculate_category_score (map num_metric_of rows) cat
  = num_category_score (num_select cat rows).
Proof.
  unfold calculate_category_score. rewrite filter_category_num_rows.
  cbn [mbind res_bind].
  destruct (num_select cat rows) as [| r sel]; [reflexivity |].
  cbn [map].
  change (num_metric_of r :: map num_metric_of sel)
    with (map num_metric_of (r :: sel)).
  rewrite for_each_accumulate_num_rows, mapM_metric_detail_num_rows, length_map.
  change (for_each (fun total r0 => w ← py_mul (nr_value r0) (nr_confidence r0);
                                    py_add total w) (r :: sel) (NInt 0))
    with (sum_weighted (r :: sel)).
  change (for_each (fun total r0 => py_add total (nr_confidence r0))
                   (r :: sel) (NInt 0))
    with (sum_confidence (r :: sel)).
  unfold num_category_score.
  destruct (sum_weighted (r :: sel)) as [w | e]; cbn [mbind res_bind];
    [| reflexivity].
  destruct (sum_confidence (r :: sel)) as [c | e]; cbn [mbind res_bind fst snd];
    [| reflexivity].
  destruct (py_gt c (NInt 0)); cbn [mbind res_bind]; [| reflexivity].
  destruct (py_truediv w c) as [s | e]; cbn [mbind res_bind]; [| reflexivity].
  destruct (py_truediv c _) as [a | e]; reflexivity.
Qed.

(** On records that carry their four fields the category scorer fails
    with [OverflowError] only. *)
Lemma num_category_score_only_overflow (sel : list NumRow) :
  only_overflow (num_category_score sel).
Proof.
  unfold num_category_score. destruct sel as [| r sel]; [apply only_overflow_Ok |].
  set (l := r :: sel).
  apply only_overflow_bind.
  { apply for_each_only_overflow. intros s x.
    apply only_overflow_bind; [apply py_mul_only_overflow |].
    intros a _. apply py_add_only_overflow. }
  intros w _. apply only_overflow_bind.
  { apply for_each_only_overflow. intros s x. apply py_add_only_overflow. }
  intros c _. apply only_overflow_bind; [| intros; apply only_overflow_Ok].
  destruct (py_gt c (NInt 0)) eqn:Hc; [| apply only_overflow_Ok].
  apply py_gt_nonzero in Hc.
  apply only_overflow_bind; [now apply py_truediv_only_overflow |].
  intros s _. apply only_overflow_bind; [| intros; apply only_overflow_Ok].
  apply py_truediv_only_overflow. cbn [nonzero]. unfold l. cbn [length]. lia.
Qed.

End NumCategoryScorer.

Section NumReturns.
Import FloatScorer.

Lemma tame_weaken (a b : Z) (x : PyNum) : (a <= b)%Z -> tame a x -> tame b x.
Proof. destruct x; cbn [tame]; lia. Qed.

Lemma modest_tame (x : PyNum) : modest x = true -> tame (2 ^ 63) x.
Proof.
  destruct x as [z | f]; cbn [modest tame]; [| trivial].
  intros H. apply Z.ltb_lt in H. lia.
Qed.

Lemma to_float_tame (x : PyNum) :
  tame (2 ^ 400) x -> exists f, to_float x = Ok f.
Proof.
  destruct x as [z | f]; cbn [tame to_float]; [| eauto].
  intros H. apply int_to_float_returns.
  assert (2 ^ 400 < 2 ^ 1024 - 2 ^ 970)%Z by (vm_compute; reflexivity). lia.
Qed.

Lemma py_add_tame (a b : Z) (x y : PyNum) :
  tame a x -> tame b y -> (0 <= a)%Z -> (0 <= b)%Z -> (a + b <= 2 ^ 400)%Z ->
  exists r, py_add x y = Ok r /\ tame (a + b) r.
Proof.
  intros Hx Hy Ha Hb Hab.
  destruct (to_float_tame x) as [fx Hfx]; [eapply tame_weaken, Hx; lia |].
  destruct (to_float_tame y) as [fy Hfy]; [eapply tame_weaken, Hy; lia |].
  destruct x as [zx | gx], y as [zy | gy]; cbn [py_add];
    try (rewrite Hfx, Hfy; cbn [mbind res_bind]; eexists; split; [reflexivity | exact I]).
  eexists. split; [reflexivity |]. cbn [tame] in *. lia.
Qed.

Lemma py_mul_tame (a b : Z) (x y : PyNum) :
  tame a x -> tame b y -> (0 <= a <= 2 ^ 400)%Z -> (0 <= b <= 2 ^ 400)%Z ->
  exists r, py_mul x y = Ok r /\ tame (a * b) r.
Proof.
  intros Hx Hy Ha Hb.
  destruct (to_float_tame x) as [fx Hfx]; [eapply tame_weaken, Hx; lia |].
  destruct (to_float_tame y) as [fy Hfy]; [eapply tame_weaken, Hy; lia |].
  destruct x as [zx | gx], y as [zy | gy]; cbn [py_mul];
    try (rewrite Hfx, Hfy; cbn [mbind res_bind]; eexists; split; [reflexivity | exact I]).
  eexists. split; [reflexivity |]. cbn [tame] in *. rewrite Z.abs_mul. nia.
Qed.

Lemma py_truediv_returns (x y : PyNum) :
  tame (2 ^ 400) x -> tame (2 ^ 400) y -> nonzero y ->
  exists f, py_truediv x y = Ok f.
Proof.
  intros Hx Hy Hnz.
  destruct (to_float_tame x Hx) as [fx Hfx].
  destruct (to_float_tame y Hy) as [fy Hfy].
  assert (Hmixed : exists f,
            (a ← to_float x; b ← to_float y;
             if is_zero b then Raise ZeroDivisionError else Ok (fdiv a b)) = Ok f).
  { rewrite Hfx, Hfy. cbn [mbind res_bind].
    rewrite (to_float_nonzero y fy Hnz Hfy). eauto. }
  destruct x as [zx | gx], y as [zy | gy]; cbn [py_truediv]; try exact Hmixed.
  cbn [tame nonzero] in *. unfold int_truediv.
  assert (Hlim : (2 ^ 400 < 2 ^ 1024 - 2 ^ 970)%Z) by (vm_compute; reflexivity).
  destruct zx as [| px | px], zy as [| py | py]; try congruence; eauto;
    match goal with
    | |- context [(?u <? ?v)%Z] =>
        destruct (Z.ltb_spec u v) as [_ | Hge]; [eauto | exfalso; nia]
    end.
Qed.

Lemma sums_return (sel : list NumRow) (tw tc : PyNum) (k : Z) :
  Forall (fun r => modest_row r = true) sel ->
  (0 <= k)%Z -> (k + Z.of_nat (length sel) <= 2 ^ 53)%Z ->
  tame (k * 2 ^ 126) tw -> tame (k * 2 ^ 63) tc ->
  exists w c,
    for_each (fun total r => w ← py_mul (nr_value r) (nr_confidence r);
                             py_add total w) sel tw = Ok w /\
    for_each (fun total r => py_add total (nr_confidence r)) sel tc = Ok c /\
    tame (2 ^ 400) w /\ tame (2 ^ 400) c.
Proof.
  intros Hsel. revert tw tc k.
  induction Hsel as [| r sel Hr Hsel IH]; intros tw tc k Hk Hlen Htw Htc.
  - cbn [for_each]. exists tw, tc. split; [reflexivity |]. split; [reflexivity |].
    cbn [length] in Hlen.
    split; (eapply tame_weaken; [| eassumption]).
    + change (2 ^ 400)%Z with (2 ^ 274 * 2 ^ 126)%Z.
      apply Z.mul_le_mono_nonneg_r; [vm_compute; discriminate |].
      assert (2 ^ 53 <= 2 ^ 274)%Z by (vm_compute; discriminate). lia.
    + change (2 ^ 400)%Z with (2 ^ 337 * 2 ^ 63)%Z.
      apply Z.mul_le_mono_nonneg_r; [vm_compute; discriminate |].
      assert (2 ^ 53 <= 2 ^ 337)%Z by (vm_compute; discriminate). lia.
  - cbn [for_each length] in *.
    unfold modest_row in Hr. apply andb_true_iff in Hr. destruct Hr as [Hv Hc].
    apply modest_tame in Hv, Hc.
    assert (H63 : (0 <= 2 ^ 63 <= 2 ^ 400)%Z) by (split; vm_compute; discriminate).
    destruct (py_mul_tame _ _ _ _ Hv Hc H63 H63) as (p & Hp & Tp).
    change (2 ^ 63 * 2 ^ 63)%Z with (2 ^ 126)%Z in Tp.
    assert (Hk53 : (k + 1 <= 2 ^ 53)%Z) by lia.
    assert (Hb1 : ((k + 1) * 2 ^ 126 <= 2 ^ 400)%Z).
    { change (2 ^ 400)%Z with (2 ^ 274 * 2 ^ 126)%Z.
      apply Z.mul_le_mono_nonneg_r; [vm_compute; discriminate |].
      assert (2 ^ 53 <= 2 ^ 274)%Z by (vm_compute; discriminate). lia. }
    assert (Hb2 : ((k + 1) * 2 ^ 63 <= 2 ^ 400)%Z).
    { change (2 ^ 400)%Z with (2 ^ 337 * 2 ^ 63)%Z.
      apply Z.mul_le_mono_nonneg_r; [vm_compute; discriminate |].
      assert (2 ^ 53 <= 2 ^ 337)%Z by (vm_compute; discriminate). lia. }
    assert (P126 : (0 <= 2 ^ 126)%Z) by (vm_compute; discriminate).
    assert (P63 : (0 <= 2 ^ 63)%Z) by (vm_compute; discriminate).
    destruct (py_add_tame (k * 2 ^ 126) (2 ^ 126) tw p Htw Tp) as (tw' & Htw' & Ttw');
      [nia | lia | lia |].
    destruct (py_add_tame (k * 2 ^ 63) (2 ^ 63) tc (nr_confidence r) Htc Hc)
      as (tc' & Htc' & Ttc'); [nia | lia | lia |].
    rewrite Hp. cbn [mbind res_bind]. rewrite Htw', Htc'. cbn [mbind res_bind].
    apply (IH tw' tc' (k + 1)%Z); [lia | lia | |].
    + eapply tame_weaken; [| exact Ttw']. lia.
    + eapply tame_weaken; [| exact Ttc']. lia.
Qed.

(** With ints that fit 64 bits and fewer than 2^53 records the category
    scorer returns. *)
Lemma num_category_score_returns (sel : list NumRow) :
  Forall (fun r => modest_row r = true) sel ->
  (Z.of_nat (length sel) < 2 ^ 53)%Z ->
  exists r, num_category_score sel = Ok r.
Proof.
  intros Hsel Hlen. unfold num_category_score.
  destruct sel as [| r0 sel0] eqn:E; [eauto |]. rewrite <- E in *.
  destruct (sums_return sel (NInt 0) (NInt 0) 0 Hsel) as (w & c & Hw & Hc & Tw & Tc);
    [lia | lia | cbn; lia | cbn; lia |].
  unfold sum_weighted, sum_confidence. rewrite Hw, Hc. cbn [mbind res_bind].
  destruct (py_gt c (NInt 0)) eqn:Hgt; [| eauto].
  apply py_gt_nonzero in Hgt.
  destruct (py_truediv_returns w c Tw Tc Hgt) as [s Hs]. rewrite Hs.
  cbn [mbind res_bind].
  destruct (py_truediv_returns c (NInt (Z.of_nat (length sel))) Tc) as [a Ha].
  { cbn [tame]. assert (2 ^ 53 <= 2 ^ 400)%Z by (vm_compute; discriminate). lia. }
  { cbn [nonzero]. rewrite E. cbn [length]. lia. }
  rewrite Ha. cbn [mbind res_bind]. eauto.
Qed.

End NumReturns.

Section NumFinalScorer.
Import FloatScorer.

Lemma int_to_float_0 : int_to_float 0 = Ok (S754_zero false).
Proof. vm_compute. reflexivity. Qed.

Lemma int_to_float_3 : int_to_float 3 = Ok (float_lit 3).
Proof. vm_compute. reflexivity. Qed.

Lemma py_add_0_float (x : float64) :
  py_add (NInt 0) (NFloat x) = Ok (NFloat (fadd (S754_zero false) x)).
Proof. cbn [py_add to_float]. rewrite int_to_float_0. reflexivity. Qed.

Lemma weight_sum_is_one :
  fadd (fadd (fadd (S754_zero false) (float_lit 0.40)) (float_lit 0.35))
       (float_lit 0.25)
  = float_lit 1.0.
Proof. vm_compute. reflexivity. Qed.

(** The loop over three weights: the category calls in order, then the
    weighted sum and the weight sum from the int 0. *)
Lemma calculate_final_score_three (compensated : bool) (w1 w2 w3 : float64)
    (metrics : list Metric) :
  calculate_final_score_with compensated
    [ ("Environmental", w1); ("Social", w2); ("Governance", w3) ]%string metrics
  = (env ← calculate_category_score metrics "Environmental";
     soc ← calculate_category_score metrics "Social";
     gov ← calculate_category_score metrics "Governance";
     let breakdown :=
       [ ("Environmental", env); ("Social", soc); ("Governance", gov) ]%string in
     final ←
       weighted_final
         (NFloat (fadd (fadd (fadd (S754_zero false) (fmul (cs_score env) w1))
                             (fmul (cs_score soc) w2))
                       (fmul (cs_score gov) w3)))
         (NFloat (fadd (fadd (fadd (S754_zero false) w1) w2) w3));
     Ok {| final_score := float_round final 2;
           score_level := _get_score_level (NFloat final);
           fs_confidence :=
             float_round (float_mean3 compensated (cs_confidence env)
                                      (cs_confidence soc) (cs_confidence gov)) 2;
           environmental_score := cs_score env;
           social_score := cs_score soc;
           governance_score := cs_score gov;
           category_breakdown := breakdown;
           component_scores := _build_component_scores breakdown |}).
Proof.
  unfold calculate_final_score_with. cbn [for_each]. unfold score_step.
  destruct (calculate_category_score metrics "Environmental") as [env | e];
    cbn [mbind res_bind]; [| reflexivity].
  cbn [py_mul to_float mbind res_bind]. rewrite !py_add_0_float.
  cbn [mbind res_bind].
  destruct (calculate_category_score metrics "Social") as [soc | e];
    cbn [mbind res_bind]; [| reflexivity].
  cbn [py_mul py_add to_float mbind res_bind].
  destruct (calculate_category_score metrics "Governance") as [gov | e];
    cbn [mbind res_bind]; [| reflexivity].
  cbn [py_mul py_add to_float mbind res_bind app].
  destruct (weighted_final _ _) as [final | e]; cbn [mbind res_bind]; [| reflexivity].
  cbn [map snd sum_floats length]. cbn [py_truediv to_float].
  change (Z.of_nat 3) with 3%Z. rewrite int_to_float_3. cbn [mbind res_bind].
  change (is_zero (float_lit 3)) with false. cbn iota.
  change (items_get "Environmental" _) with (Ok env).
  change (items_get "Social" _) with (Ok soc).
  change (items_get "Governance" _) with (Ok gov).
  cbn [mbind res_bind]. reflexivity.
Qed.

Lemma calculate_final_score_num_outcome (compensated : bool)
    (metrics : list Metric) :
  calculate_final_score compensated metrics
  = (env ← calculate_category_score metrics "Environmental";
     soc ← calculate_category_score metrics "Social";
     gov ← calculate_category_score metrics "Governance";
     Ok (num_final_score compensated env soc gov)).
Proof.
  unfold calculate_final_score, CATEGORY_WEIGHTS.
  rewrite calculate_final_score_three.
  destruct (calculate_category_score metrics "Environmental") as [env | e];
    cbn [mbind res_bind]; [| reflexivity].
  destruct (calculate_category_score metrics "Social") as [soc | e];
    cbn [mbind res_bind]; [| reflexivity].
  destruct (calculate_category_score metrics "Governance") as [gov | e];
    cbn [mbind res_bind]; [| reflexivity].
  unfold weighted_final.
  assert (Hpos : py_gt (NFloat (fadd (fadd (fadd (S754_zero false) (float_lit 0.40))
                                           (float_lit 0.35)) (float_lit 0.25)))
                       (NInt 0) = true) by (vm_compute; reflexivity).
  rewrite Hpos. cbn [py_truediv to_float mbind res_bind].
  assert (Hnz : is_zero (fadd (fadd (fadd (S754_zero false) (float_lit 0.40))
                                    (float_lit 0.35)) (float_lit 0.25)) = false)
    by (vm_compute; reflexivity).
  rewrite Hnz. cbn [mbind res_bind]. reflexivity.
Qed.

End NumFinalScorer.

Section NumScorerErrors.
Import FloatScorer.

Lemma num_filter_category_ok (metrics : list Metric) (cat : string) :
  forallb num_has_category metrics = true ->
  filter_category metrics cat = Ok (List.filter (num_of_category cat) metrics).
Proof.
  induction metrics as [| m ms IH]; [reflexivity |].
  cbn [forallb]. rewrite andb_true_iff. intros [Hm Hms].
  cbn [filter_category List.filter]. rewrite (IH Hms).
  unfold num_has_category in Hm. unfold num_of_category.
  destruct (category m) as [c |]; [| discriminate]. cbn.
  destruct (String.eqb c cat); reflexivity.
Qed.

Lemma num_filter_category_raises (metrics : list Metric) (cat : string) :
  forallb num_has_category metrics = false ->
  filter_category metrics cat = Raise (KeyError "category").
Proof.
  induction metrics as [| m ms IH]; [discriminate |].
  cbn [forallb filter_category]. unfold num_has_category at 1.
  destruct (category m) as [c |]; [| reflexivity].
  cbn. intros H. rewrite (IH H). reflexivity.
Qed.

Lemma num_metric_detail_eq (m : Metric) :
  metric_detail m
  = (n ← getitem "metric_name" (metric_name m);
     v ← getitem "value" (value m);
     c ← getitem "confidence" (confidence m);
     Ok {| md_name := n; md_value := v; md_confidence := c |}).
Proof. reflexivity. Qed.

Lemma num_mapM_cons (m : Metric) (l : list Metric) :
  mapM metric_detail (m :: l)
  = (y ← metric_detail m; k ← mapM metric_detail l; mret (y :: k)).
Proof. reflexivity. Qed.

(** The detail list is built exactly when every record has its three
    other keys; otherwise a [KeyError] on one of them is raised. *)
Lemma num_mapM_metric_detail (l : list Metric) :
  if forallb num_has_details l
  then exists details, mapM metric_detail l = Ok details
  else exists key, mapM metric_detail l = Raise (KeyError key) /\
                   In key ["metric_name"; "value"; "confidence"]%string.
Proof.
  induction l as [| m l IH]; [exists []; reflexivity |].
  cbn [forallb]. rewrite num_mapM_cons, num_metric_detail_eq.
  unfold num_has_details at 1.
  destruct (metric_name m) as [n |];
    [| eexists; split; [reflexivity | cbn; tauto]].
  destruct (value m) as [v |];
    [| eexists; split; [reflexivity | cbn; tauto]].
  destruct (confidence m) as [c |];
    [| eexists; split; [reflexivity | cbn; tauto]].
  cbn [andb getitem mbind res_bind].
  destruct (forallb num_has_details l).
  - destruct IH as [ds ->]. eexists. reflexivity.
  - destruct IH as (key & -> & Hin). exists key. split; [reflexivity | exact Hin].
Qed.

Lemma accumulate_only_overflow (l : list Metric) (acc : PyNum * PyNum) :
  only_overflow (for_each accumulate l acc).
Proof.
  apply for_each_only_overflow. intros s x. unfold accumulate.
  apply only_overflow_bind; [apply py_mul_only_overflow |]. intros w _.
  apply only_overflow_bind; [apply py_add_only_overflow |]. intros tw _.
  apply only_overflow_bind; [apply py_add_only_overflow |]. intros tc _.
  apply only_overflow_Ok.
Qed.

Lemma averages_only_overflow (m : Metric) (l : list Metric) :
  only_overflow (category_averages (m :: l)).
Proof.
  unfold category_averages.
  apply only_overflow_bind; [apply accumulate_only_overflow |].
  intros totals _. destruct (py_gt (snd totals) (NInt 0)) eqn:Hgt;
    [| apply only_overflow_Ok].
  apply py_gt_nonzero in Hgt.
  apply only_overflow_bind; [now apply py_truediv_only_overflow |].
  intros s _. apply only_overflow_bind; [| intros; apply only_overflow_Ok].
  apply py_truediv_only_overflow. cbn [nonzero length]. lia.
Qed.

(** The category scorer when every record has a category: the averages of
    the records of the category, then their details. *)
Lemma calculate_category_score_shape (metrics : list Metric) (cat : string) :
  forallb num_has_category metrics = true ->
  calculate_category_score metrics cat
  = match List.filter (num_of_category cat) metrics with
    | [] => Ok (neutral_result 0 [])
    | m :: l =>
        averages ← category_averages (m :: l);
        metric_details ← mapM metric_detail (m :: l);
        Ok {| cs_score := float_round (fst averages) 2;
              cs_confidence := float_round (snd averages) 2;
              cs_metric_count := length (m :: l);
              cs_metrics := metric_details |}
    end.
Proof.
  intros Hc. unfold calculate_category_score.
  rewrite (num_filter_category_ok _ _ Hc). cbn [mbind res_bind].
  destruct (List.filter (num_of_category cat) metrics) as [| m l]; [reflexivity |].
  unfold category_averages.
  destruct (for_each accumulate (m :: l) (NInt 0, NInt 0)) as [totals | e];
    reflexivity.
Qed.

Lemma calculate_category_score_error (metrics : list Metric) (cat : string)
    (e : PyExc) :
  calculate_category_score metrics cat = Raise e ->
  e = OverflowError \/
  exists key, e = KeyError key /\
              In key ["category"; "metric_name"; "value"; "confidence"]%string.
Proof.
  destruct (forallb num_has_category metrics) eqn:Hc.
  2:{ unfold calculate_category_score.
      rewrite (num_filter_category_raises _ _ Hc). intros [= <-].
      right. eexists. split; [reflexivity | cbn; tauto]. }
  rewrite (calculate_category_score_shape _ _ Hc).
  destruct (List.filter (num_of_category cat) metrics) as [| m l]; [discriminate |].
  pose proof (averages_only_overflow m l) as Hav.
  destruct (category_averages (m :: l)) as [av | e']; cbn [mbind res_bind].
  - pose proof (num_mapM_metric_detail (m :: l)) as Hd.
    destruct (forallb num_has_details (m :: l)).
    + destruct Hd as [ds ->]. cbn [mbind res_bind]. discriminate.
    + destruct Hd as (key & -> & Hin). cbn [mbind res_bind].
      intros [= <-]. right. exists key.
      split; [reflexivity |]. cbn in *. tauto.
  - intros [= <-]. left. now apply Hav.
Qed.

Lemma calculate_category_score_error_category (metrics : list Metric)
    (cat : string) :
  forallb num_has_category metrics = false ->
  calculate_category_score metrics cat = Raise (KeyError "category").
Proof.
  intros H. unfold calculate_category_score.
  now rewrite (num_filter_category_raises _ _ H).
Qed.

Lemma calculate_category_score_details (metrics : list Metric) (cat : string)
    (r : CategoryScore) :
  forallb num_has_category metrics = true ->
  calculate_category_score metrics cat = Ok r ->
  forallb num_has_details (List.filter (num_of_category cat) metrics) = true.
Proof.
  intros Hc. rewrite (calculate_category_score_shape _ _ Hc).
  destruct (List.filter (num_of_category cat) metrics) as [| m l]; [reflexivity |].
  destruct (category_averages (m :: l)) as [av | e']; cbn [mbind res_bind];
    [| discriminate].
  pose proof (num_mapM_metric_detail (m :: l)) as Hd.
  destruct (forallb num_has_details (m :: l)); [reflexivity |].
  destruct Hd as (key & -> & _). cbn [mbind res_bind]. discriminate.
Qed.

(** Records of one category that have all their keys are rows. *)
Lemma rows_of_metrics (cat : string) (l : list Metric) :
  forallb (num_of_category cat) l = true ->
  forallb num_has_details l = true ->
  forallb modest_metric l = true ->
  exists rows,
    l = map num_metric_of rows /\ num_select cat rows = rows /\
    Forall (fun r => modest_row r = true) rows.
Proof.
  induction l as [| m l IH]; [exists []; repeat split; constructor |].
  cbn [forallb]. rewrite !andb_true_iff.
  intros [Hc Hcs] [Hd Hds] [Hm Hms].
  destruct (IH Hcs Hds Hms) as (rows & -> & Hsel & Hmod).
  destruct m as [c n v k]. unfold num_of_category, num_has_details, modest_metric in *.
  cbn [category metric_name value confidence] in *.
  destruct c as [c |]; [| discriminate].
  destruct n as [n |]; [| discriminate].
  destruct v as [v |]; [| discriminate].
  destruct k as [k |]; [| discriminate].
  exists ({| nr_category := c; nr_name := n; nr_value := v; nr_confidence := k |}
          :: rows).
  split; [reflexivity |]. split.
  - cbn [num_select List.filter nr_category]. rewrite Hc.
    fold (num_select cat rows). now rewrite Hsel.
  - constructor; [exact Hm | exact Hmod].
Qed.

Lemma forallb_filter_same {A} (p : A -> bool) (l : list A) :
  forallb p (List.filter p l) = true.
Proof.
  induction l as [| x l IH]; [reflexivity |].
  cbn [List.filter]. destruct (p x) eqn:E; [cbn [forallb]; now rewrite E |].
  exact IH.
Qed.

Lemma filter_length_le {A} (p : A -> bool) (l : list A) :
  (length (List.filter p l) <= length l)%nat.
Proof.
  induction l as [| x l IH]; [reflexivity |].
  cbn [List.filter]. destruct (p x); cbn [length]; lia.
Qed.

(** With every key present, ints that fit 64 bits and fewer than 2^53
    records, the category scorer returns. *)
Lemma calculate_category_score_num_returns (metrics : list Metric) (cat : string) :
  forallb num_has_category metrics = true ->
  forallb num_has_details (List.filter (num_of_category cat) metrics) = true ->
  forallb modest_metric (List.filter (num_of_category cat) metrics) = true ->
  (Z.of_nat (length metrics) < 2 ^ 53)%Z ->
  exists r, calculate_category_score metrics cat = Ok r.
Proof.
  intros Hc Hd Hm Hlen.
  destruct (rows_of_metrics cat _ (forallb_filter_same _ _) Hd Hm)
    as (rows & Hrows & Hsel & Hmod).
  assert (Heq : calculate_category_score metrics cat
                = calculate_category_score (map num_metric_of rows) cat).
  { unfold calculate_category_score.
    rewrite (num_filter_category_ok _ _ Hc), filter_category_num_rows.
    now rewrite Hrows, Hsel. }
  rewrite Heq, calculate_category_score_num_rows, Hsel.
  apply num_category_score_returns; [exact Hmod |].
  pose proof (filter_length_le (num_of_category cat) metrics) as Hle.
  rewrite Hrows, length_map in Hle. lia.
Qed.

Lemma num_forallb_scored (f : Metric -> bool) (metrics : list Metric) :
  forallb (fun m => implb (num_is_scored m) (f m)) metrics
  = forallb f (List.filter (num_of_category "Environmental") metrics)
    && forallb f (List.filter (num_of_category "Social") metrics)
    && forallb f (List.filter (num_of_category "Governance") metrics).
Proof.
  rewrite !forallb_filter.
  induction metrics as [| m ms IH]; [reflexivity |].
  cbn [forallb]. rewrite IH. unfold num_is_scored.
  destruct (num_of_category "Environmental" m), (num_of_category "Social" m),
    (num_of_category "Governance" m), (f m); cbn;
    repeat (destruct (forallb _ ms)); reflexivity.
Qed.

End NumScorerErrors.

(** ** The claims on Python's numbers *)

Section NumCategoryClaims.
Import FloatScorer.

(** C4: the category scorer on records that carry their four fields, with
    Python's arithmetic on ints and floats.  With no record of the category
    the result is the neutral one.  With records, it computes the sum of
    the products value x confidence and the sum of the confidences, from
    the int 0 and in list order; when the confidence sum is greater than 0
    the score is the quotient of the two sums and the confidence is the
    confidence sum divided by the count, both rounded to two decimals, with
    the count and the details in filter order; when the confidence sum is
    not greater than 0 (zero in particular) the score is 50.0 and the
    confidence 0.0.  The call returns whenever the ints among the numbers
    fit 64 bits and there are fewer than 2^53 records, and the only
    exception it can raise is OverflowError.  The two Environmental
    metrics (80, 0.2) and (40, 0.8) give 48.0 and 0.5. *)
Theorem C4_category_score (rows : list NumRow) (cat : string) :
  let sel := num_select cat rows in
  let result := calculate_category_score (map num_metric_of rows) cat in
  (sel = [] -> result = Ok (neutral_result 0 [])) /\
  (forall weighted total score conf,
     sel <> [] ->
     sum_weighted sel = Ok weighted -> sum_confidence sel = Ok total ->
     py_gt total (NInt 0) = true ->
     py_truediv weighted total = Ok score ->
     py_truediv total (NInt (Z.of_nat (length sel))) = Ok conf ->
     result = Ok {| cs_score := float_round score 2;
                    cs_confidence := float_round conf 2;
                    cs_metric_count := length sel;
                    cs_metrics := map num_detail_of sel |}) /\
  (forall weighted total,
     sel <> [] ->
     sum_weighted sel = Ok weighted -> sum_confidence sel = Ok total ->
     py_gt total (NInt 0) = false ->
     result = Ok (neutral_result (length sel) (map num_detail_of sel))) /\
  (Forall (fun r => modest_row r = true) sel ->
   (Z.of_nat (length sel) < 2 ^ 53)%Z ->
   exists r, result = Ok r) /\
  (forall e, result = Raise e -> e = OverflowError) /\
  (exists r,
     calculate_category_score (map num_metric_of two_environmental)
       "Environmental" = Ok r /\
     cs_score r = float_lit 48.0 /\ cs_confidence r = float_lit 0.5 /\
     cs_metric_count r = 2%nat).
Proof.
  intros sel result. subst result. rewrite calculate_category_score_num_rows.
  fold sel. split; [| split; [| split; [| split; [| split]]]].
  - intros ->. reflexivity.
  - intros weighted total score conf Hne Hw Hc Hgt Hs Ha.
    unfold num_category_score. destruct sel as [| r sel']; [congruence |].
    rewrite Hw, Hc. cbn [mbind res_bind]. rewrite Hgt, Hs.
    cbn [mbind res_bind]. rewrite Ha. reflexivity.
  - intros weighted total Hne Hw Hc Hgt.
    unfold num_category_score. destruct sel as [| r sel']; [congruence |].
    rewrite Hw, Hc. cbn [mbind res_bind]. rewrite Hgt. reflexivity.
  - apply num_category_score_returns.
  - apply num_category_score_only_overflow.
  - eexists. split; [vm_compute; reflexivity |]. repeat split; reflexivity.
Qed.

(** Other lists, where the order of the float operations shows: the mean
    of 0.02 and 0.99 is 0.505 as a float sum divided by 2 and rounds to
    0.51; the quotient 0.005 rounds to 0.01. *)
Lemma category_score_float_examples :
  (exists r,
     calculate_category_score
       (map num_metric_of
          [ num_row "Environmental" "A" (NInt 80) (flt 0.02);
            num_row "Environmental" "B" (NInt 60) (flt 0.99) ]%string)
       "Environmental" = Ok r /\
     cs_score r = float_lit 60.4 /\ cs_confidence r = float_lit 0.51) /\
  (exists r,
     calculate_category_score
       (map num_metric_of
          [ num_row "Environmental" "A" (flt 0.01) (flt 0.5);
            num_row "Environmental" "B" (NInt 0) (flt 0.5) ]%string)
       "Environmental" = Ok r /\
     cs_score r = float_lit 0.01 /\ cs_confidence r = float_lit 0.5).
Proof.
  split; (eexists; split; [vm_compute; reflexivity |]); split; reflexivity.
Qed.

End NumCategoryClaims.

Section NumFinalClaims.
Import FloatScorer.

(** C5 (as amended): with Python's float arithmetic, the final score is
    the combination (0.40 E + 0.35 S + 0.25 G) / (0.40 + 0.35 + 0.25) of the
    three category scores rounded to two decimals, the level is taken from
    the combination itself, and the overall confidence is the sum of the
    three category confidences divided by 3, rounded to two decimals; the
    weight sum is 1.0, and the 50.0 fallback is taken when the weight sum
    is not greater than 0.  Category scores 80, 70 and 60 give 71.5 and
    "Good". *)
Theorem C5_final_score (compensated : bool) (metrics : list Metric)
    (env soc gov : CategoryScore) :
  calculate_category_score metrics "Environmental" = Ok env ->
  calculate_category_score metrics "Social" = Ok soc ->
  calculate_category_score metrics "Governance" = Ok gov ->
  let raw := float_combine (cs_score env) (cs_score soc) (cs_score gov) in
  (exists r,
     calculate_final_score compensated metrics = Ok r /\
     environmental_score r = cs_score env /\
     social_score r = cs_score soc /\
     governance_score r = cs_score gov /\
     final_score r = float_round raw 2 /\
     score_level r = _get_score_level (NFloat raw) /\
     fs_confidence r
       = float_round (float_mean3 compensated (cs_confidence env)
                                  (cs_confidence soc) (cs_confidence gov)) 2 /\
     (cs_score env = float_lit 80 -> cs_score soc = float_lit 70 ->
      cs_score gov = float_lit 60 ->
      final_score r = float_lit 71.5 /\ score_level r = "Good"%string)) /\
  fadd (fadd (fadd (S754_zero false) (float_lit 0.40)) (float_lit 0.35))
       (float_lit 0.25) = float_lit 1.0 /\
  (forall weighted_sum total_weight,
     (py_gt total_weight (NInt 0) = true ->
      weighted_final weighted_sum total_weight
      = py_truediv weighted_sum total_weight) /\
     (py_gt total_weight (NInt 0) = false ->
      weighted_final weighted_sum total_weight = Ok (float_lit 50.0))) /\
  (exists r,
     calculate_final_score_with compensated
       [ ("Environmental", float_lit 0); ("Social", float_lit 0);
         ("Governance", float_lit 0) ]%string metrics = Ok r /\
     final_score r = float_lit 50).
Proof.
  intros He Hs Hg raw. split; [| split; [| split]].
  - exists (num_final_score compensated env soc gov).
    split.
    { rewrite calculate_final_score_num_outcome, He, Hs, Hg. reflexivity. }
    cbn [num_final_score environmental_score social_score governance_score
         final_score score_level fs_confidence].
    repeat (split; [reflexivity |]).
    intros -> -> ->. split; vm_compute; reflexivity.
  - apply weight_sum_is_one.
  - intros ws tw. unfold weighted_final. split; intros ->; reflexivity.
  - rewrite calculate_final_score_three, He, Hs, Hg. cbn [mbind res_bind].
    unfold weighted_final.
    change (py_gt (NFloat _) (NInt 0)) with false. cbn [mbind res_bind].
    eexists. split; [reflexivity |]. cbn [final_score]. vm_compute. reflexivity.
Qed.

(** C10: the level is computed from the unrounded combination and the
    returned final score is that combination rounded to two decimals; on
    the valid list with category scores 85.0, 85.0 and 84.99 the
    combination is 84.9975, the returned final score is 85.0, and the
    returned level is not the level of 85.0. *)
Theorem C10_level_from_unrounded_score :
  (forall (compensated : bool) (metrics : list Metric) (r : FinalScore),
     calculate_final_score compensated metrics = Ok r ->
     let raw := float_combine (environmental_score r) (social_score r)
                              (governance_score r) in
     score_level r = _get_score_level (NFloat raw) /\
     final_score r = float_round raw 2) /\
  (forall compensated : bool,
     exists r,
       calculate_final_score compensated
         (one_per_category (flt 85) (flt 85) (flt 84.99)) = Ok r /\
       environmental_score r = float_lit 85.0 /\
       social_score r = float_lit 85.0 /\
       governance_score r = float_lit 84.99 /\
       float_combine (environmental_score r) (social_score r)
                     (governance_score r) = float_lit 84.9975 /\
       final_score r = float_lit 85.0 /\
       score_level r = _get_score_level (flt 84.9975) /\
       score_level r <> _get_score_level (NFloat (final_score r))).
Proof.
  split.
  - intros compensated metrics r. rewrite calculate_final_score_num_outcome.
    destruct (calculate_category_score metrics "Environmental") as [env | e];
      cbn [mbind res_bind]; [| discriminate].
    destruct (calculate_category_score metrics "Social") as [soc | e];
      cbn [mbind res_bind]; [| discriminate].
    destruct (calculate_category_score metrics "Governance") as [gov | e];
      cbn [mbind res_bind]; [| discriminate].
    intros [= <-]. split; reflexivity.
  - intros compensated.
    destruct compensated;
      (eexists; split; [vm_compute; reflexivity |];
       cbn [environmental_score social_score governance_score final_score
            score_level];
       repeat split; try (vm_compute; reflexivity);
       vm_compute; discriminate).
Qed.

End NumFinalClaims.

Section NumScorerOutcome.
Import FloatScorer.

(** X1: [calculate_final_score] raises [KeyError('category')] as soon as one
    record of the list has no category, whatever its other records.  When
    every record has a category: if it returns, every record of the three
    scored categories has its name, value and confidence; and it does
    return when they have them, the ints among their numbers fit 64 bits
    and the list has fewer than 2^53 records.  The only exceptions it
    raises are a [KeyError] on one of the four keys and [OverflowError];
    the latter on a record with all its keys whose value is the int
    10^400. *)
Theorem X1_final_score_returns (compensated : bool) (metrics : list Metric) :
  let result := calculate_final_score compensated metrics in
  let complete :=
    forallb (fun m => implb (num_is_scored m) (num_has_details m)) metrics in
  (forallb num_has_category metrics = false ->
   result = Raise (KeyError "category")) /\
  (forallb num_has_category metrics = true ->
   ((exists r, result = Ok r) -> complete = true) /\
   (complete = true ->
    forallb (fun m => implb (num_is_scored m) (modest_metric m)) metrics = true ->
    (Z.of_nat (length metrics) < 2 ^ 53)%Z ->
    exists r, result = Ok r)) /\
  (forall e, result = Raise e ->
     e = OverflowError \/
     exists key, e = KeyError key /\
                 In key ["category"; "metric_name"; "value"; "confidence"]%string) /\
  calculate_final_score compensated
    [ num_metric "Social" "A" (NInt (10 ^ 400)) (flt 0.5) ]
  = Raise OverflowError.
Proof.
  cbn zeta. rewrite calculate_final_score_num_outcome.
  split; [| split; [| split]].
  - intros Hc.
    now rewrite (calculate_category_score_error_category _ "Environmental" Hc).
  - intros Hc. rewrite num_forallb_scored. split.
    + intros [r Hr].
      destruct (calculate_category_score metrics "Environmental") as [env | e] eqn:He;
        cbn [mbind res_bind] in Hr; [| discriminate].
      destruct (calculate_category_score metrics "Social") as [soc | e] eqn:Hs;
        cbn [mbind res_bind] in Hr; [| discriminate].
      destruct (calculate_category_score metrics "Governance") as [gov | e] eqn:Hg;
        cbn [mbind res_bind] in Hr; [| discriminate].
      rewrite (calculate_category_score_details _ _ _ Hc He).
      rewrite (calculate_category_score_details _ _ _ Hc Hs).
      rewrite (calculate_category_score_details _ _ _ Hc Hg). reflexivity.
    + rewrite num_forallb_scored, !andb_true_iff.
      intros [[De Ds] Dg] [[Me Ms] Mg] Hlen.
      destruct (calculate_category_score_num_returns _ _ Hc De Me Hlen) as [env ->].
      destruct (calculate_category_score_num_returns _ _ Hc Ds Ms Hlen) as [soc ->].
      destruct (calculate_category_score_num_returns _ _ Hc Dg Mg Hlen) as [gov ->].
      cbn [mbind res_bind]. eauto.
  - intros e.
    destruct (calculate_category_score metrics "Environmental") as [env | e1] eqn:He;
      cbn [mbind res_bind];
      [| intros [= <-]; exact (calculate_category_score_error _ _ _ He)].
    destruct (calculate_category_score metrics "Social") as [soc | e1] eqn:Hs;
      cbn [mbind res_bind];
      [| intros [= <-]; exact (calculate_category_score_error _ _ _ Hs)].
    destruct (calculate_category_score metrics "Governance") as [gov | e1] eqn:Hg;
      cbn [mbind res_bind];
      [| intros [= <-]; exact (calculate_category_score_error _ _ _ Hg)].
    discriminate.
  - vm_compute. reflexivity.
Qed.

End NumScorerOutcome.

(** ** The theorems at concrete inputs *)



(** The LLM call fails with a connection error. *)
Lemma C8_extraction_failure_gives_defaults_witness :
  MetricsExtractor.extract_metrics no_float no_json plain_prompt failing_llm
    "Tesla" [ {| MetricsExtractor.url := "https://example.com/impact";
                 MetricsExtractor.content := "report" |} ]
  = Ok MetricsExtractor._get_default_metrics.
Proof.
  refine (proj1 (proj2 (C8_extraction_failure_gives_defaults
            no_float no_json plain_prompt failing_llm "Tesla"
            [ {| MetricsExtractor.url := "https://example.com/impact";
                 MetricsExtractor.content := "report" |} ]))
            (OtherException "APIConnectionError") _ _).
  - reflexivity.
  - reflexivity.
Defined.

Lemma X2_other_categories_ignored_witness :
  SustainabilityScorer.calculate_final_score mixed_metrics
  = SustainabilityScorer.calculate_final_score (List.filter is_scored mixed_metrics).
Proof.
  apply (X2_other_categories_ignored mixed_metrics). reflexivity.
Defined.

Lemma X3_no_data_is_neutral_witness :
  exists r, SustainabilityScorer.calculate_final_score [] = Ok r /\
            SustainabilityScorer.final_score r = 50.
Proof.
  eexists. split.
  - apply (X3_no_data_is_neutral []); reflexivity.
  - reflexivity.
Defined.


Lemma X5_scores_in_range_witness :
  exists r,
    SustainabilityScorer.calculate_final_score (map metric_of [row_labor 60]) = Ok r /\
    0 <= SustainabilityScorer.final_score r <= 100.
Proof.
  destruct (X5_scores_in_range [row_labor 60]) as (r & H1 & H2 & _).
  - constructor; [reflexivity | constructor].
  - exists r. auto.
Defined.



Lemma X8_component_scores_witness :
  SustainabilityScorer._build_component_scores clashing_names
    !! "waste_management"%string = Some 40.
Proof.
  refine (proj2 (X8_component_scores clashing_names)
            [("environmental_overall", 60); ("waste_management", 80)]%string
            "waste_management"%string 40 [] _ _).
  - reflexivity.
  - apply not_elem_of_nil.
Defined.

Lemma X9_validator_output_clean_witness :
  forallb clean_record validated_examples = true.
Proof.
  refine (proj1 (X9_validator_output_clean no_float
                   (VList (map VDict raw_examples)) validated_examples _)).
  vm_compute. reflexivity.
Defined.

Lemma X10_validator_idempotent_witness :
  MetricsExtractor._validate_metrics no_float
    (VList (map VDict (map record_map validated_examples)))
  = Ok validated_examples.
Proof.
  apply (X10_validator_idempotent no_float (VList (map VDict raw_examples))).
  vm_compute. reflexivity.
Defined.

Lemma X11_validator_on_dicts_witness :
  MetricsExtractor._validate_metrics no_float (VList (map VDict raw_examples))
  = Ok (omap (spec_validated no_float) raw_examples).
Proof.
  apply (X11_validator_on_dicts no_float raw_examples).
  repeat constructor.
Defined.

Lemma X12_extract_metrics_clean_witness :
  MetricsExtractor.extract_metrics no_float json_empty_object plain_prompt
    empty_object_llm "Tesla" []
  = Ok [].
Proof.
  refine (proj2 (X12_extract_metrics_clean no_float json_empty_object plain_prompt
                   empty_object_llm "Tesla" []) "{}"%string ∅ _ _ _);
    reflexivity.
Defined.

Lemma X13_extracted_metrics_score_witness :
  exists rows r,
    mapM row_of_record MetricsExtractor._get_default_metrics = Some rows /\
    SustainabilityScorer.calculate_final_score (map metric_of rows) = Ok r /\
    0 <= SustainabilityScorer.final_score r <= 100 /\
    0 <= SustainabilityScorer.fs_confidence r <= 1.
Proof.
  apply (X13_extracted_metrics_score no_float no_json plain_prompt failing_llm
           "Tesla" [] MetricsExtractor._get_default_metrics); reflexivity.
Defined.

Lemma X14_cache_answer_consistent_witness :
  one_source (days_ago example_now 6) <> [] /\
  (days_ago example_now 7 <= days_ago example_now 6)%Z.
Proof.
  destruct (X14_cache_answer_consistent example_now
              (cache_db (days_ago example_now 6) (one_source (days_ago example_now 6)))
              "Tesla" 7
              {| DatabaseManager.id := 1; DatabaseManager.name := "Tesla";
                 DatabaseManager.research_date := days_ago example_now 6;
                 DatabaseManager.last_updated := days_ago example_now 6 |}
              (one_source (days_ago example_now 6))
              []
              {| DatabaseManager.sr_company_id := 1;
                 DatabaseManager.final_score := 71.5;
                 DatabaseManager.environmental_score := Some 80;
                 DatabaseManager.social_score := Some 70;
                 DatabaseManager.governance_score := Some 60;
                 DatabaseManager.component_scores_json := "{}";
                 DatabaseManager.calculated_at := days_ago example_now 6 |})
    as (_ & _ & Hfresh & Hsources & _).
  - vm_compute. reflexivity.
  - split; [exact Hsources | exact Hfresh].
Defined.


Lemma X16_scrape_sources_result_witness :
  exists k url,
    (Z.of_nat k < 5 * 2)%Z /\ seven_urls !! k = Some url /\
    scrape_ok k url
    = Some {| MetricsExtractor.url := "https://e.example";
              MetricsExtractor.content := "report" |}.
Proof.
  refine (proj2 (proj2 (X16_scrape_sources_result scrape_ok seven_urls 5)) _ _).
  vm_compute. do 4 right. left.
Defined.

Lemma X18_research_company_bounds_witness :
  ResearchAgent.sources
    (fst (ResearchAgent.research_company no_search scrape_ok "Tesla")) = [] /\
  snd (ResearchAgent.research_company no_search scrape_ok "Tesla") = [].
Proof.
  refine (proj2 (proj2 (proj2 (proj2 (proj2
            (X18_research_company_bounds no_search scrape_ok "Tesla"))))) _).
  reflexivity.
Defined.

Lemma X19_classify_returns_dict_witness :
  IntentClassifier.classify no_json plain_intent_prompt failing_llm strip_nothing
    "Tesla" []
  = Ok (VDict (IntentClassifier.fallback strip_nothing "Tesla")).
Proof.
  refine (proj1 (proj2 (proj2 (proj2 (proj2
            (X19_classify_returns_dict no_json plain_intent_prompt failing_llm
               strip_nothing "Tesla" [])))))
            (OtherException "APIConnectionError") _ _);
    reflexivity.
Defined.

(** C5 (as stated) fails: the returned final score is rounded, so it need
    not equal the weighted combination of the category scores, and the
    returned confidence need not equal the mean of the category
    confidences. *)
Lemma C5_final_score_is_rounded : returns_rounded false /\ returns_rounded true.
Proof.
  split;
    (eexists; split; [vm_compute; reflexivity |];
     cbn [FloatScorer.environmental_score FloatScorer.social_score
          FloatScorer.governance_score FloatScorer.final_score
          FloatScorer.fs_confidence];
     repeat split; try (vm_compute; reflexivity);
     intros H; vm_compute in H; discriminate H).
Qed.

(** The two Environmental metrics (80, 0.2) and (40, 0.8): sums 48.0 and
    1.0. *)
Lemma C4_category_score_witness :
  FloatScorer.calculate_category_score (map num_metric_of two_environmental)
    "Environmental"
  = Ok {| FloatScorer.cs_score := float_round (float_lit 48) 2;
          FloatScorer.cs_confidence := float_round (float_lit 0.5) 2;
          FloatScorer.cs_metric_count := 2;
          FloatScorer.cs_metrics := map num_detail_of two_environmental |}.
Proof.
  refine (proj1 (proj2 (C4_category_score two_environmental "Environmental"))
            (flt 48) (flt 1) (float_lit 48) (float_lit 0.5) _ _ _ _ _ _).
  - discriminate.
  - vm_compute. reflexivity.
  - vm_compute. reflexivity.
  - vm_compute. reflexivity.
  - vm_compute. reflexivity.
  - vm_compute. reflexivity.
Defined.

(** Category scores 80, 70 and 60. *)
Lemma C5_final_score_witness :
  exists r,
    FloatScorer.calculate_final_score false
      (one_per_category (flt 80) (flt 70) (flt 60)) = Ok r /\
    FloatScorer.final_score r = float_lit 71.5 /\
    FloatScorer.score_level r = "Good"%string.
Proof.
  destruct (C5_final_score false (one_per_category (flt 80) (flt 70) (flt 60))
              (single_result "Carbon Emissions Reduction" (flt 80) 80)
              (single_result "Labor Practices" (flt 70) 70)
              (single_result "Board Independence" (flt 60) 60))
    as [(r & Hr & _ & _ & _ & _ & _ & _ & Hex) _].
  - vm_compute. reflexivity.
  - vm_compute. reflexivity.
  - vm_compute. reflexivity.
  - exists r. split; [exact Hr |]. apply Hex; reflexivity.
Defined.

(** Category scores 0, 85 and 1: the combination is 29.999999999999996,
    below the range of "Poor", and the returned final score is 30.0. *)
Lemma C10_level_from_unrounded_score_witness :
  let r := num_final_score false
             (single_result "Carbon Emissions Reduction" (NInt 0) 0)
             (single_result "Labor Practices" (NInt 85) 85)
             (single_result "Board Independence" (NInt 1) 1) in
  (FloatScorer.score_level r = "Unknown"%string /\
   FloatScorer.final_score r = float_lit 30) /\
  FloatScorer.score_level r
  = FloatScorer._get_score_level
      (NFloat (float_combine (FloatScorer.environmental_score r)
                             (FloatScorer.social_score r)
                             (FloatScorer.governance_score r))) /\
  FloatScorer.final_score r
  = float_round (float_combine (FloatScorer.environmental_score r)
                               (FloatScorer.social_score r)
                               (FloatScorer.governance_score r)) 2.
Proof.
  split; [split; vm_compute; reflexivity |].
  apply (proj1 C10_level_from_unrounded_score false
           (one_per_category (NInt 0) (NInt 85) (NInt 1))).
  vm_compute. reflexivity.
Defined.

(** One record without its category. *)
Lemma X1_final_score_returns_witness :
  FloatScorer.calculate_final_score false
    [ {| FloatScorer.category := None;
         FloatScorer.metric_name := Some "Labor Practices"%string;
         FloatScorer.value := Some (flt 70);
         FloatScorer.confidence := Some (flt 0.8) |} ]
  = Raise (KeyError "category").
Proof.
  refine (proj1 (X1_final_score_returns false _) _). reflexivity.
Defined.
